(** * Product manifolds (geomstats/geometry/product_manifold.py)

    A shallow embedding of [ProductManifold] (a product of possibly different
    factor manifolds, in 'vector' or 'matrix' point layout) and of
    [NFoldManifold] (n copies of one base manifold), together with the part
    of the array backend [gs] these two classes call.

    Arrays are kept as numpy keeps them: a shape and the elements in
    row-major order.  Calls into factor manifolds are the only effects of
    the code; they are recorded, in order, in a call log that every
    composite operation returns next to its result. *)

From Stdlib Require Import String List Arith Lia ZArith QArith Bool.
Import ListNotations.
Local Open Scope string_scope.
Local Open Scope nat_scope.
Local Open Scope list_scope.

(** ** Exceptions and results *)

(** The exception classes that occur.  [ConfigError] is what the spec calls
    the error of the parameter checks of geomstats.errors;
    [FactorOperationError] belongs to the spec's taxonomy only: no line of
    product_manifold.py builds one. *)
Inductive exn : Type :=
| ValueError (msg : string)
| TypeError (msg : string)
| IndexError (msg : string)
| AxisError (msg : string)
| AttributeError (msg : string)
| UnboundLocalError (msg : string)
| NotImplementedError (msg : string)
| ConfigError (msg : string)
| FactorOperationError (index : nat) (operation : string) (cause : exn).

Inductive result (A : Type) : Type :=
| Ok (a : A)
| Raise (e : exn).
Arguments Ok {A} a.
Arguments Raise {A} e.

Definition rbind {A B : Type} (r : result A) (f : A -> result B) : result B :=
  match r with
  | Ok a => f a
  | Raise e => Raise e
  end.

Declare Scope result_scope.
Delimit Scope result_scope with result.
Notation "x <- r ;; k" := (rbind r (fun x => k))
  (at level 61, r at next level, right associativity) : result_scope.

Fixpoint rmapM {A B : Type} (f : A -> result B) (l : list A) : result (list B) :=
  match l with
  | [] => Ok []
  | x :: t =>
      (y <- f x ;; ys <- rmapM f t ;; Ok (y :: ys))%result
  end.

Definition is_ok {A : Type} (r : result A) : bool :=
  match r with Ok _ => true | Raise _ => false end.

(** ** The array backend [gs] *)

Module gs.

Record ndarray (A : Type) : Type := mk_array {
  shape : list nat;
  data : list A
}.
Arguments mk_array {A} shape data.
Arguments shape {A} n.
Arguments data {A} n.

Definition nelems (s : list nat) : nat := fold_right Nat.mul 1 s.

Definition size {A} (a : ndarray A) : nat := nelems (shape a).
Definition ndim {A} (a : ndarray A) : nat := length (shape a).

(** numpy arrays always hold as many elements as their shape says. *)
Definition wf {A} (a : ndarray A) : Prop := length (data a) = size a.

(** The [o]-th block of [w] consecutive elements. *)
Definition chunk {A} (o w : nat) (l : list A) : list A :=
  firstn w (skipn (o * w) l).

(** A Python slice [l[st:en]] with non-negative bounds. *)
Definition slice {A} (st en : nat) (l : list A) : list A :=
  firstn (en - st) (skipn st l).

(** [axis] as numpy normalises it for an array of [nd] axes. *)
Definition normalize_axis (axis : Z) (nd : nat) : result nat :=
  if ((- Z.of_nat nd <=? axis) && (axis <? Z.of_nat nd))%Z
  then Ok (Z.to_nat (axis mod Z.of_nat nd))
  else Raise (AxisError "axis is out of bounds").

(** [gs.cumsum(l)].  numpy sums in 64-bit integers; the running sums of the
    model are exact as long as the total stays below [2 ^ 63], which holds
    whenever the total is the width of an array. *)
Fixpoint cumsum_from (acc : nat) (l : list nat) : list nat :=
  match l with
  | [] => []
  | x :: t => (acc + x) :: cumsum_from (acc + x) t
  end.
Definition cumsum (l : list nat) : list nat := cumsum_from 0 l.

(** [gs.split(a, indices, axis=-1)]: numpy cuts at [0; indices...; width],
    one sub-array per consecutive pair of cut points. *)
Fixpoint sections (st : nat) (div_points : list nat) : list (nat * nat) :=
  match div_points with
  | [] => []
  | en :: t => (st, en) :: sections en t
  end.

Definition split {A} (a : ndarray A) (indices : list nat) : result (list (ndarray A)) :=
  match rev (shape a) with
  | [] => Raise (IndexError "tuple index out of range")
  | w :: rbatch =>
      let batch := rev rbatch in
      Ok (map (fun '(st, en) =>
                 mk_array (batch ++ [Nat.min en w - st])
                          (flat_map (fun r => slice st en (chunk r w (data a)))
                                    (seq 0 (nelems batch))))
              (sections 0 (indices ++ [w])))
  end.

Definition same_shapes {A} (s : list nat) (arrs : list (ndarray A)) : bool :=
  forallb (fun a => if list_eq_dec Nat.eq_dec (shape a) s then true else false) arrs.

(** [gs.stack(arrs, axis)] *)
Definition stack {A} (arrs : list (ndarray A)) (axis : Z) : result (ndarray A) :=
  match arrs with
  | [] => Raise (ValueError "need at least one array to stack")
  | a0 :: _ =>
      let s := shape a0 in
      if same_shapes s arrs then
        (k <- normalize_axis axis (S (length s)) ;;
         let outer := nelems (firstn k s) in
         let inner := nelems (skipn k s) in
         Ok (mk_array (firstn k s ++ [length arrs] ++ skipn k s)
               (flat_map (fun o => flat_map (fun a => chunk o inner (data a)) arrs)
                         (seq 0 outer))))%result
      else Raise (ValueError "all input arrays must have the same shape")
  end.

(** [gs.concatenate(arrs, axis=-1)] *)
Definition concatenate {A} (arrs : list (ndarray A)) : result (ndarray A) :=
  match arrs with
  | [] => Raise (ValueError "need at least one array to concatenate")
  | a0 :: _ =>
      match rev (shape a0) with
      | [] => Raise (ValueError "zero-dimensional arrays cannot be concatenated")
      | _ :: rbatch =>
          let batch := rev rbatch in
          if forallb (fun a => match rev (shape a) with
                               | [] => false
                               | _ :: rb =>
                                   if list_eq_dec Nat.eq_dec rb rbatch then true else false
                               end) arrs
          then
            Ok (mk_array (batch ++ [list_sum (map (fun a => last (shape a) 0) arrs)])
                  (flat_map (fun r =>
                               flat_map (fun a => chunk r (last (shape a) 0) (data a)) arrs)
                            (seq 0 (nelems batch))))
          else Raise (ValueError "all the input array dimensions except for the concatenation axis must match exactly")
      end
  end.

(** [gs.all(a, axis)] *)
Definition all (a : ndarray bool) (axis : Z) : result (ndarray bool) :=
  (k <- normalize_axis axis (ndim a) ;;
   let s := shape a in
   let outer := nelems (firstn k s) in
   let len := nth k s 0 in
   let inner := nelems (skipn (S k) s) in
   Ok (mk_array (firstn k s ++ skipn (S k) s)
         (flat_map (fun o =>
                      let block := chunk o (len * inner) (data a) in
                      map (fun i => forallb (fun j => nth (j * inner + i) block true)
                                            (seq 0 len))
                          (seq 0 inner))
                   (seq 0 outer))))%result.

(** [a[..., i, :]] *)
Definition index_row {A} (a : ndarray A) (i : nat) : result (ndarray A) :=
  match rev (shape a) with
  | d :: n :: rbatch =>
      if i <? n then
        let batch := rev rbatch in
        Ok (mk_array (batch ++ [d])
              (flat_map (fun o => chunk (o * n + i) d (data a)) (seq 0 (nelems batch))))
      else Raise (IndexError "index is out of bounds for axis")
  | _ => Raise (IndexError "too many indices for array")
  end.

(** [gs.reshape(a, new_shape)] *)
Definition reshape {A} (a : ndarray A) (new_shape : list nat) : result (ndarray A) :=
  if size a =? nelems new_shape then Ok (mk_array new_shape (data a))
  else Raise (ValueError "cannot reshape array").

(** [gs.reshape(a, (-1, *tail))] *)
Definition reshape_batch {A} (a : ndarray A) (tail : list nat) : result (ndarray A) :=
  let p := nelems tail in
  if (p =? 0) || negb (size a mod p =? 0)
  then Raise (ValueError "cannot reshape array")
  else Ok (mk_array (size a / p :: tail) (data a)).

(** [gs.squeeze(a)] *)
Definition squeeze {A} (a : ndarray A) : ndarray A :=
  mk_array (filter (fun d => negb (d =? 1)) (shape a)) (data a).

(** [gs.squeeze(a, axis=0)] *)
Definition squeeze0 {A} (a : ndarray A) : result (ndarray A) :=
  match shape a with
  | [] => Raise (AxisError "axis 0 is out of bounds for array of dimension 0")
  | d :: s =>
      if d =? 1 then Ok (mk_array s (data a))
      else Raise (ValueError "cannot select an axis to squeeze out which has size not equal to one")
  end.

(** [gs.broadcast_arrays(a, b)]: shapes are aligned on the right; an axis
    of length 1 (or a missing one) is repeated. *)
Fixpoint broadcast_shape_rev (ra rb : list nat) : result (list nat) :=
  match ra, rb with
  | [], _ => Ok rb
  | _, [] => Ok ra
  | x :: ra', y :: rb' =>
      (rest <- broadcast_shape_rev ra' rb' ;;
       if x =? y then Ok (x :: rest)
       else if x =? 1 then Ok (y :: rest)
       else if y =? 1 then Ok (x :: rest)
       else Raise (ValueError "shape mismatch: objects cannot be broadcast to a single shape"))%result
  end.

Definition broadcast_shape (sa sb : list nat) : result (list nat) :=
  (r <- broadcast_shape_rev (rev sa) (rev sb) ;; Ok (rev r))%result.

Fixpoint broadcast_data {A} (src tgt : list nat) (d : list A) : list A :=
  match src, tgt with
  | x :: src', y :: tgt' =>
      let blocks := map (fun o => broadcast_data src' tgt' (chunk o (nelems src') d))
                        (seq 0 x) in
      if x =? y then concat blocks
      else concat (repeat (hd [] blocks) y)
  | _, _ => d
  end.

Definition broadcast_to {A} (a : ndarray A) (tgt : list nat) : ndarray A :=
  let pad := repeat 1 (length tgt - ndim a) in
  mk_array tgt (broadcast_data (pad ++ shape a) tgt (data a)).

Definition broadcast_arrays {A B} (a : ndarray A) (b : ndarray B)
  : result (ndarray A * ndarray B) :=
  (s <- broadcast_shape (shape a) (shape b) ;;
   Ok (broadcast_to a s, broadcast_to b s))%result.

End gs.

(** ** Values, keyword dictionaries and the call log *)

(** What the code passes around as an argument or gets back from a factor:
    a Python float, a Python int, an array of numbers or an array of
    booleans. *)
Inductive value : Type :=
| VFloat (x : Q)
| VInt (n : Z)
| VArray (a : gs.ndarray Q)
| VBools (a : gs.ndarray bool).

(** A Python dict with string keys, in insertion order. *)
Definition dict (V : Type) : Type := list (string * V).

Fixpoint dict_get {V} (key : string) (d : dict V) : option V :=
  match d with
  | [] => None
  | (k, v) :: t => if String.eqb key k then Some v else dict_get key t
  end.

(** [d[key] = v] *)
Fixpoint dict_set {V} (key : string) (v : V) (d : dict V) : dict V :=
  match d with
  | [] => [(key, v)]
  | (k, w) :: t =>
      if String.eqb key k then (k, v) :: t else (k, w) :: dict_set key v t
  end.

(** The dict display that unpacks [d], then [e]: the entries of [e] win. *)
Definition dict_update {V} (d e : dict V) : dict V :=
  fold_left (fun acc kv => dict_set (fst kv) (snd kv) acc) e d.

Definition keys {V} (d : dict V) : list string := map fst d.

(** One call into a factor (or base) manifold: which one, which method,
    and the arguments by parameter name. *)
Record call : Type := Call {
  callee : nat;
  method : string;
  kwargs : dict value
}.

(** A computation of the composite: the calls it made, in order, and its
    result or the exception that ended it. *)
Definition M (A : Type) : Type := (list call * result A)%type.

Definition mret {A} (a : A) : M A := ([], Ok a).
Definition mraise {A} (e : exn) : M A := ([], Raise e).
Definition lift {A} (r : result A) : M A := ([], r).

Definition mbind {A B} (m : M A) (f : A -> M B) : M B :=
  match m with
  | (log, Ok a) => let (log', r) := f a in (log ++ log', r)
  | (log, Raise e) => (log, Raise e)
  end.

Definition calls {A} (m : M A) : list call := fst m.
Definition outcome {A} (m : M A) : result A := snd m.

Declare Scope M_scope.
Delimit Scope M_scope with M.
Notation "x <- m ;; k" := (mbind m (fun x => k))
  (at level 61, m at next level, right associativity) : M_scope.

Fixpoint mmapM {A B} (f : A -> M B) (l : list A) : M (list B) :=
  match l with
  | [] => mret []
  | x :: t => (y <- f x ;; ys <- mmapM f t ;; mret (y :: ys))%M
  end.

(** A loop that threads a value through the elements of a list. *)
Fixpoint mfoldM {A B} (f : B -> A -> M B) (l : list A) (b : B) : M B :=
  match l with
  | [] => mret b
  | x :: t => (b' <- f b x ;; mfoldM f t b')%M
  end.

(** Python's [enumerate]. *)
Definition enumerate {A} (l : list A) : list (nat * A) :=
  combine (seq 0 (length l)) l.

(** ** The contract of a factor manifold *)

Module Manifold.

(** A factor is opaque beyond its dimension, its shape and its methods.
    An optional tolerance that is [None] was not passed: the factor then
    uses its own default.  [projection] is [None] when the object has no
    such attribute. *)
Record t : Type := {
  dim : nat;
  shape : list nat;
  belongs : gs.ndarray Q -> option value -> result (gs.ndarray bool);
  regularize : gs.ndarray Q -> result (gs.ndarray Q);
  random_point : Z -> value -> result (gs.ndarray Q);
  projection : option (gs.ndarray Q -> result (gs.ndarray Q));
  to_tangent : gs.ndarray Q -> gs.ndarray Q -> result (gs.ndarray Q);
  is_tangent : gs.ndarray Q -> gs.ndarray Q -> option value -> result (gs.ndarray bool)
}.

(** Binding of keyword arguments to the parameters of a method. *)
Definition check_keywords (params : list string) (kw : dict value) : result unit :=
  if forallb (fun k => existsb (String.eqb k) params) (keys kw)
  then Ok tt
  else Raise (TypeError "got an unexpected keyword argument").

Definition get_array (name : string) (kw : dict value) : result (gs.ndarray Q) :=
  match dict_get name kw with
  | Some (VArray a) => Ok a
  | Some _ => Raise (TypeError "expected an array of numbers")
  | None => Raise (TypeError "missing a required argument")
  end.

Definition get_int (name : string) (kw : dict value) : result Z :=
  match dict_get name kw with
  | Some (VInt n) => Ok n
  | Some _ => Raise (TypeError "expected an integer")
  | None => Raise (TypeError "missing a required argument")
  end.

Definition get_any (name : string) (kw : dict value) : result value :=
  match dict_get name kw with
  | Some v => Ok v
  | None => Raise (TypeError "missing a required argument")
  end.

(** [getattr(manifold, method_name)] called with the keyword arguments [kw]. *)
Definition call_method (manifold : t) (method_name : string) (kw : dict value)
  : result value :=
  (if String.eqb method_name "belongs" then
     _ <- check_keywords ["point"; "atol"] kw ;;
     point <- get_array "point" kw ;;
     r <- belongs manifold point (dict_get "atol" kw) ;;
     Ok (VBools r)
   else if String.eqb method_name "regularize" then
     _ <- check_keywords ["point"] kw ;;
     point <- get_array "point" kw ;;
     r <- regularize manifold point ;;
     Ok (VArray r)
   else if String.eqb method_name "random_point" then
     _ <- check_keywords ["n_samples"; "bound"] kw ;;
     n_samples <- get_int "n_samples" kw ;;
     bound <- get_any "bound" kw ;;
     r <- random_point manifold n_samples bound ;;
     Ok (VArray r)
   else if String.eqb method_name "projection" then
     match projection manifold with
     | None => Raise (AttributeError "object has no attribute 'projection'")
     | Some proj =>
         _ <- check_keywords ["point"] kw ;;
         point <- get_array "point" kw ;;
         r <- proj point ;;
         Ok (VArray r)
     end
   else if String.eqb method_name "to_tangent" then
     _ <- check_keywords ["vector"; "base_point"] kw ;;
     vector <- get_array "vector" kw ;;
     base_point <- get_array "base_point" kw ;;
     r <- to_tangent manifold vector base_point ;;
     Ok (VArray r)
   else if String.eqb method_name "is_tangent" then
     _ <- check_keywords ["vector"; "base_point"; "atol"] kw ;;
     vector <- get_array "vector" kw ;;
     base_point <- get_array "base_point" kw ;;
     r <- is_tangent manifold vector base_point (dict_get "atol" kw) ;;
     Ok (VBools r)
   else Raise (AttributeError "object has no such attribute"))%result.

(** [hasattr(manifold, "projection")] *)
Definition has_projection (manifold : t) : bool :=
  match projection manifold with Some _ => true | None => false end.

(** [hasattr(manifold, name)]: the methods of the contract exist on every
    factor, [projection] on those that implement it. *)
Definition hasattr (manifold : t) (name : string) : bool :=
  if String.eqb name "projection" then has_projection manifold
  else existsb (String.eqb name)
         ["belongs"; "regularize"; "random_point"; "to_tangent"; "is_tangent"].

End Manifold.

(** A call into factor number [i].  The attribute is looked up first: a
    method that exists is called, and the call is written to the log; a
    manifold without the attribute is not called at all. *)
Definition invoke (i : nat) (manifold : Manifold.t) (method_name : string)
  (kw : dict value) : M value :=
  ((if Manifold.hasattr manifold method_name then [Call i method_name kw] else []),
   Manifold.call_method manifold method_name kw).

(** [joblib.Parallel(n_jobs)(tasks)].  With [n_jobs = 1] joblib runs the
    delayed calls in the calling thread, one after the other in the order of
    the generator, and the first exception ends the run; this is what is
    modelled.  With more workers the results still come back in task order;
    the order in which the workers start the calls is not fixed by the
    source, and the theorems on the order of the logged calls take
    [n_jobs = 1]. *)
Definition Parallel {A} (n_jobs : nat) (tasks : list (M A)) : M (list A) :=
  mmapM (fun task => task) tasks.

Definition as_bools (v : value) : result (gs.ndarray bool) :=
  match v with
  | VBools a => Ok a
  | _ => Raise (TypeError "expected an array of booleans")
  end.

Definition as_array (v : value) : result (gs.ndarray Q) :=
  match v with
  | VArray a => Ok a
  | _ => Raise (TypeError "expected an array of numbers")
  end.

(** The metric collaborator, used through [is_intrinsic] only. *)
Record RiemannianMetric : Type := {
  is_intrinsic : gs.ndarray Q -> result bool
}.

(** Modelled from the spec: geomstats.errors.check_parameter_accepted_values
    (the module geomstats/errors.py is missing); the spec has construction
    rejected with ConfigError when the tag is not one of the supported
    values. *)
Definition check_parameter_accepted_values (param param_name : string)
  (accepted_values : list string) : result unit :=
  if existsb (String.eqb param) accepted_values then Ok tt
  else Raise (ConfigError param_name).

(** Modelled from the spec: geomstats.errors.check_integer (the module
    geomstats/errors.py is missing); the spec has construction rejected with
    ConfigError when the count is not a positive integer. *)
Definition check_integer (n : nat) (n_name : string) : result unit :=
  if 0 <? n then Ok tt else Raise (ConfigError n_name).

(** ** class ProductManifold *)

Module ProductManifold.

(** Modelled from the spec: the base class Manifold
    (geomstats/geometry/manifold.py is missing).  Its constructor keeps
    [dim] and [shape] as they are passed to it, and [default_point_type] is
    the point-layout tag fixed at construction.  [metric] is the metric
    object the composite ends up with (the keyword argument, or the
    ProductRiemannianMetric built by default). *)
Record t : Type := {
  dims : list nat;
  dim : nat;
  shape : list nat;
  default_point_type : string;
  metric : RiemannianMetric;
  manifolds : list Manifold.t;
  n_jobs : nat
}.

(** The constructor.  The argument [metrics] only serves to build the default
    metric, so the metric comes in built; the shape reads entry 0 of every
    factor shape in vector layout and the shape of the first factor in
    matrix layout. *)
Definition __init__ (manifolds : list Manifold.t) (metric : RiemannianMetric)
  (default_point_type : string) (n_jobs : nat) : result t :=
  (_ <- check_parameter_accepted_values
          default_point_type "default_point_type" ["vector"; "matrix"] ;;
   let dims := map Manifold.dim manifolds in
   let dim := list_sum dims in
   shape <- (if String.eqb default_point_type "vector" then
               widths <- rmapM (fun m => match Manifold.shape m with
                                         | [] => Raise (IndexError "tuple index out of range")
                                         | w :: _ => Ok w
                                         end) manifolds ;;
               Ok [list_sum widths]
             else
               match manifolds with
               | [] => Raise (IndexError "list index out of range")
               | m0 :: _ => Ok (length manifolds :: Manifold.shape m0)
               end) ;;
   Ok {| dims := dims; dim := dim; shape := shape;
         default_point_type := default_point_type; metric := metric;
         manifolds := manifolds; n_jobs := n_jobs |})%result.

Definition _get_method (manifold : Manifold.t) (method_name : string)
  (metric_args : dict value) : result value :=
  Manifold.call_method manifold method_name metric_args.

(** The split points of [_iterate_over_manifolds]. *)
Definition cum_index (dims : list nat) (intrinsic : bool) : list nat :=
  if intrinsic then removelast (gs.cumsum dims)
  else gs.cumsum (map (fun k => k + 1) dims).

(** [gs.split(value, cum_index, axis=-1)] on an argument: numpy cannot
    split what is not an array. *)
Definition split_value (v : value) (indices : list nat) : result (list value) :=
  match v with
  | VArray a => (pieces <- gs.split a indices ;; Ok (map VArray pieces))%result
  | VBools a => (pieces <- gs.split a indices ;; Ok (map VBools pieces))%result
  | VInt _ | VFloat _ => Raise (TypeError "object has no len()")
  end.

(** [isinstance(value, float)] *)
Definition isinstance_float (v : value) : bool :=
  match v with
  | VFloat _ => true
  | _ => false
  end.

(** The loop over [args.items()]: floats are set aside, everything else is
    split. *)
Fixpoint split_args (args : dict value) (indices : list nat)
  (arguments : dict (list value)) (float_args : dict value)
  : result (dict (list value) * dict value) :=
  match args with
  | [] => Ok (arguments, float_args)
  | (key, v) :: rest =>
      if negb (isinstance_float v) then
        (pieces <- split_value v indices ;;
         split_args rest indices (dict_set key pieces arguments) float_args)%result
      else split_args rest indices arguments (dict_set key v float_args)
  end.

(** [{key: arguments[key][j] for key in arguments}] *)
Definition args_of_factor (arguments : dict (list value)) (j : nat)
  : result (dict value) :=
  rmapM (fun kv => match nth_error (snd kv) j with
                   | Some piece => Ok (fst kv, piece)
                   | None => Raise (IndexError "list index out of range")
                   end) arguments.

(** The delayed calls of [_get_method], one per factor, are handed to the
    worker pool.  A call is logged when [getattr] in [_get_method] has found
    the method. *)
Definition _iterate_over_manifolds (self : t) (func : string) (args : dict value)
  (intrinsic : bool) : M (list value) :=
  let cum_index := cum_index (dims self) intrinsic in
  (split <- lift (split_args args cum_index [] []) ;;
   let arguments := fst split in
   let float_args := snd split in
   args_list <- lift (rmapM (args_of_factor arguments)
                            (seq 0 (length (manifolds self)))) ;;
   Parallel (n_jobs self)
     (map (fun i =>
             match nth_error (manifolds self) i, nth_error args_list i with
             | Some manifold, Some args_i =>
                 ((if Manifold.hasattr manifold func
                   then [Call i func (dict_update args_i float_args)] else []),
                  _get_method manifold func (dict_update args_i float_args))
             | _, _ => mraise (IndexError "list index out of range")
             end)
          (seq 0 (length (manifolds self)))))%M.

Definition stack_bools (vs : list value) (axis : Z) : result (gs.ndarray bool) :=
  (arrs <- rmapM as_bools vs ;; gs.stack arrs axis)%result.

Definition belongs (self : t) (point : gs.ndarray Q) (atol : value)
  : M (gs.ndarray bool) :=
  (stacked <-
     (if String.eqb (default_point_type self) "vector" then
        intrinsic <- lift (is_intrinsic (metric self) point) ;;
        belongs <- _iterate_over_manifolds self "belongs"
                     [("point", VArray point); ("atol", atol)] intrinsic ;;
        lift (stack_bools belongs (-1))
      else
        belongs <- mmapM (fun ispace =>
                            slice <- lift (gs.index_row point (fst ispace)) ;;
                            invoke (fst ispace) (snd ispace) "belongs"
                                   [("point", VArray slice); ("atol", atol)])
                         (enumerate (manifolds self)) ;;
        lift (stack_bools belongs (-1))) ;;
   lift (gs.all stacked (-1)))%M.

Definition concatenate_arrays (vs : list value) : result (gs.ndarray Q) :=
  (arrs <- rmapM as_array vs ;; gs.concatenate arrs)%result.

Definition stack_arrays (vs : list value) (axis : Z) : result (gs.ndarray Q) :=
  (arrs <- rmapM as_array vs ;; gs.stack arrs axis)%result.

Definition regularize (self : t) (point : gs.ndarray Q) : M (gs.ndarray Q) :=
  let point_type := default_point_type self in
  (if String.eqb point_type "vector" then
     intrinsic <- lift (is_intrinsic (metric self) point) ;;
     regularized_point <- _iterate_over_manifolds self "regularize"
                            [("point", VArray point)] intrinsic ;;
     lift (concatenate_arrays regularized_point)
   else if String.eqb point_type "matrix" then
     regularized_point <- mmapM (fun imanifold =>
                                   slice <- lift (gs.index_row point (fst imanifold)) ;;
                                   invoke (fst imanifold) (snd imanifold) "regularize"
                                          [("point", VArray slice)])
                                (enumerate (manifolds self)) ;;
     lift (stack_arrays regularized_point 1)
   else mraise (UnboundLocalError "regularized_point"))%M.

Definition projection (self : t) (point : gs.ndarray Q) : M (gs.ndarray Q) :=
  let point_type := default_point_type self in
  (if String.eqb point_type "vector" then
     intrinsic <- lift (is_intrinsic (metric self) point) ;;
     projected_point <- _iterate_over_manifolds self "projection"
                          [("point", VArray point)] intrinsic ;;
     lift (concatenate_arrays projected_point)
   else if String.eqb point_type "matrix" then
     projected_point <- mmapM (fun imanifold =>
                                 slice <- lift (gs.index_row point (fst imanifold)) ;;
                                 invoke (fst imanifold) (snd imanifold) "projection"
                                        [("point", VArray slice)])
                              (enumerate (manifolds self)) ;;
     lift (stack_arrays projected_point (-2))
   else mraise (UnboundLocalError "projected_point"))%M.

Definition is_tangent (self : t) (vector base_point : gs.ndarray Q) (atol : value)
  : M (gs.ndarray bool) :=
  (stacked <-
     (if String.eqb (default_point_type self) "vector" then
        intrinsic <- lift (is_intrinsic (metric self) base_point) ;;
        is_tangent <- _iterate_over_manifolds self "is_tangent"
                        [("base_point", VArray base_point);
                         ("vector", VArray vector); ("atol", atol)] intrinsic ;;
        lift (stack_bools is_tangent (-1))
      else
        is_tangent <- mmapM (fun ispace =>
                               v <- lift (gs.index_row vector (fst ispace)) ;;
                               p <- lift (gs.index_row base_point (fst ispace)) ;;
                               invoke (fst ispace) (snd ispace) "is_tangent"
                                      [("vector", VArray v); ("base_point", VArray p);
                                       ("atol", atol)])
                            (enumerate (manifolds self)) ;;
        lift (stack_bools is_tangent (-1))) ;;
   lift (gs.all stacked (-1)))%M.

(** [space.random_point(n_samples, bound)] on factor [i]. *)
Definition sample_factor (i : nat) (space : Manifold.t) (n_samples : Z) (bound : value)
  : M (gs.ndarray Q) :=
  (samples <- invoke i space "random_point"
                [("n_samples", VInt n_samples); ("bound", bound)] ;;
   lift (as_array samples))%M.

Definition random_point (self : t) (n_samples : Z) (bound : value)
  : M (gs.ndarray Q) :=
  if String.eqb (default_point_type self) "vector" then
    match manifolds self with
    | [] => mraise (IndexError "list index out of range")
    | m0 :: rest =>
        (data <- sample_factor 0 m0 n_samples bound ;;
         if 1 <? length (manifolds self) then
           mfoldM (fun data ispace =>
                     samples <- sample_factor (fst ispace) (snd ispace) n_samples bound ;;
                     lift (gs.concatenate [data; samples]))
                  (combine (seq 1 (length rest)) rest) data
         else mret data)%M
    end
  else
    (point <- mmapM (fun ispace =>
                       invoke (fst ispace) (snd ispace) "random_point"
                              [("n_samples", VInt n_samples); ("bound", bound)])
                    (enumerate (manifolds self)) ;;
     lift (stack_arrays point (-2)))%M.

Definition to_tangent (self : t) (vector base_point : gs.ndarray Q)
  : M (gs.ndarray Q) :=
  let point_type := default_point_type self in
  (if String.eqb point_type "vector" then
     intrinsic <- lift (is_intrinsic (metric self) base_point) ;;
     tangent_vec <- _iterate_over_manifolds self "to_tangent"
                      [("base_point", VArray base_point); ("vector", VArray vector)]
                      intrinsic ;;
     lift (concatenate_arrays tangent_vec)
   else if String.eqb point_type "matrix" then
     tangent_vec <- mmapM (fun imanifold =>
                             v <- lift (gs.index_row vector (fst imanifold)) ;;
                             p <- lift (gs.index_row base_point (fst imanifold)) ;;
                             invoke (fst imanifold) (snd imanifold) "to_tangent"
                                    [("vector", VArray v); ("base_point", VArray p)])
                          (enumerate (manifolds self)) ;;
     lift (stack_arrays tangent_vec (-2))
   else mraise (UnboundLocalError "tangent_vec"))%M.

End ProductManifold.

(** ** class NFoldManifold *)

Module NFoldManifold.

(** Modelled from the spec: the base class Manifold
    (geomstats/geometry/manifold.py is missing); its constructor keeps [dim]
    and [shape] as they are passed to it. *)
Record t : Type := {
  dim : nat;
  shape : list nat;
  base_manifold : Manifold.t;
  base_shape : list nat;
  n_copies : nat
}.

Definition __init__ (base_manifold : Manifold.t) (n_copies : nat) : result t :=
  (_ <- check_integer n_copies "n_copies" ;;
   let dim := n_copies * Manifold.dim base_manifold in
   let shape := [n_copies] ++ Manifold.shape base_manifold in
   Ok {| dim := dim; shape := shape; base_manifold := base_manifold;
         base_shape := Manifold.shape base_manifold; n_copies := n_copies |})%result.

Definition belongs (self : t) (point : gs.ndarray Q) (atol : value)
  : M (gs.ndarray bool) :=
  (point_ <- lift (gs.reshape_batch point (base_shape self)) ;;
   each_belongs <- invoke 0 (base_manifold self) "belongs"
                     [("point", VArray point_); ("atol", atol)] ;;
   each_belongs <- lift (as_bools each_belongs) ;;
   reshaped <- lift (gs.reshape_batch each_belongs [n_copies self]) ;;
   r <- lift (gs.all reshaped 1) ;;
   mret (gs.squeeze r))%M.

Definition is_tangent (self : t) (vector base_point : gs.ndarray Q) (atol : value)
  : M (gs.ndarray bool) :=
  (both <- lift (gs.broadcast_arrays vector base_point) ;;
   let vector_ := fst both in
   let point_ := snd both in
   point_ <- lift (gs.reshape_batch point_ (base_shape self)) ;;
   vector_ <- lift (gs.reshape_batch vector_ (base_shape self)) ;;
   each_tangent <- invoke 0 (base_manifold self) "is_tangent"
                     [("vector", VArray vector_); ("base_point", VArray point_)] ;;
   each_tangent <- lift (as_bools each_tangent) ;;
   reshaped <- lift (gs.reshape_batch each_tangent [n_copies self]) ;;
   lift (gs.all reshaped 1))%M.

Definition random_point (self : t) (n_samples : nat) (bound : value)
  : M (gs.ndarray Q) :=
  (sample <- invoke 0 (base_manifold self) "random_point"
               [("n_samples", VInt (Z.of_nat (n_samples * n_copies self)));
                ("bound", bound)] ;;
   sample <- lift (as_array sample) ;;
   reshaped <- lift (gs.reshape sample
                       ([n_samples; n_copies self] ++ base_shape self)) ;;
   if 1 <? n_samples then mret reshaped
   else lift (gs.squeeze0 reshaped))%M.

Definition projection (self : t) (point : gs.ndarray Q) : M (gs.ndarray Q) :=
  (if Manifold.has_projection (base_manifold self) then
     point_ <- lift (gs.reshape_batch point (base_shape self)) ;;
     projected <- invoke 0 (base_manifold self) "projection"
                    [("point", VArray point_)] ;;
     projected <- lift (as_array projected) ;;
     reshaped <- lift (gs.reshape_batch projected
                         ([n_copies self] ++ base_shape self)) ;;
     mret (gs.squeeze reshaped)
   else mraise (NotImplementedError
                  "The base manifold does not implement a projection method."))%M.

Definition to_tangent (self : t) (vector base_point : gs.ndarray Q)
  : M (gs.ndarray Q) :=
  (both <- lift (gs.broadcast_arrays vector base_point) ;;
   let vector_ := fst both in
   let point_ := snd both in
   point_ <- lift (gs.reshape_batch point_ (base_shape self)) ;;
   vector_ <- lift (gs.reshape_batch vector_ (base_shape self)) ;;
   each_tangent <- invoke 0 (base_manifold self) "to_tangent"
                     [("vector", VArray vector_); ("base_point", VArray point_)] ;;
   each_tangent <- lift (as_array each_tangent) ;;
   reshaped <- lift (gs.reshape_batch each_tangent
                       ([n_copies self] ++ base_shape self)) ;;
   mret (gs.squeeze reshaped))%M.

End NFoldManifold.

(** ** Vocabulary of the statements *)

(** The running sum of a list, as the spec words it: entry [i] is the sum
    of the first [i + 1] elements. *)
Definition running_sum (l : list nat) : list nat :=
  map (fun i => list_sum (firstn (S i) l)) (seq 0 (length l)).

(** The split boundaries as the spec describes them. *)
Definition boundaries (dims : list nat) (intrinsic : bool) : list nat :=
  if intrinsic then removelast (running_sum dims)
  else running_sum (map (fun k => k + 1) dims).

(** The log of a loop that stops at the first call that raises. *)
Fixpoint log_until_raise {A B} (f : A -> M B) (l : list A) : list call :=
  match l with
  | [] => []
  | x :: t =>
      calls (f x) ++ (if is_ok (outcome (f x)) then log_until_raise f t else [])
  end.

(** The body of the loop over the factors in [_iterate_over_manifolds]. *)
Definition dispatch_step (self : ProductManifold.t) (func : string)
  (args_list : list (dict value)) (float_args : dict value) (i : nat) : M value :=
  match nth_error (ProductManifold.manifolds self) i, nth_error args_list i with
  | Some manifold, Some args_i =>
      ((if Manifold.hasattr manifold func
        then [Call i func (dict_update args_i float_args)] else []),
       ProductManifold._get_method manifold func (dict_update args_i float_args))
  | _, _ => mraise (IndexError "list index out of range")
  end.

(** The slice of [x] that belongs to factor [i]; in vector layout the cut
    points depend on whether [ref] (the point, or the base point of a vector)
    is intrinsic. *)
Definition factor_slice (self : ProductManifold.t) (ref x : gs.ndarray Q) (i : nat)
  : result (gs.ndarray Q) :=
  if String.eqb (ProductManifold.default_point_type self) "vector" then
    (intrinsic <- is_intrinsic (ProductManifold.metric self) ref ;;
     pieces <- gs.split x (ProductManifold.cum_index (ProductManifold.dims self)
                                                      intrinsic) ;;
     match nth_error pieces i with
     | Some piece => Ok piece
     | None => Raise (IndexError "list index out of range")
     end)%result
  else gs.index_row x i.

(** Each factor's own [belongs] on its slice of the point. *)
Definition factor_belongs (self : ProductManifold.t) (point : gs.ndarray Q)
  (atol : value) : result (list (gs.ndarray bool)) :=
  rmapM (fun im =>
           (slice <- factor_slice self point point (fst im) ;;
            Manifold.belongs (snd im) slice (Some atol))%result)
        (enumerate (ProductManifold.manifolds self)).

(** Each factor's own [is_tangent] on its slices of the vector and of the
    base point. *)
Definition factor_is_tangent (self : ProductManifold.t)
  (vector base_point : gs.ndarray Q) (atol : value)
  : result (list (gs.ndarray bool)) :=
  rmapM (fun im =>
           (v <- factor_slice self base_point vector (fst im) ;;
            p <- factor_slice self base_point base_point (fst im) ;;
            Manifold.is_tangent (snd im) v p (Some atol))%result)
        (enumerate (ProductManifold.manifolds self)).

(** ** Factors and composites for the examples *)

(** All entries of a row lie in [[-atol, 1 + atol]] (a tolerance that is
    not a float counts as 0). *)
Definition tolerance (atol : option value) : Q :=
  match atol with
  | Some (VFloat x) => x
  | _ => 0
  end.

Definition rows {A} (a : gs.ndarray A) : list (list A) :=
  let w := last (gs.shape a) 0 in
  map (fun r => gs.chunk r w (gs.data a))
      (seq 0 (gs.nelems (removelast (gs.shape a)))).

Definition in_unit_cube (atol : option value) (row : list Q) : bool :=
  forallb (fun x => Qle_bool (- tolerance atol) x && Qle_bool x (1 + tolerance atol)) row.

(** The unit cube of dimension [d]: points are rows of [d] numbers in
    [[0, 1]]; every vector is tangent; [regularize] and [projection] clip to
    the cube. *)
Definition clip (x : Q) : Q :=
  if Qle_bool x 0 then 0 else if Qle_bool 1 x then 1 else x.

Definition unit_cube (d : nat) : Manifold.t :=
  {| Manifold.dim := d;
     Manifold.shape := [d];
     Manifold.belongs := fun point atol =>
       Ok (gs.mk_array (removelast (gs.shape point))
                       (map (in_unit_cube atol) (rows point)));
     Manifold.regularize := fun point =>
       Ok (gs.mk_array (gs.shape point) (map clip (gs.data point)));
     Manifold.random_point := fun n_samples bound =>
       Ok (gs.mk_array [Z.to_nat n_samples; d]
                       (repeat (1 # 2) (Z.to_nat n_samples * d)));
     Manifold.projection := Some (fun point =>
       Ok (gs.mk_array (gs.shape point) (map clip (gs.data point))));
     Manifold.to_tangent := fun vector base_point => Ok vector;
     Manifold.is_tangent := fun vector base_point atol =>
       Ok (gs.mk_array (removelast (gs.shape vector))
                       (map (fun _ => true) (rows vector))) |}.

(** The same space without a [projection] attribute. *)
Definition unit_cube_no_projection (d : nat) : Manifold.t :=
  {| Manifold.dim := d;
     Manifold.shape := [d];
     Manifold.belongs := Manifold.belongs (unit_cube d);
     Manifold.regularize := Manifold.regularize (unit_cube d);
     Manifold.random_point := Manifold.random_point (unit_cube d);
     Manifold.projection := None;
     Manifold.to_tangent := Manifold.to_tangent (unit_cube d);
     Manifold.is_tangent := Manifold.is_tangent (unit_cube d) |}.

(** A factor of dimension [d] all of whose methods raise [e]. *)
Definition broken (d : nat) (e : exn) : Manifold.t :=
  {| Manifold.dim := d;
     Manifold.shape := [d];
     Manifold.belongs := fun _ _ => Raise e;
     Manifold.regularize := fun _ => Raise e;
     Manifold.random_point := fun _ _ => Raise e;
     Manifold.projection := Some (fun _ => Raise e);
     Manifold.to_tangent := fun _ _ => Raise e;
     Manifold.is_tangent := fun _ _ _ => Raise e |}.

(** A metric for a product of factors of the given dimensions: a point is
    intrinsic when its width is the sum of the dimensions. *)
Definition width_metric (dims : list nat) : RiemannianMetric :=
  {| is_intrinsic := fun point => Ok (last (gs.shape point) 0 =? list_sum dims) |}.

Definition atol_default : value := VFloat (1 # 1000000000000).

Definition cube_2_3_vector : ProductManifold.t :=
  {| ProductManifold.dims := [2; 3];
     ProductManifold.dim := 5;
     ProductManifold.shape := [5];
     ProductManifold.default_point_type := "vector";
     ProductManifold.metric := width_metric [2; 3];
     ProductManifold.manifolds := [unit_cube 2; unit_cube 3];
     ProductManifold.n_jobs := 1 |}.

Definition cube_3_3_matrix : ProductManifold.t :=
  {| ProductManifold.dims := [3; 3];
     ProductManifold.dim := 6;
     ProductManifold.shape := [2; 3];
     ProductManifold.default_point_type := "matrix";
     ProductManifold.metric := width_metric [3; 3];
     ProductManifold.manifolds := [unit_cube 3; unit_cube 3];
     ProductManifold.n_jobs := 1 |}.

(** The call the dispatcher makes into factor [fst im], once the arguments
    are split into [sp]: pieces number [fst im] of every split argument, and
    the floats. *)
Definition factor_call (func : string) (sp : dict (list value) * dict value)
  (im : nat * Manifold.t) : result value :=
  (args_i <- ProductManifold.args_of_factor (fst sp) (fst im) ;;
   Manifold.call_method (snd im) func (dict_update args_i (snd sp)))%result.

Definition boom : exn := ValueError "boom".

Definition cube_2_broken_3 : ProductManifold.t :=
  {| ProductManifold.dims := [2; 3];
     ProductManifold.dim := 5;
     ProductManifold.shape := [5];
     ProductManifold.default_point_type := "vector";
     ProductManifold.metric := width_metric [2; 3];
     ProductManifold.manifolds := [unit_cube 2; broken 3 boom];
     ProductManifold.n_jobs := 1 |}.

Definition broken_2_cube_3 : ProductManifold.t :=
  {| ProductManifold.dims := [2; 3];
     ProductManifold.dim := 5;
     ProductManifold.shape := [5];
     ProductManifold.default_point_type := "vector";
     ProductManifold.metric := width_metric [2; 3];
     ProductManifold.manifolds := [broken 2 boom; unit_cube 3];
     ProductManifold.n_jobs := 1 |}.

Definition point5 : gs.ndarray Q := gs.mk_array [5] [0; 1; 0; 1; 0]%Q.

Definition point7 : gs.ndarray Q := gs.mk_array [7] [0; 1; 0; 1; 0; 1; 1]%Q.

Definition point_2x3 : gs.ndarray Q := gs.mk_array [2; 3] [0; 1; 0; 1; 0; 3]%Q.

Definition cube_power (d n : nat) : NFoldManifold.t :=
  {| NFoldManifold.dim := n * d;
     NFoldManifold.shape := [n; d];
     NFoldManifold.base_manifold := unit_cube d;
     NFoldManifold.base_shape := [d];
     NFoldManifold.n_copies := n |}.


Definition batch_2x5 : gs.ndarray Q :=
  gs.mk_array [2; 5] [0; 1; 0; 1; 0; 0; 0; 2; 0; 0]%Q.

Definition batch_2x2x3 : gs.ndarray Q :=
  gs.mk_array [2; 2; 3] [0; 1; 0; 1; 0; 3; 0; 0; 0; 1; 1; 1]%Q.

(** What [getattr(manifold, "projection")(x)] gives: the factor's projection
    of [x], or the AttributeError of a factor that has none. *)
Definition factor_projection (m : Manifold.t) (x : gs.ndarray Q)
  : result (gs.ndarray Q) :=
  match Manifold.projection m with
  | Some proj => proj x
  | None => Raise (AttributeError "object has no attribute 'projection'")
  end.

(** [a[..., :n, :]]: the first [n] rows of every matrix of the batch. *)
Definition leading_rows {A} (n : nat) (a : gs.ndarray A) : gs.ndarray A :=
  match rev (gs.shape a) with
  | d :: r :: rbatch =>
      let batch := rev rbatch in
      gs.mk_array (batch ++ [Nat.min n r; d])
        (flat_map (fun o => firstn (Nat.min n r * d) (gs.chunk o (r * d) (gs.data a)))
                  (seq 0 (gs.nelems batch)))
  | _ => a
  end.

Definition rows_3x3 : gs.ndarray Q :=
  gs.mk_array [3; 3] [0; 1; 0; 1; 0; 1; 1; 1; 1]%Q.

(** The call the dispatcher makes into factor [fst im], with its log. *)
Definition factor_invoke (func : string) (sp : dict (list value) * dict value)
  (im : nat * Manifold.t) : M value :=
  match ProductManifold.args_of_factor (fst sp) (fst im) with
  | Ok args_i => invoke (fst im) (snd im) func (dict_update args_i (snd sp))
  | Raise e => mraise e
  end.

(** A factor whose points are matrices of shape (2, 3). *)
Definition grid_2_3 : Manifold.t :=
  {| Manifold.dim := 6;
     Manifold.shape := [2; 3];
     Manifold.belongs := Manifold.belongs (unit_cube 3);
     Manifold.regularize := Manifold.regularize (unit_cube 3);
     Manifold.random_point := fun n_samples bound =>
       Ok (gs.mk_array [Z.to_nat n_samples; 2; 3]
                       (repeat (1 # 2) (Z.to_nat n_samples * 6)));
     Manifold.projection := Manifold.projection (unit_cube 3);
     Manifold.to_tangent := Manifold.to_tangent (unit_cube 3);
     Manifold.is_tangent := Manifold.is_tangent (unit_cube 3) |}.

(** The unit cubes of dimensions 2 and 3, the second without a
    [projection] attribute. *)
Definition cube_2_no_projection_3 : ProductManifold.t :=
  {| ProductManifold.dims := [2; 3];
     ProductManifold.dim := 5;
     ProductManifold.shape := [5];
     ProductManifold.default_point_type := "vector";
     ProductManifold.metric := width_metric [2; 3];
     ProductManifold.manifolds := [unit_cube 2; unit_cube_no_projection 3];
     ProductManifold.n_jobs := 1 |}.

(** ** The backend on small arrays *)

Example split_at_2 :
  gs.split (gs.mk_array [5] [10; 11; 12; 13; 14]) [2]
  = Ok [gs.mk_array [2] [10; 11]; gs.mk_array [3] [12; 13; 14]].
Proof. reflexivity. Qed.

Example split_batch :
  gs.split (gs.mk_array [2; 3] [1; 2; 3; 4; 5; 6]) [1; 3]
  = Ok [gs.mk_array [2; 1] [1; 4]; gs.mk_array [2; 2] [2; 3; 5; 6];
        gs.mk_array [2; 0] []].
Proof. reflexivity. Qed.

Example stack_axis1 :
  gs.stack [gs.mk_array [3] [1; 2; 3]; gs.mk_array [3] [4; 5; 6]] 1
  = Ok (gs.mk_array [3; 2] [1; 4; 2; 5; 3; 6]).
Proof. reflexivity. Qed.

Example stack_axis_m2 :
  gs.stack [gs.mk_array [3] [1; 2; 3]; gs.mk_array [3] [4; 5; 6]] (-2)
  = Ok (gs.mk_array [2; 3] [1; 2; 3; 4; 5; 6]).
Proof. reflexivity. Qed.

Example stack_batched_axis1 :
  gs.stack [gs.mk_array [2; 2] [1; 2; 3; 4]; gs.mk_array [2; 2] [5; 6; 7; 8]] 1
  = Ok (gs.mk_array [2; 2; 2] [1; 2; 5; 6; 3; 4; 7; 8]).
Proof. reflexivity. Qed.

Example all_last :
  gs.all (gs.mk_array [2; 2] [true; true; true; false]) (-1)
  = Ok (gs.mk_array [2] [true; false]).
Proof. reflexivity. Qed.

Example all_axis0 :
  gs.all (gs.mk_array [2; 2] [true; true; true; false]) 0
  = Ok (gs.mk_array [2] [true; false]).
Proof. reflexivity. Qed.

Example broadcast_ex :
  gs.broadcast_arrays (gs.mk_array [3] [1; 2; 3]) (gs.mk_array [2; 1] [7; 8])
  = Ok (gs.mk_array [2; 3] [1; 2; 3; 1; 2; 3], gs.mk_array [2; 3] [7; 7; 7; 8; 8; 8]).
Proof. reflexivity. Qed.

Example index_row_ex :
  gs.index_row (gs.mk_array [2; 2; 3] [1; 2; 3; 4; 5; 6; 7; 8; 9; 10; 11; 12]) 1
  = Ok (gs.mk_array [2; 3] [4; 5; 6; 10; 11; 12]).
Proof. reflexivity. Qed.

Example concat_ex :
  gs.concatenate [gs.mk_array [2; 1] [1; 4]; gs.mk_array [2; 2] [2; 3; 5; 6]]
  = Ok (gs.mk_array [2; 3] [1; 2; 3; 4; 5; 6]).
Proof. reflexivity. Qed.

Example cum_index_intrinsic : ProductManifold.cum_index [2; 3] true = [2].
Proof. reflexivity. Qed.

Example cum_index_extrinsic : ProductManifold.cum_index [2; 3] false = [3; 7].
Proof. reflexivity. Qed.

(** ** Results and logs *)

Lemma rbind_ok {A B} (r : result A) (f : A -> result B) (b : B) :
  rbind r f = Ok b -> exists a, r = Ok a /\ f a = Ok b.
Proof. destruct r as [a|e]; simpl; [eauto | discriminate]. Qed.

Lemma rmapM_length {A B} (f : A -> result B) (l : list A) (ys : list B) :
  rmapM f l = Ok ys -> length ys = length l.
Proof.
  revert ys. induction l as [|x t IH]; simpl; intros ys H.
  - injection H as <-. reflexivity.
  - destruct (f x) as [y|e]; simpl in H; [|discriminate].
    destruct (rmapM f t) as [ys'|e]; simpl in H; [|discriminate].
    injection H as <-. simpl. f_equal. now apply IH.
Qed.

Lemma rmapM_nth_error {A B} (f : A -> result B) (l : list A) (ys : list B) i x :
  rmapM f l = Ok ys -> nth_error l i = Some x ->
  exists y, nth_error ys i = Some y /\ f x = Ok y.
Proof.
  revert ys i. induction l as [|x0 t IH]; simpl; intros ys i H Hi.
  - destruct i; discriminate.
  - destruct (f x0) as [y0|e] eqn:E0; simpl in H; [|discriminate].
    destruct (rmapM f t) as [ys'|e]; simpl in H; [|discriminate].
    injection H as <-. destruct i as [|i]; simpl in *.
    + injection Hi as <-. eauto.
    + now apply IH.
Qed.

Lemma rmapM_Forall2 {A B} (f : A -> result B) (l : list A) (ys : list B) :
  rmapM f l = Ok ys <-> Forall2 (fun x y => f x = Ok y) l ys.
Proof.
  revert ys. induction l as [|x t IH]; simpl; intros ys; split; intros H.
  - injection H as <-. constructor.
  - inversion H. reflexivity.
  - destruct (f x) as [y|e] eqn:E; simpl in H; [|discriminate].
    destruct (rmapM f t) as [ys'|e] eqn:E'; simpl in H; [|discriminate].
    injection H as <-. constructor; [assumption | now apply IH].
  - inversion H as [|x' y l' ys' Hxy Hrest]; subst.
    rewrite Hxy. simpl. apply IH in Hrest. rewrite Hrest. reflexivity.
Qed.

Lemma mbind_lift_ok {A B} (a : A) (f : A -> M B) : mbind (lift (Ok a)) f = f a.
Proof. unfold mbind, lift. now destruct (f a). Qed.

Lemma mbind_lift_raise {A B} (e : exn) (f : A -> M B) :
  mbind (lift (Raise e)) f = ([], Raise e).
Proof. reflexivity. Qed.

Lemma outcome_mbind {A B} (m : M A) (f : A -> M B) :
  outcome (mbind m f) = rbind (outcome m) (fun a => outcome (f a)).
Proof.
  destruct m as [log [a|e]]; simpl; [|reflexivity].
  now destruct (f a).
Qed.

Lemma calls_mbind {A B} (m : M A) (f : A -> M B) :
  calls (mbind m f)
  = calls m ++ match outcome m with Ok a => calls (f a) | Raise _ => [] end.
Proof.
  destruct m as [log [a|e]]; simpl.
  - now destruct (f a).
  - now rewrite app_nil_r.
Qed.

Lemma M_eta {A} (m : M A) : m = (calls m, outcome m).
Proof. now destruct m. Qed.

Lemma outcome_mmapM {A B} (f : A -> M B) (l : list A) :
  outcome (mmapM f l) = rmapM (fun x => outcome (f x)) l.
Proof.
  induction l as [|x t IH]; simpl; [reflexivity|].
  rewrite outcome_mbind. destruct (outcome (f x)) as [y|e]; simpl; [|reflexivity].
  rewrite outcome_mbind, IH.
  now destruct (rmapM (fun x0 => outcome (f x0)) t).
Qed.

Lemma calls_mmapM {A B} (f : A -> M B) (l : list A) :
  calls (mmapM f l) = log_until_raise f l.
Proof.
  induction l as [|x t IH]; simpl; [reflexivity|].
  rewrite calls_mbind. f_equal.
  destruct (outcome (f x)) as [y|e]; simpl; [|reflexivity].
  rewrite calls_mbind, IH.
  destruct (outcome (mmapM f t)); simpl; now rewrite app_nil_r.
Qed.

Lemma log_until_raise_In {A B} (f : A -> M B) (l : list A) (c : call) :
  In c (log_until_raise f l) -> exists x, In x l /\ In c (calls (f x)).
Proof.
  induction l as [|x t IH]; simpl; [tauto|].
  intros H. apply in_app_or in H as [H|H].
  - eauto.
  - destruct (is_ok (outcome (f x))); [|contradiction].
    destruct (IH H) as (y & Hy & Hc). eauto.
Qed.

Lemma log_until_raise_all_ok {A B} (f : A -> M B) (l : list A) (ys : list B) :
  rmapM (fun x => outcome (f x)) l = Ok ys ->
  log_until_raise f l = flat_map (fun x => calls (f x)) l.
Proof.
  revert ys. induction l as [|x t IH]; simpl; intros ys H; [reflexivity|].
  destruct (outcome (f x)) as [y|e]; simpl in *; [|discriminate].
  destruct (rmapM (fun x0 => outcome (f x0)) t) as [ys'|e] eqn:E; [|discriminate].
  f_equal. eapply IH. reflexivity.
Qed.

(** ** Running sums *)

Lemma cumsum_from_running (acc : nat) (l : list nat) :
  gs.cumsum_from acc l
  = map (fun i => acc + list_sum (firstn (S i) l)) (seq 0 (length l)).
Proof.
  revert acc. induction l as [|x t IH]; intros acc; [reflexivity|].
  cbn [gs.cumsum_from length seq map]. f_equal.
  - cbn. lia.
  - rewrite IH, <- seq_shift, map_map. apply map_ext.
    intros i. change (firstn (S (S i)) (x :: t)) with (x :: firstn (S i) t).
    cbn [list_sum fold_right]. unfold list_sum. simpl. lia.
Qed.

Lemma cumsum_running_sum (l : list nat) : gs.cumsum l = running_sum l.
Proof. unfold gs.cumsum. now rewrite cumsum_from_running. Qed.

Lemma cum_index_boundaries (dims : list nat) (intrinsic : bool) :
  ProductManifold.cum_index dims intrinsic = boundaries dims intrinsic.
Proof.
  unfold ProductManifold.cum_index, boundaries.
  now rewrite !cumsum_running_sum.
Qed.

(** ** The dispatcher *)

Section Dispatcher.

Import ProductManifold.

Variable self : ProductManifold.t.
Variable func : string.

Lemma Parallel_map {A B} (n_jobs : nat) (f : A -> M B) (l : list A) :
  Parallel n_jobs (map f l) = mmapM f l.
Proof.
  unfold Parallel. induction l as [|x t IH]; [reflexivity|].
  cbn [map mmapM]. now rewrite IH.
Qed.

Lemma dispatch_cases (args : dict value) (intrinsic : bool) :
  _iterate_over_manifolds self func args intrinsic
  = match split_args args (cum_index (dims self) intrinsic) [] [] with
    | Raise e => ([], Raise e)
    | Ok sp =>
        match rmapM (args_of_factor (fst sp)) (seq 0 (length (manifolds self))) with
        | Raise e => ([], Raise e)
        | Ok args_list =>
            mmapM (dispatch_step self func args_list (snd sp))
                  (seq 0 (length (manifolds self)))
        end
    end.
Proof.
  unfold _iterate_over_manifolds.
  destruct (split_args args (cum_index (dims self) intrinsic) [] []) as [sp|e];
    [|reflexivity].
  rewrite mbind_lift_ok.
  destruct (rmapM (args_of_factor (fst sp)) (seq 0 (length (manifolds self))))
    as [args_list|e]; [|reflexivity].
  rewrite mbind_lift_ok. apply Parallel_map.
Qed.


End Dispatcher.


Example init_cube_2_3_vector :
  ProductManifold.__init__ [unit_cube 2; unit_cube 3] (width_metric [2; 3]) "vector" 1
  = Ok cube_2_3_vector.
Proof. reflexivity. Qed.

Example init_cube_3_3_matrix :
  ProductManifold.__init__ [unit_cube 3; unit_cube 3] (width_metric [3; 3]) "matrix" 1
  = Ok cube_3_3_matrix.
Proof. reflexivity. Qed.

(** ** Stacking and reducing along the last axis *)

Lemma normalize_axis_m1 (k : nat) : gs.normalize_axis (-1) (S k) = Ok k.
Proof.
  unfold gs.normalize_axis.
  replace ((- Z.of_nat (S k) <=? -1) && (-1 <? Z.of_nat (S k)))%Z with true
    by (symmetry; apply andb_true_iff; split;
        [apply Z.leb_le | apply Z.ltb_lt]; lia).
  f_equal.
  assert (H : ((-1) mod Z.of_nat (S k) = Z.of_nat k)%Z).
  { symmetry. apply Z.mod_unique with (q := (-1)%Z); lia. }
  rewrite H. apply Nat2Z.id.
Qed.

Lemma chunk_flat_map {A B} (g : B -> list A) (w : nat) (xs : list B) (o : nat) :
  (forall x, In x xs -> length (g x) = w) ->
  gs.chunk o w (flat_map g xs)
  = match nth_error xs o with Some x => g x | None => [] end.
Proof.
  unfold gs.chunk. revert o. induction xs as [|x t IH]; intros o Hlen.
  - destruct o; simpl; rewrite ?skipn_nil; apply firstn_nil.
  - assert (Hx : length (g x) = w) by (apply Hlen; now left).
    destruct o as [|o]; cbn [flat_map nth_error].
    + cbn [Nat.mul skipn]. rewrite firstn_app, Hx, Nat.sub_diag, firstn_O, app_nil_r.
      apply firstn_all2. lia.
    + replace (S o * w) with (length (g x) + o * w) by (rewrite Hx; simpl; lia).
      rewrite skipn_app, skipn_all2 by lia.
      replace (length (g x) + o * w - length (g x)) with (o * w) by lia.
      cbn [app]. apply IH. intros y Hy. apply Hlen. now right.
Qed.

Lemma chunk_one {A} (l : list A) (o : nat) (d : A) :
  o < length l -> gs.chunk o 1 l = [nth o l d].
Proof.
  unfold gs.chunk. rewrite Nat.mul_1_r. revert o.
  induction l as [|x t IH]; intros o Ho; simpl in Ho; [lia|].
  destruct o as [|o]; [reflexivity|]. cbn [skipn nth]. apply IH. lia.
Qed.

Lemma forallb_map_compose {A B} (f : A -> B) (p : B -> bool) (l : list A) :
  forallb p (map f l) = forallb (fun x => p (f x)) l.
Proof. induction l as [|x t IH]; simpl; [reflexivity | now rewrite IH]. Qed.

Lemma forallb_pointwise {A} (p q : A -> bool) (l : list A) :
  (forall x, In x l -> p x = q x) -> forallb p l = forallb q l.
Proof.
  induction l as [|x t IH]; intros H; simpl; [reflexivity|].
  rewrite (H x) by now left. f_equal. apply IH. intros y Hy. apply H. now right.
Qed.

Lemma flat_map_singleton {A B} (f : A -> B) (l : list A) :
  flat_map (fun x => [f x]) l = map f l.
Proof. induction l as [|x t IH]; simpl; [reflexivity | now rewrite IH]. Qed.

Lemma forallb_seq_nth (l : list bool) :
  forallb (fun j => nth j l true) (seq 0 (length l)) = forallb (fun b => b) l.
Proof.
  induction l as [|b t IH]; [reflexivity|].
  cbn [length seq forallb nth]. f_equal.
  rewrite <- seq_shift, forallb_map_compose. exact IH.
Qed.

Lemma same_shapes_true {A} (s : list nat) (arrs : list (gs.ndarray A)) :
  Forall (fun a => gs.shape a = s) arrs -> gs.same_shapes s arrs = true.
Proof.
  intros H. unfold gs.same_shapes. apply forallb_forall. intros a Ha.
  rewrite Forall_forall in H. specialize (H a Ha).
  now destruct (list_eq_dec Nat.eq_dec (gs.shape a) s).
Qed.

Lemma stack_m1 {A} (arrs : list (gs.ndarray A)) (s : list nat) :
  arrs <> [] -> Forall (fun a => gs.shape a = s) arrs ->
  gs.stack arrs (-1)
  = Ok (gs.mk_array (s ++ [length arrs])
          (flat_map (fun o => flat_map (fun a => gs.chunk o 1 (gs.data a)) arrs)
                    (seq 0 (gs.nelems s)))).
Proof.
  intros Hne Hs. destruct arrs as [|a0 rest]; [contradiction|].
  assert (H0 : gs.shape a0 = s) by (inversion Hs; assumption).
  unfold gs.stack. rewrite H0, (same_shapes_true s) by assumption.
  rewrite normalize_axis_m1. cbn [rbind].
  rewrite firstn_all, skipn_all. reflexivity.
Qed.

Lemma all_m1 (s : list nat) (n : nat) (d : list bool) :
  gs.all (gs.mk_array (s ++ [n]) d) (-1)
  = Ok (gs.mk_array s
          (map (fun o => forallb (fun j => nth j (gs.chunk o n d) true) (seq 0 n))
               (seq 0 (gs.nelems s)))).
Proof.
  unfold gs.all, gs.ndim. cbn [gs.shape gs.data].
  rewrite length_app, Nat.add_1_r, normalize_axis_m1. cbn [rbind].
  rewrite firstn_app, firstn_all, Nat.sub_diag, firstn_O, app_nil_r.
  rewrite app_nth2, Nat.sub_diag by lia. cbn [nth].
  replace (skipn (S (length s)) (s ++ [n])) with (@nil nat)
    by (symmetry; apply skipn_all2; rewrite length_app; simpl; lia).
  rewrite app_nil_r. cbn [gs.nelems fold_right seq map]. f_equal. f_equal.
  rewrite flat_map_singleton. apply map_ext. intros o.
  rewrite Nat.mul_1_r. apply forallb_pointwise. intros j _.
  now rewrite Nat.mul_1_r, Nat.add_0_r.
Qed.

Lemma all_stack_m1 (outs : list (gs.ndarray bool)) (s : list nat) :
  outs <> [] ->
  Forall (fun a => gs.shape a = s /\ gs.wf a) outs ->
  rbind (gs.stack outs (-1)) (fun st => gs.all st (-1))
  = Ok (gs.mk_array s
          (map (fun o => forallb (fun a => nth o (gs.data a) false) outs)
               (seq 0 (gs.nelems s)))).
Proof.
  intros Hne Hall.
  assert (Hs : Forall (fun a => gs.shape a = s) outs)
    by (eapply Forall_impl; [|exact Hall]; now intros a [H _]).
  rewrite (stack_m1 outs s Hne Hs). cbn [rbind]. rewrite all_m1.
  f_equal. f_equal. apply map_ext_in. intros o Ho. apply in_seq in Ho.
  assert (Hblock : forall x, In x (seq 0 (gs.nelems s)) ->
            flat_map (fun a => gs.chunk x 1 (gs.data a)) outs
            = map (fun a => nth x (gs.data a) false) outs).
  { intros x Hx. apply in_seq in Hx. rewrite <- flat_map_singleton.
    rewrite !flat_map_concat_map. f_equal. apply map_ext_in. intros a Ha.
    rewrite Forall_forall in Hall. destruct (Hall a Ha) as [Hsa Hwf].
    apply chunk_one. unfold gs.wf, gs.size in Hwf. rewrite Hwf, Hsa. lia. }
  rewrite chunk_flat_map
    by (intros x Hx; rewrite (Hblock x Hx); apply length_map).
  rewrite nth_error_nth' with (d := 0) by (rewrite length_seq; lia).
  rewrite seq_nth by lia. cbn [Nat.add].
  rewrite Hblock by (apply in_seq; lia).
  rewrite <- (length_map (fun a => nth o (gs.data a) false) outs) at 1.
  rewrite forallb_seq_nth. apply forallb_map_compose.
Qed.

(** ** Loops over the factors *)

Lemma nth_error_combine_seq {A} (l : list A) (k i : nat) :
  nth_error (combine (seq k (length l)) l) i
  = option_map (fun x => (k + i, x)) (nth_error l i).
Proof.
  revert k i. induction l as [|x t IH]; intros k i.
  - destruct i; reflexivity.
  - destruct i as [|i]; cbn [length seq combine nth_error option_map].
    + now rewrite Nat.add_0_r.
    + rewrite IH. destruct (nth_error t i); cbn; [|reflexivity].
      do 2 f_equal. lia.
Qed.

Lemma nth_error_enumerate {A} (l : list A) (i : nat) :
  nth_error (enumerate l) i = option_map (fun x => (i, x)) (nth_error l i).
Proof. unfold enumerate. now rewrite nth_error_combine_seq. Qed.

Lemma length_enumerate {A} (l : list A) : length (enumerate l) = length l.
Proof. unfold enumerate. rewrite length_combine, length_seq. lia. Qed.

Lemma In_enumerate {A} (l : list A) (i : nat) (x : A) :
  In (i, x) (enumerate l) <-> nth_error l i = Some x.
Proof.
  split.
  - intros H. apply In_nth_error in H as [j Hj].
    rewrite nth_error_enumerate in Hj.
    destruct (nth_error l j) as [y|] eqn:E; cbn in Hj; [|discriminate].
    injection Hj as <- <-. exact E.
  - intros H. apply nth_error_In with (n := i).
    rewrite nth_error_enumerate, H. reflexivity.
Qed.

Lemma rmapM_pointwise2 {A A' B} (f : A -> result B) (g : A' -> result B)
  (l : list A) (l' : list A') :
  length l = length l' ->
  (forall i x y, nth_error l i = Some x -> nth_error l' i = Some y -> f x = g y) ->
  rmapM f l = rmapM g l'.
Proof.
  revert l'. induction l as [|x t IH]; intros [|y t'] Hlen H; simpl in Hlen;
    try discriminate; [reflexivity|].
  cbn [rmapM]. rewrite (H 0 x y eq_refl eq_refl).
  rewrite (IH t'); [reflexivity | lia |].
  intros i x' y' Hx Hy. apply (H (S i)); assumption.
Qed.

Lemma rmapM_ext_in {A B} (f g : A -> result B) (l : list A) :
  (forall x, In x l -> f x = g x) -> rmapM f l = rmapM g l.
Proof.
  intros H. apply rmapM_pointwise2; [reflexivity|].
  intros i x y Hx Hy. rewrite Hx in Hy. injection Hy as <-.
  apply H. eapply nth_error_In. exact Hx.
Qed.

Lemma rmapM_post {A B C} (f : A -> result B) (g : B -> C) (l : list A) :
  rmapM (fun x => rbind (f x) (fun y => Ok (g y))) l
  = rbind (rmapM f l) (fun ys => Ok (map g ys)).
Proof.
  induction l as [|x t IH]; [reflexivity|].
  cbn [rmapM]. destruct (f x) as [y|e]; cbn [rbind]; [|reflexivity].
  rewrite IH. now destruct (rmapM f t).
Qed.

Lemma rmapM_as_bools (outs : list (gs.ndarray bool)) :
  rmapM as_bools (map VBools outs) = Ok outs.
Proof. induction outs as [|a t IH]; simpl; [reflexivity | now rewrite IH]. Qed.

Lemma rmapM_as_array (outs : list (gs.ndarray Q)) :
  rmapM as_array (map VArray outs) = Ok outs.
Proof. induction outs as [|a t IH]; simpl; [reflexivity | now rewrite IH]. Qed.

Section DispatcherOutcome.

Import ProductManifold.

Variable self : ProductManifold.t.
Variable func : string.

(** Once the arguments are split and every factor has its pieces, the
    dispatcher returns what the factors return, called in factor order with
    their pieces and the floats. *)
Lemma dispatch_outcome (args : dict value) (intrinsic : bool) sp :
  split_args args (cum_index (dims self) intrinsic) [] [] = Ok sp ->
  (forall i, i < length (manifolds self) ->
             is_ok (args_of_factor (fst sp) i) = true) ->
  outcome (_iterate_over_manifolds self func args intrinsic)
  = rmapM (fun im =>
             (args_i <- args_of_factor (fst sp) (fst im) ;;
              Manifold.call_method (snd im) func (dict_update args_i (snd sp)))%result)
          (enumerate (manifolds self)).
Proof.
  intros Hsp Hok. rewrite dispatch_cases, Hsp.
  destruct (rmapM (args_of_factor (fst sp)) (seq 0 (length (manifolds self))))
    as [args_list|e] eqn:E.
  - rewrite outcome_mmapM. apply rmapM_pointwise2.
    + now rewrite length_seq, length_enumerate.
    + intros i j [k m] Hi Hj.
      assert (Hlt : i < length (manifolds self)).
      { apply nth_error_Some. rewrite nth_error_enumerate in Hj.
        destruct (nth_error (manifolds self) i); [discriminate|discriminate]. }
      rewrite nth_error_nth' with (d := 0) in Hi by (rewrite length_seq; lia).
      rewrite seq_nth in Hi by lia. injection Hi as <-.
      rewrite nth_error_enumerate in Hj.
      destruct (nth_error (manifolds self) i) as [m'|] eqn:Em; [|discriminate].
      cbn in Hj. injection Hj as <- <-.
      assert (Hnth : nth_error (seq 0 (length (manifolds self))) i = Some i).
      { rewrite nth_error_nth' with (d := 0) by (rewrite length_seq; lia).
        now rewrite seq_nth by lia. }
      destruct (rmapM_nth_error _ _ _ _ _ E Hnth) as (a & Ha & Hf).
      unfold dispatch_step. rewrite Em, Ha. cbn [outcome snd fst].
      rewrite Hf. reflexivity.
  - exfalso. clear - E Hok.
    assert (H : forall l, (forall i, In i l -> is_ok (args_of_factor (fst sp) i) = true) ->
                          rmapM (args_of_factor (fst sp)) l <> Raise e).
    { induction l as [|x t IH]; intros Hl; [discriminate|].
      cbn [rmapM]. specialize (Hl x (or_introl eq_refl)) as Hx.
      destruct (args_of_factor (fst sp) x) as [a|e']; [|discriminate].
      cbn [rbind].
      destruct (rmapM (args_of_factor (fst sp)) t) as [ys|e'] eqn:Et;
        [discriminate|].
      cbn [rbind]. intros Heq. injection Heq as ->.
      apply IH; [|reflexivity]. intros i Hi. apply Hl. now right. }
    eapply H; [|exact E]. intros i Hi. apply Hok. apply in_seq in Hi. lia.
Qed.

End DispatcherOutcome.

(** ** Calls with the keyword arguments the composites build *)

Lemma call_belongs (m : Manifold.t) (sl : gs.ndarray Q) (atol : value) :
  Manifold.call_method m "belongs" [("point", VArray sl); ("atol", atol)]
  = rbind (Manifold.belongs m sl (Some atol)) (fun r => Ok (VBools r)).
Proof. reflexivity. Qed.

Lemma call_is_tangent_kw (m : Manifold.t) (v p : gs.ndarray Q) (atol : value) :
  Manifold.call_method m "is_tangent"
    [("base_point", VArray p); ("vector", VArray v); ("atol", atol)]
  = rbind (Manifold.is_tangent m v p (Some atol)) (fun r => Ok (VBools r)).
Proof. reflexivity. Qed.

Lemma call_is_tangent_pos (m : Manifold.t) (v p : gs.ndarray Q) (atol : value) :
  Manifold.call_method m "is_tangent"
    [("vector", VArray v); ("base_point", VArray p); ("atol", atol)]
  = rbind (Manifold.is_tangent m v p (Some atol)) (fun r => Ok (VBools r)).
Proof. reflexivity. Qed.

Lemma call_is_tangent_no_atol (m : Manifold.t) (v p : gs.ndarray Q) :
  Manifold.call_method m "is_tangent"
    [("vector", VArray v); ("base_point", VArray p)]
  = rbind (Manifold.is_tangent m v p None) (fun r => Ok (VBools r)).
Proof. reflexivity. Qed.

Lemma call_regularize (m : Manifold.t) (sl : gs.ndarray Q) :
  Manifold.call_method m "regularize" [("point", VArray sl)]
  = rbind (Manifold.regularize m sl) (fun r => Ok (VArray r)).
Proof. reflexivity. Qed.

Lemma factor_slice_vector self ref x i sl :
  ProductManifold.default_point_type self = "vector" ->
  factor_slice self ref x i = Ok sl ->
  exists intrinsic pieces,
    is_intrinsic (ProductManifold.metric self) ref = Ok intrinsic
    /\ gs.split x (ProductManifold.cum_index (ProductManifold.dims self) intrinsic)
       = Ok pieces
    /\ nth_error pieces i = Some sl.
Proof.
  intros Htag H. unfold factor_slice in H. rewrite Htag in H. cbn in H.
  destruct (is_intrinsic _ ref) as [intr|e] eqn:E1; [|discriminate]. cbn in H.
  destruct (gs.split x _) as [pieces|e] eqn:E2; [|discriminate]. cbn in H.
  destruct (nth_error pieces i) as [p|] eqn:E3; [|discriminate].
  injection H as <-. exists intr, pieces. auto.
Qed.

Lemma rmapM_first {A B} (f : A -> result B) (l : list A) (ys : list B) :
  rmapM f l = Ok ys -> ys <> [] ->
  exists x y, nth_error l 0 = Some x /\ f x = Ok y.
Proof.
  intros H Hne. destruct l as [|x t].
  - injection H as <-. contradiction.
  - cbn in H. destruct (f x) as [y|e] eqn:E; [|discriminate].
    exists x, y. split; [reflexivity | exact E].
Qed.

Section BelongsAllFactors.

Import ProductManifold.

Variable self : ProductManifold.t.
Variable tol : Q.
Local Abbreviation atol := (VFloat tol).

(** [belongs] is the reduction of the stacked per-factor results. *)
Lemma belongs_factor_results (point : gs.ndarray Q) outs :
  factor_belongs self point atol = Ok outs -> outs <> [] ->
  outcome (belongs self point atol)
  = rbind (gs.stack outs (-1)) (fun st => gs.all st (-1)).
Proof.
  intros H Hne. unfold belongs.
  rewrite outcome_mbind. f_equal.
  destruct (String.eqb (default_point_type self) "vector") eqn:Etag.
  - apply String.eqb_eq in Etag.
    destruct (rmapM_first _ _ _ H Hne) as ([i0 m0] & y0 & _ & H0).
    cbn [fst snd] in H0. apply rbind_ok in H0 as (sl0 & Hsl0 & _).
    destruct (factor_slice_vector _ _ _ _ _ Etag Hsl0)
      as (intr & pieces & Hintr & Hsplit & _).
    rewrite outcome_mbind. cbn [lift outcome snd]. rewrite Hintr. cbn [rbind].
    rewrite outcome_mbind. cbn [lift outcome snd].
    assert (Hsp : split_args [("point", VArray point); ("atol", atol)]
                    (cum_index (dims self) intr) [] []
                  = Ok ([("point", map VArray pieces)], [("atol", atol)])).
    { cbn. rewrite Hsplit. reflexivity. }
    assert (Hfact : forall im,
               (args_i <- args_of_factor [("point", map VArray pieces)] (fst im) ;;
                Manifold.call_method (snd im) "belongs"
                  (dict_update args_i [("atol", atol)]))%result
               = rbind ((slice <- factor_slice self point point (fst im) ;;
                         Manifold.belongs (snd im) slice (Some atol))%result)
                       (fun r => Ok (VBools r))).
    { intros [i m]. cbn [fst snd]. unfold factor_slice, args_of_factor.
      rewrite Etag, Hintr. cbn. rewrite Hsplit. cbn. rewrite nth_error_map.
      destruct (nth_error pieces i) as [p|]; reflexivity. }
    rewrite (dispatch_outcome self "belongs" _ intr _ Hsp).
    + cbn [fst snd]. rewrite (rmapM_ext_in _ _ _ (fun im _ => Hfact im)).
      rewrite rmapM_post. fold (factor_belongs self point atol). rewrite H.
      cbn [rbind]. unfold stack_bools. now rewrite rmapM_as_bools.
    + intros i Hi. cbn [fst].
      destruct (nth_error (manifolds self) i) as [m|] eqn:Em;
        [|apply nth_error_None in Em; lia].
      assert (Hen : nth_error (enumerate (manifolds self)) i = Some (i, m))
        by (now rewrite nth_error_enumerate, Em).
      destruct (rmapM_nth_error _ _ _ _ _ H Hen) as (y & _ & Hy).
      cbn [fst snd] in Hy. apply rbind_ok in Hy as (sl & Hsl & _).
      destruct (factor_slice_vector _ _ _ _ _ Etag Hsl)
        as (intr' & pieces' & Hintr' & Hsplit' & Hnth).
      rewrite Hintr in Hintr'. injection Hintr' as <-.
      rewrite Hsplit in Hsplit'. injection Hsplit' as <-.
      unfold args_of_factor. cbn. rewrite nth_error_map, Hnth. reflexivity.
  - rewrite outcome_mbind, outcome_mmapM. cbn [lift outcome snd].
    rewrite (rmapM_ext_in _
               (fun im => rbind ((slice <- factor_slice self point point (fst im) ;;
                                  Manifold.belongs (snd im) slice (Some atol))%result)
                                (fun r => Ok (VBools r)))).
    + rewrite rmapM_post. fold (factor_belongs self point atol). rewrite H.
      cbn [rbind]. unfold stack_bools. now rewrite rmapM_as_bools.
    + intros [i m] _. rewrite outcome_mbind. cbn [lift outcome snd fst].
      unfold factor_slice. rewrite Etag.
      destruct (gs.index_row point i) as [sl|e]; [|reflexivity].
      cbn [rbind]. unfold invoke. cbn [snd]. apply call_belongs.
Qed.

(** [is_tangent] is the reduction of the stacked per-factor results. *)
Lemma is_tangent_factor_results (vector base_point : gs.ndarray Q) outs :
  factor_is_tangent self vector base_point atol = Ok outs -> outs <> [] ->
  outcome (is_tangent self vector base_point atol)
  = rbind (gs.stack outs (-1)) (fun st => gs.all st (-1)).
Proof.
  intros H Hne. unfold is_tangent.
  rewrite outcome_mbind. f_equal.
  destruct (String.eqb (default_point_type self) "vector") eqn:Etag.
  - apply String.eqb_eq in Etag.
    destruct (rmapM_first _ _ _ H Hne) as ([i0 m0] & y0 & _ & H0).
    cbn [fst snd] in H0. apply rbind_ok in H0 as (v0 & Hv0 & H0).
    apply rbind_ok in H0 as (p0 & Hp0 & _).
    destruct (factor_slice_vector _ _ _ _ _ Etag Hv0)
      as (intr & pv & Hintr & Hsplitv & _).
    destruct (factor_slice_vector _ _ _ _ _ Etag Hp0)
      as (intr' & pb & Hintr' & Hsplitb & _).
    rewrite Hintr in Hintr'. injection Hintr' as <-.
    rewrite outcome_mbind. cbn [lift outcome snd]. rewrite Hintr. cbn [rbind].
    rewrite outcome_mbind. cbn [lift outcome snd].
    assert (Hsp : split_args [("base_point", VArray base_point);
                              ("vector", VArray vector); ("atol", atol)]
                    (cum_index (dims self) intr) [] []
                  = Ok ([("base_point", map VArray pb); ("vector", map VArray pv)],
                        [("atol", atol)])).
    { cbn. rewrite Hsplitb. cbn. rewrite Hsplitv. reflexivity. }
    assert (Hfact : forall im,
               (args_i <- args_of_factor [("base_point", map VArray pb);
                                          ("vector", map VArray pv)] (fst im) ;;
                Manifold.call_method (snd im) "is_tangent"
                  (dict_update args_i [("atol", atol)]))%result
               = rbind ((v <- factor_slice self base_point vector (fst im) ;;
                         p <- factor_slice self base_point base_point (fst im) ;;
                         Manifold.is_tangent (snd im) v p (Some atol))%result)
                       (fun r => Ok (VBools r))).
    { intros [i m]. cbn [fst snd]. unfold factor_slice, args_of_factor.
      rewrite Etag, Hintr. cbn. rewrite Hsplitb, Hsplitv. cbn.
      rewrite !nth_error_map.
      destruct (nth_error pb i) as [p|], (nth_error pv i) as [v|]; reflexivity. }
    rewrite (dispatch_outcome self "is_tangent" _ intr _ Hsp).
    + cbn [fst snd]. rewrite (rmapM_ext_in _ _ _ (fun im _ => Hfact im)).
      rewrite rmapM_post. fold (factor_is_tangent self vector base_point atol).
      rewrite H. cbn [rbind]. unfold stack_bools. now rewrite rmapM_as_bools.
    + intros i Hi. cbn [fst].
      destruct (nth_error (manifolds self) i) as [m|] eqn:Em;
        [|apply nth_error_None in Em; lia].
      assert (Hen : nth_error (enumerate (manifolds self)) i = Some (i, m))
        by (now rewrite nth_error_enumerate, Em).
      destruct (rmapM_nth_error _ _ _ _ _ H Hen) as (y & _ & Hy).
      cbn [fst snd] in Hy. apply rbind_ok in Hy as (v & Hv & Hy).
      apply rbind_ok in Hy as (p & Hp & _).
      destruct (factor_slice_vector _ _ _ _ _ Etag Hv)
        as (i1 & pv' & Hi1 & Hsv & Hnv).
      destruct (factor_slice_vector _ _ _ _ _ Etag Hp)
        as (i2 & pb' & Hi2 & Hsb & Hnb).
      rewrite Hintr in Hi1, Hi2. injection Hi1 as <-. injection Hi2 as <-.
      rewrite Hsplitv in Hsv. injection Hsv as <-.
      rewrite Hsplitb in Hsb. injection Hsb as <-.
      unfold args_of_factor. cbn. rewrite !nth_error_map, Hnv, Hnb. reflexivity.
  - rewrite outcome_mbind, outcome_mmapM. cbn [lift outcome snd].
    rewrite (rmapM_ext_in _
               (fun im => rbind ((v <- factor_slice self base_point vector (fst im) ;;
                                  p <- factor_slice self base_point base_point (fst im) ;;
                                  Manifold.is_tangent (snd im) v p (Some atol))%result)
                                (fun r => Ok (VBools r)))).
    + rewrite rmapM_post. fold (factor_is_tangent self vector base_point atol).
      rewrite H. cbn [rbind]. unfold stack_bools. now rewrite rmapM_as_bools.
    + intros [i m] _. rewrite outcome_mbind. cbn [lift outcome snd fst].
      unfold factor_slice. rewrite Etag.
      destruct (gs.index_row vector i) as [v|e]; [|reflexivity].
      cbn [rbind]. rewrite outcome_mbind. cbn [lift outcome snd].
      destruct (gs.index_row base_point i) as [p|e]; [|reflexivity].
      cbn [rbind]. unfold invoke. cbn [snd]. apply call_is_tangent_pos.
Qed.

End BelongsAllFactors.

Lemma nth_map_seq {A} (F : nat -> A) (N b : nat) (d : A) :
  b < N -> nth b (map F (seq 0 N)) d = F b.
Proof.
  intros Hb. rewrite nth_indep with (d' := F 0)
    by (rewrite length_map, length_seq; exact Hb).
  rewrite (map_nth F), seq_nth by exact Hb. reflexivity.
Qed.

Lemma all_stack_m1_spec (outs : list (gs.ndarray bool)) (s : list nat) :
  outs <> [] ->
  Forall (fun a => gs.shape a = s /\ gs.wf a) outs ->
  exists r,
    rbind (gs.stack outs (-1)) (fun st => gs.all st (-1)) = Ok r
    /\ gs.shape r = s
    /\ forall b, b < gs.nelems s ->
         (nth b (gs.data r) false = true
          <-> Forall (fun a => nth b (gs.data a) false = true) outs).
Proof.
  intros Hne Hall. eexists. split; [apply (all_stack_m1 outs s Hne Hall)|].
  split; [reflexivity|]. intros b Hb. cbn [gs.data].
  rewrite nth_map_seq by exact Hb.
  rewrite forallb_forall, Forall_forall. reflexivity.
Qed.

(** C2. When every factor's own [belongs] (resp. [is_tangent]) on its slice
    of the point (resp. of the vector and the base point) returns a boolean
    array of the common batch shape, the composite returns an array of that
    shape whose entry is true exactly when the entry is true in every
    factor's result: the per-factor results stacked on a new last axis and
    reduced with a logical AND. *)
Theorem belongs_is_tangent_all_factors :
  forall (self : ProductManifold.t) (atol : Q) (s : list nat)
         (outs : list (gs.ndarray bool)),
    outs <> [] ->
    Forall (fun a => gs.shape a = s /\ gs.wf a) outs ->
    (forall point,
        factor_belongs self point (VFloat atol) = Ok outs ->
        outcome (ProductManifold.belongs self point (VFloat atol))
        = rbind (gs.stack outs (-1)) (fun st => gs.all st (-1))
        /\ exists r,
            outcome (ProductManifold.belongs self point (VFloat atol)) = Ok r
            /\ gs.shape r = s
            /\ forall b, b < gs.nelems s ->
                 (nth b (gs.data r) false = true
                  <-> Forall (fun a => nth b (gs.data a) false = true) outs))
    /\ (forall vector base_point,
        factor_is_tangent self vector base_point (VFloat atol) = Ok outs ->
        outcome (ProductManifold.is_tangent self vector base_point (VFloat atol))
        = rbind (gs.stack outs (-1)) (fun st => gs.all st (-1))
        /\ exists r,
            outcome (ProductManifold.is_tangent self vector base_point (VFloat atol))
            = Ok r
            /\ gs.shape r = s
            /\ forall b, b < gs.nelems s ->
                 (nth b (gs.data r) false = true
                  <-> Forall (fun a => nth b (gs.data a) false = true) outs)).
Proof.
  intros self atol s outs Hne Hall. split.
  - intros point H.
    rewrite (belongs_factor_results self atol point outs H Hne).
    split; [reflexivity | now apply all_stack_m1_spec].
  - intros vector base_point H.
    rewrite (is_tangent_factor_results self atol vector base_point outs H Hne).
    split; [reflexivity | now apply all_stack_m1_spec].
Qed.

(** ** A factor that raises *)

Lemma rmapM_some_raise {A B} (f : A -> result B) (l : list A) (x : A) :
  In x l -> is_ok (f x) = false -> is_ok (rmapM f l) = false.
Proof.
  induction l as [|y t IH]; intros Hin Hx; [contradiction|].
  cbn [rmapM]. destruct (f y) as [b|e] eqn:E; [|reflexivity]. cbn [rbind].
  destruct Hin as [->|Hin]; [rewrite E in Hx; discriminate|].
  specialize (IH Hin Hx). now destruct (rmapM f t).
Qed.

Lemma rmapM_first_raise {A B} (f : A -> result B) (l : list A) i x e :
  nth_error l i = Some x -> f x = Raise e ->
  (forall j y, j < i -> nth_error l j = Some y -> is_ok (f y) = true) ->
  rmapM f l = Raise e.
Proof.
  revert i. induction l as [|y t IH]; intros i Hi Hx Hbefore.
  - destruct i; discriminate.
  - destruct i as [|i]; cbn [rmapM nth_error] in *.
    + injection Hi as ->. now rewrite Hx.
    + pose proof (Hbefore 0 y (Nat.lt_0_succ i) eq_refl) as Hy.
      destruct (f y) as [b|e']; [|discriminate]. cbn [rbind].
      rewrite (IH i Hi Hx); [reflexivity|].
      intros j z Hj Hz. apply (Hbefore (S j) z); [lia | exact Hz].
Qed.

Lemma dispatch_factor_calls self func args intrinsic sp :
  ProductManifold.split_args args
    (ProductManifold.cum_index (ProductManifold.dims self) intrinsic) [] [] = Ok sp ->
  (forall j, j < length (ProductManifold.manifolds self) ->
             is_ok (ProductManifold.args_of_factor (fst sp) j) = true) ->
  outcome (ProductManifold._iterate_over_manifolds self func args intrinsic)
  = rmapM (factor_call func sp) (enumerate (ProductManifold.manifolds self)).
Proof. intros Hsp Hok. now apply dispatch_outcome. Qed.

Lemma belongs_vector_outcome self point atol intrinsic :
  ProductManifold.default_point_type self = "vector" ->
  is_intrinsic (ProductManifold.metric self) point = Ok intrinsic ->
  outcome (ProductManifold.belongs self point atol)
  = (outs <- outcome (ProductManifold._iterate_over_manifolds self "belongs"
                        [("point", VArray point); ("atol", atol)] intrinsic) ;;
     stacked <- ProductManifold.stack_bools outs (-1) ;;
     gs.all stacked (-1))%result.
Proof.
  intros Htag Hintr. unfold ProductManifold.belongs. rewrite Htag.
  change (String.eqb "vector" "vector") with true. cbv iota.
  rewrite outcome_mbind, outcome_mbind. cbn [lift outcome snd].
  rewrite Hintr. cbn [rbind]. rewrite outcome_mbind.
  destruct (outcome (ProductManifold._iterate_over_manifolds _ _ _ _)); reflexivity.
Qed.

(** C3 (as amended). When the operation invoked on some factor raises, the
    dispatch returns no result sequence at all; the error of the first factor
    that raises is passed on as it is, with neither the factor's index nor
    the operation name attached, and [belongs] fails with that same error. *)
Theorem factor_error_propagates_unchanged :
  forall self func args intrinsic sp i m e,
    ProductManifold.split_args args
      (ProductManifold.cum_index (ProductManifold.dims self) intrinsic) [] [] = Ok sp ->
    (forall j, j < length (ProductManifold.manifolds self) ->
               is_ok (ProductManifold.args_of_factor (fst sp) j) = true) ->
    nth_error (ProductManifold.manifolds self) i = Some m ->
    factor_call func sp (i, m) = Raise e ->
    is_ok (outcome (ProductManifold._iterate_over_manifolds self func args intrinsic))
    = false
    /\ ((forall j m', j < i -> nth_error (ProductManifold.manifolds self) j = Some m' ->
                      is_ok (factor_call func sp (j, m')) = true) ->
        outcome (ProductManifold._iterate_over_manifolds self func args intrinsic)
        = Raise e
        /\ forall point atol,
            func = "belongs" ->
            args = [("point", VArray point); ("atol", atol)] ->
            ProductManifold.default_point_type self = "vector" ->
            is_intrinsic (ProductManifold.metric self) point = Ok intrinsic ->
            outcome (ProductManifold.belongs self point atol) = Raise e).
Proof.
  intros self func args intrinsic sp i m e Hsp Hok Hm Hraise.
  rewrite (dispatch_factor_calls self func args intrinsic sp Hsp Hok).
  assert (Hen : nth_error (enumerate (ProductManifold.manifolds self)) i = Some (i, m))
    by (now rewrite nth_error_enumerate, Hm).
  split.
  - apply rmapM_some_raise with (x := (i, m)).
    + eapply nth_error_In. exact Hen.
    + now rewrite Hraise.
  - intros Hbefore.
    assert (Hall : rmapM (factor_call func sp)
                         (enumerate (ProductManifold.manifolds self)) = Raise e).
    { apply rmapM_first_raise with (i := i) (x := (i, m)); [exact Hen | exact Hraise |].
      intros j [k m'] Hj Hjm. rewrite nth_error_enumerate in Hjm.
      destruct (nth_error (ProductManifold.manifolds self) j) as [m''|] eqn:Ej;
        [|discriminate].
      cbn in Hjm. injection Hjm as <- <-. now apply Hbefore. }
    split; [exact Hall|].
    intros point atol -> -> Htag Hintr.
    rewrite (belongs_vector_outcome self point atol intrinsic Htag Hintr).
    rewrite (dispatch_factor_calls self "belongs" _ intrinsic sp Hsp Hok), Hall.
    reflexivity.
Qed.

(** C3 as stated fails: the second factor's [belongs] raises a ValueError;
    the dispatch and [belongs] fail with that very ValueError, which is no
    FactorOperationError; and the failure is the same when it is the first
    factor that raises, so it does not tell the factor's index. *)
Lemma factor_error_is_not_wrapped :
  factor_call "belongs" ([("point", [VArray (gs.mk_array [2] [0; 1]%Q);
                                     VArray (gs.mk_array [3] [0; 1; 0]%Q)])],
                         [("atol", atol_default)])
              (1, broken 3 boom) = Raise boom
  /\ ProductManifold._iterate_over_manifolds cube_2_broken_3 "belongs"
       [("point", VArray point5); ("atol", atol_default)] true
     = ([Call 0 "belongs" [("point", VArray (gs.mk_array [2] [0; 1]%Q));
                           ("atol", atol_default)];
         Call 1 "belongs" [("point", VArray (gs.mk_array [3] [0; 1; 0]%Q));
                           ("atol", atol_default)]],
        Raise (ValueError "boom"))
  /\ outcome (ProductManifold.belongs cube_2_broken_3 point5 atol_default)
     = Raise (ValueError "boom")
  /\ (forall cause,
         outcome (ProductManifold.belongs cube_2_broken_3 point5 atol_default)
         <> Raise (FactorOperationError 1 "belongs" cause))
  /\ outcome (ProductManifold.belongs broken_2_cube_3 point5 atol_default)
     = outcome (ProductManifold.belongs cube_2_broken_3 point5 atol_default).
Proof.
  repeat split; try reflexivity.
  intros cause. vm_compute. discriminate.
Qed.

(** ** Construction *)

Lemma init_fields manifolds metric tag n_jobs self :
  ProductManifold.__init__ manifolds metric tag n_jobs = Ok self ->
  ProductManifold.dims self = map Manifold.dim manifolds
  /\ ProductManifold.dim self = list_sum (map Manifold.dim manifolds)
  /\ ProductManifold.manifolds self = manifolds
  /\ ProductManifold.default_point_type self = tag
  /\ (tag = "vector" \/ tag = "matrix").
Proof.
  unfold ProductManifold.__init__, check_parameter_accepted_values.
  cbn [existsb]. intros H.
  assert (Htag : tag = "vector" \/ tag = "matrix").
  { destruct (String.eqb_spec tag "vector") as [->|_]; [now left|].
    destruct (String.eqb_spec tag "matrix") as [->|_]; [now right|].
    cbn in H. discriminate. }
  replace (String.eqb tag "vector" || (String.eqb tag "matrix" || false)) with true in H
    by (destruct Htag as [-> | ->]; reflexivity).
  cbn [rbind] in H.
  match type of H with
  | rbind ?sh _ = _ => destruct sh as [shape|e]; [|discriminate]
  end.
  cbn [rbind] in H. injection H as <-. cbn. auto.
Qed.

Lemma init_shape_vector manifolds metric n_jobs self :
  ProductManifold.__init__ manifolds metric "vector" n_jobs = Ok self ->
  ProductManifold.shape self = [list_sum (map (fun m => hd 0 (Manifold.shape m)) manifolds)]
  /\ Forall (fun m => Manifold.shape m <> []) manifolds.
Proof.
  unfold ProductManifold.__init__. cbn. intros H.
  match type of H with
  | rbind (rbind ?w _) _ = _ => destruct w as [widths|e] eqn:E; [|discriminate]
  end.
  cbn in H. injection H as <-. cbn.
  apply rmapM_Forall2 in E. clear - E.
  induction E as [|m w ms ws Hm _ IH]; [split; [reflexivity | constructor]|].
  destruct IH as [IHs IHne]. injection IHs as IHs.
  destruct (Manifold.shape m) as [|w0 s0] eqn:Es; [discriminate|].
  injection Hm as <-. split.
  - cbn [map list_sum fold_right]. rewrite Es. cbn [hd].
    unfold list_sum in IHs. now rewrite IHs.
  - constructor; [now rewrite Es | exact IHne].
Qed.

Lemma init_shape_matrix manifolds metric n_jobs self :
  ProductManifold.__init__ manifolds metric "matrix" n_jobs = Ok self ->
  exists m0 rest, manifolds = m0 :: rest
                  /\ ProductManifold.shape self = length manifolds :: Manifold.shape m0.
Proof.
  unfold ProductManifold.__init__. cbn. intros H.
  destruct manifolds as [|m0 rest]; [discriminate|].
  cbn in H. injection H as <-. exists m0, rest. split; reflexivity.
Qed.

(** C4 (as amended). Construction is rejected with ConfigError when the
    point-layout tag is neither 'vector' nor 'matrix'.  In matrix layout the
    shapes of the factors are not compared: a non-empty list of factors is
    accepted whatever their shapes, and the composite takes the shape of the
    first factor behind the number of factors. *)
Theorem init_rejects_only_unknown_tag :
  (forall manifolds metric tag n_jobs,
      tag <> "vector" -> tag <> "matrix" ->
      ProductManifold.__init__ manifolds metric tag n_jobs
      = Raise (ConfigError "default_point_type"))
  /\ (forall m0 rest metric n_jobs,
         exists self,
           ProductManifold.__init__ (m0 :: rest) metric "matrix" n_jobs = Ok self
           /\ ProductManifold.manifolds self = m0 :: rest
           /\ ProductManifold.shape self = length (m0 :: rest) :: Manifold.shape m0).
Proof.
  split.
  - intros manifolds metric tag n_jobs Hv Hm.
    unfold ProductManifold.__init__, check_parameter_accepted_values. cbn [existsb].
    apply String.eqb_neq in Hv, Hm. now rewrite Hv, Hm.
  - intros m0 rest metric n_jobs. eexists. split; [reflexivity|].
    split; reflexivity.
Qed.

(** C4 as stated fails: a matrix-layout product of two factors of shapes
    (2,) and (3,) is constructed. *)
Lemma init_matrix_accepts_differing_shapes :
  Manifold.shape (unit_cube 2) <> Manifold.shape (unit_cube 3)
  /\ exists self,
      ProductManifold.__init__ [unit_cube 2; unit_cube 3] (width_metric [2; 3])
        "matrix" 1 = Ok self
      /\ ProductManifold.shape self = [2; 2].
Proof.
  split; [discriminate|]. eexists. split; reflexivity.
Qed.

Lemma sum_hd_last (manifolds : list Manifold.t) :
  Forall (fun m => length (Manifold.shape m) = 1) manifolds ->
  map (fun m => hd 0 (Manifold.shape m)) manifolds
  = map (fun m => last (Manifold.shape m) 0) manifolds.
Proof.
  intros H. apply map_ext_in. intros m Hm.
  rewrite Forall_forall in H. specialize (H m Hm).
  destruct (Manifold.shape m) as [|w [|w' s]]; try discriminate. reflexivity.
Qed.


(** ** What each factor receives *)










Lemma sections_length (st : nat) (l : list nat) :
  length (gs.sections st l) = length l.
Proof.
  revert st. induction l as [|x t IH]; intros st; [reflexivity|].
  cbn. now rewrite IH.
Qed.

Lemma split_length {A} (a : gs.ndarray A) indices pieces :
  gs.split a indices = Ok pieces -> length pieces = length indices + 1.
Proof.
  unfold gs.split. destruct (rev (gs.shape a)) as [|w rbatch]; [discriminate|].
  intros H. injection H as <-.
  now rewrite length_map, sections_length, length_app.
Qed.


Lemma cumsum_length (l : list nat) : length (gs.cumsum l) = length l.
Proof.
  rewrite cumsum_running_sum. unfold running_sum.
  now rewrite length_map, length_seq.
Qed.

Lemma cum_index_length (dims : list nat) (intrinsic : bool) :
  length (ProductManifold.cum_index dims intrinsic)
  = if intrinsic then length dims - 1 else length dims.
Proof.
  unfold ProductManifold.cum_index. destruct intrinsic.
  - rewrite removelast_firstn_len, length_firstn, cumsum_length. lia.
  - now rewrite cumsum_length, length_map.
Qed.



(** ** [regularize] in matrix layout *)

(** Each factor's own [regularize] on its row of a matrix-layout point. *)
Lemma regularize_matrix_outcome self point :
  ProductManifold.default_point_type self = "matrix" ->
  outcome (ProductManifold.regularize self point)
  = (outs <- rmapM (fun im =>
                      (row <- gs.index_row point (fst im) ;;
                       Manifold.regularize (snd im) row)%result)
                   (enumerate (ProductManifold.manifolds self)) ;;
     gs.stack outs 1)%result.
Proof.
  intros Htag. unfold ProductManifold.regularize. rewrite Htag.
  change (String.eqb "matrix" "vector") with false.
  change (String.eqb "matrix" "matrix") with true. cbv iota.
  rewrite outcome_mbind, outcome_mmapM. cbn [lift outcome snd].
  rewrite (rmapM_ext_in _
             (fun im => rbind ((row <- gs.index_row point (fst im) ;;
                                Manifold.regularize (snd im) row)%result)
                              (fun r => Ok (VArray r)))).
  - rewrite rmapM_post.
    destruct (rmapM _ (enumerate (ProductManifold.manifolds self))) as [outs|e];
      [|reflexivity].
    cbn [rbind]. unfold ProductManifold.stack_arrays. now rewrite rmapM_as_array.
  - intros [i m] _. rewrite outcome_mbind. cbn [lift outcome snd fst].
    destruct (gs.index_row point i) as [row|e]; [|reflexivity].
    cbn [rbind]. unfold invoke. cbn [snd]. apply call_regularize.
Qed.

(** C6. In matrix layout [regularize] stacks the regularized rows on axis 1:
    when the factors return rows of shape (d,) for an unbatched point of
    shape (n, d), the result has shape (d, n_factors), the factor axis last,
    and not the layout [n_factors, dim_each] of the input.  On the point
    [[0, 1, 0], [1, 0, 3]] of two unit cubes it returns shape (3, 2) where
    [projection], which stacks on axis -2, returns shape (2, 3); on a batch
    of two such points, and in vector layout, the layout is kept. *)
Theorem regularize_matrix_stacks_on_axis_1 :
  (forall self point d outs,
      ProductManifold.default_point_type self = "matrix" ->
      rmapM (fun im =>
               (row <- gs.index_row point (fst im) ;;
                Manifold.regularize (snd im) row)%result)
            (enumerate (ProductManifold.manifolds self)) = Ok outs ->
      outs <> [] ->
      Forall (fun a => gs.shape a = [d]) outs ->
      exists r,
        outcome (ProductManifold.regularize self point) = Ok r
        /\ gs.shape r = [d; length (ProductManifold.manifolds self)])
  /\ outcome (ProductManifold.regularize cube_3_3_matrix point_2x3)
     = Ok (gs.mk_array [3; 2] [0; 1; 1; 0; 0; 1]%Q)
  /\ outcome (ProductManifold.projection cube_3_3_matrix point_2x3)
     = Ok (gs.mk_array [2; 3] [0; 1; 0; 1; 0; 1]%Q)
  /\ outcome (ProductManifold.regularize cube_3_3_matrix batch_2x2x3)
     = Ok (gs.mk_array [2; 2; 3] [0; 1; 0; 1; 0; 1; 0; 0; 0; 1; 1; 1]%Q)
  /\ outcome (ProductManifold.regularize cube_2_3_vector batch_2x5)
     = Ok (gs.mk_array [2; 5] [0; 1; 0; 1; 0; 0; 0; 1; 0; 0]%Q).
Proof.
  split; [|repeat split].
  intros self point d outs Htag Houts Hne Hshape.
  rewrite (regularize_matrix_outcome self point Htag), Houts. cbn [rbind].
  pose proof (rmapM_length _ _ _ Houts) as Hlen. rewrite length_enumerate in Hlen.
  destruct outs as [|a0 rest]; [contradiction|].
  assert (H0 : gs.shape a0 = [d]) by (inversion Hshape; assumption).
  unfold gs.stack. rewrite H0, (same_shapes_true [d]) by assumption.
  eexists. split; [reflexivity|]. cbn. now rewrite <- Hlen.
Qed.

Lemma regularize_matrix_stacks_on_axis_1_witness :
  let outs := [gs.mk_array [3] [0; 1; 0]%Q; gs.mk_array [3] [1; 0; 1]%Q] in
  ProductManifold.default_point_type cube_3_3_matrix = "matrix"
  /\ rmapM (fun im =>
              (row <- gs.index_row point_2x3 (fst im) ;;
               Manifold.regularize (snd im) row)%result)
           (enumerate (ProductManifold.manifolds cube_3_3_matrix)) = Ok outs
  /\ outs <> []
  /\ Forall (fun a => gs.shape a = [3]) outs
  /\ gs.shape point_2x3 = [2; 3]
  /\ exists r,
      outcome (ProductManifold.regularize cube_3_3_matrix point_2x3) = Ok r
      /\ gs.shape r = [3; 2].
Proof.
  intros outs.
  assert (Hne : outs <> []) by discriminate.
  assert (Hshape : Forall (fun a => gs.shape a = [3]) outs) by (repeat constructor).
  split; [reflexivity|]. split; [reflexivity|]. split; [exact Hne|].
  split; [exact Hshape|]. split; [reflexivity|].
  exact (proj1 regularize_matrix_stacks_on_axis_1 cube_3_3_matrix point_2x3 3 outs
           eq_refl eq_refl Hne Hshape).
Defined.

(** ** The homogeneous power *)

Lemma call_random_point (m : Manifold.t) (k : Z) (bound : value) :
  Manifold.call_method m "random_point" [("n_samples", VInt k); ("bound", bound)]
  = rbind (Manifold.random_point m k bound) (fun r => Ok (VArray r)).
Proof. reflexivity. Qed.


Lemma random_point_reshaped self n_samples bound sample :
  1 <= n_samples ->
  Manifold.random_point (NFoldManifold.base_manifold self)
    (Z.of_nat (n_samples * NFoldManifold.n_copies self)) bound = Ok sample ->
  gs.size sample
  = n_samples * NFoldManifold.n_copies self * gs.nelems (NFoldManifold.base_shape self) ->
  NFoldManifold.random_point self n_samples bound
  = ([Call 0 "random_point"
        [("n_samples", VInt (Z.of_nat (n_samples * NFoldManifold.n_copies self)));
         ("bound", bound)]],
     Ok (gs.mk_array
           (if n_samples =? 1
            then [NFoldManifold.n_copies self] ++ NFoldManifold.base_shape self
            else [n_samples; NFoldManifold.n_copies self]
                   ++ NFoldManifold.base_shape self)
           (gs.data sample))).
Proof.
  intros Hn Hsample Hsize. unfold NFoldManifold.random_point, invoke.
  rewrite call_random_point, Hsample. cbn [rbind mbind as_array lift app].
  unfold gs.reshape.
  replace (gs.size sample =? gs.nelems _) with true
    by (symmetry; apply Nat.eqb_eq; rewrite Hsize; unfold gs.nelems;
        cbn [app fold_right]; lia).
  destruct (Nat.ltb_spec 1 n_samples) as [Hgt|Hle].
  - replace (n_samples =? 1) with false by (symmetry; apply Nat.eqb_neq; lia).
    reflexivity.
  - assert (n_samples = 1) as -> by lia. reflexivity.
Qed.

(** C7. [random_point] asks the base space, in one call, for
    [n_samples * n] draws, and returns them in shape
    [(n_samples, n, *base_shape)], without the leading axis exactly when
    [n_samples] is 1; for base shape (3,) and n = 4 this is shape (4, 3) for
    one sample and (5, 4, 3) for five. *)
Theorem nfold_random_point_shape :
  (forall self n_samples bound sample,
      1 <= n_samples ->
      Manifold.random_point (NFoldManifold.base_manifold self)
        (Z.of_nat (n_samples * NFoldManifold.n_copies self)) bound = Ok sample ->
      gs.size sample
      = n_samples * NFoldManifold.n_copies self
        * gs.nelems (NFoldManifold.base_shape self) ->
      exists r,
        NFoldManifold.random_point self n_samples bound
        = ([Call 0 "random_point"
              [("n_samples", VInt (Z.of_nat (n_samples * NFoldManifold.n_copies self)));
               ("bound", bound)]],
           Ok r)
        /\ gs.data r = gs.data sample
        /\ gs.shape r
           = (if n_samples =? 1
              then [NFoldManifold.n_copies self] ++ NFoldManifold.base_shape self
              else [n_samples; NFoldManifold.n_copies self]
                     ++ NFoldManifold.base_shape self))
  /\ (forall base self bound sample1 sample5,
         Manifold.shape base = [3] ->
         NFoldManifold.__init__ base 4 = Ok self ->
         Manifold.random_point base 4 bound = Ok sample1 -> gs.size sample1 = 12 ->
         Manifold.random_point base 20 bound = Ok sample5 -> gs.size sample5 = 60 ->
         exists r1 r5,
           outcome (NFoldManifold.random_point self 1 bound) = Ok r1
           /\ gs.shape r1 = [4; 3]
           /\ outcome (NFoldManifold.random_point self 5 bound) = Ok r5
           /\ gs.shape r5 = [5; 4; 3]).
Proof.
  split.
  - intros self n_samples bound sample Hn Hsample Hsize.
    eexists. split;
      [exact (random_point_reshaped self n_samples bound sample Hn Hsample Hsize)|].
    split; reflexivity.
  - intros base self bound sample1 sample5 Hshape Hinit H1 Hs1 H5 Hs5.
    unfold NFoldManifold.__init__ in Hinit. cbn in Hinit. injection Hinit as <-.
    do 2 eexists.
    rewrite (random_point_reshaped _ 1 bound sample1);
      [| lia | exact H1 | cbn; rewrite Hshape; exact Hs1].
    rewrite (random_point_reshaped _ 5 bound sample5);
      [| lia | exact H5 | cbn; rewrite Hshape; exact Hs5].
    cbn. rewrite Hshape. repeat split.
Qed.


(** C10. [NFoldManifold.is_tangent] returns the same log and the same result
    whatever tolerance it is given: the one call it makes into the base
    space carries no [atol] argument, so the base space applies its default
    tolerance. *)
Theorem nfold_is_tangent_ignores_atol :
  forall self vector base_point atol atol',
    NFoldManifold.is_tangent self vector base_point atol
    = NFoldManifold.is_tangent self vector base_point atol'
    /\ Forall (fun c => method c = "is_tangent" /\ dict_get "atol" (kwargs c) = None)
              (calls (NFoldManifold.is_tangent self vector base_point atol))
    /\ forall both point_ vector_,
        gs.broadcast_arrays vector base_point = Ok both ->
        gs.reshape_batch (snd both) (NFoldManifold.base_shape self) = Ok point_ ->
        gs.reshape_batch (fst both) (NFoldManifold.base_shape self) = Ok vector_ ->
        outcome (NFoldManifold.is_tangent self vector base_point atol)
        = (each_tangent <- Manifold.is_tangent (NFoldManifold.base_manifold self)
                             vector_ point_ None ;;
           reshaped <- gs.reshape_batch each_tangent [NFoldManifold.n_copies self] ;;
           gs.all reshaped 1)%result.
Proof.
  intros self vector base_point atol atol'. split; [reflexivity|]. split.
  - unfold NFoldManifold.is_tangent.
    destruct (gs.broadcast_arrays vector base_point) as [both|e]; [|constructor].
    rewrite mbind_lift_ok.
    destruct (gs.reshape_batch (snd both) _) as [point_|e]; [|constructor].
    rewrite mbind_lift_ok.
    destruct (gs.reshape_batch (fst both) _) as [vector_|e]; [|constructor].
    rewrite mbind_lift_ok, calls_mbind. unfold invoke. cbn [calls fst].
    apply Forall_app. split; [repeat constructor|].
    cbn [outcome snd].
    destruct (Manifold.call_method _ _ _) as [v|e]; [|constructor].
    destruct (as_bools v) as [b|e]; [|constructor].
    rewrite mbind_lift_ok.
    destruct (gs.reshape_batch b _) as [r|e]; [|constructor].
    rewrite mbind_lift_ok. constructor.
  - intros both point_ vector_ Hb Hp Hv. unfold NFoldManifold.is_tangent.
    rewrite Hb, mbind_lift_ok, Hp, mbind_lift_ok, Hv, mbind_lift_ok.
    rewrite outcome_mbind. unfold invoke. cbn [outcome snd].
    rewrite call_is_tangent_no_atol.
    destruct (Manifold.is_tangent _ vector_ point_ None) as [r|e]; [|reflexivity].
    cbn [rbind as_bools]. rewrite mbind_lift_ok, outcome_mbind. cbn [lift outcome snd].
    destruct (gs.reshape_batch r _); reflexivity.
Qed.

(** ** The statements on concrete composites *)


Lemma belongs_is_tangent_all_factors_witness :
  let outs := [gs.mk_array [2] [true; true]; gs.mk_array [2] [true; false]] in
  let outs' := [gs.mk_array [2] [true; true]; gs.mk_array [2] [true; true]] in
  let tol := (1 # 1000000000000)%Q in
  (outs <> []
   /\ Forall (fun a => gs.shape a = [2] /\ gs.wf a) outs
   /\ factor_belongs cube_2_3_vector batch_2x5 (VFloat tol) = Ok outs
   /\ outcome (ProductManifold.belongs cube_2_3_vector batch_2x5 (VFloat tol))
      = rbind (gs.stack outs (-1)) (fun st => gs.all st (-1))
   /\ exists r,
       outcome (ProductManifold.belongs cube_2_3_vector batch_2x5 (VFloat tol)) = Ok r
       /\ gs.shape r = [2]
       /\ forall b, b < gs.nelems [2] ->
            (nth b (gs.data r) false = true
             <-> Forall (fun a => nth b (gs.data a) false = true) outs))
  /\ (outs' <> []
      /\ Forall (fun a => gs.shape a = [2] /\ gs.wf a) outs'
      /\ factor_is_tangent cube_3_3_matrix batch_2x2x3 batch_2x2x3 (VFloat tol)
         = Ok outs'
      /\ outcome (ProductManifold.is_tangent cube_3_3_matrix batch_2x2x3 batch_2x2x3
                    (VFloat tol))
         = rbind (gs.stack outs' (-1)) (fun st => gs.all st (-1))
      /\ exists r,
          outcome (ProductManifold.is_tangent cube_3_3_matrix batch_2x2x3 batch_2x2x3
                     (VFloat tol)) = Ok r
          /\ gs.shape r = [2]
          /\ forall b, b < gs.nelems [2] ->
               (nth b (gs.data r) false = true
                <-> Forall (fun a => nth b (gs.data a) false = true) outs')).
Proof.
  intros outs outs' tol.
  assert (Hne : outs <> []) by discriminate.
  assert (Hne' : outs' <> []) by discriminate.
  assert (Hall : Forall (fun a => gs.shape a = [2] /\ gs.wf a) outs)
    by (repeat constructor).
  assert (Hall' : Forall (fun a => gs.shape a = [2] /\ gs.wf a) outs')
    by (repeat constructor).
  split.
  - split; [exact Hne|]. split; [exact Hall|]. split; [reflexivity|].
    exact (proj1 (belongs_is_tangent_all_factors cube_2_3_vector tol [2] outs Hne Hall)
             batch_2x5 eq_refl).
  - split; [exact Hne'|]. split; [exact Hall'|]. split; [reflexivity|].
    exact (proj2 (belongs_is_tangent_all_factors cube_3_3_matrix tol [2] outs' Hne' Hall')
             batch_2x2x3 batch_2x2x3 eq_refl).
Defined.

Lemma factor_error_propagates_unchanged_witness :
  let args := [("point", VArray point5); ("atol", atol_default)] in
  let sp := ([("point", [VArray (gs.mk_array [2] [0; 1]%Q);
                         VArray (gs.mk_array [3] [0; 1; 0]%Q)])],
             [("atol", atol_default)]) in
  ProductManifold.split_args args
    (ProductManifold.cum_index (ProductManifold.dims cube_2_broken_3) true) [] [] = Ok sp
  /\ (forall j, j < length (ProductManifold.manifolds cube_2_broken_3) ->
                is_ok (ProductManifold.args_of_factor (fst sp) j) = true)
  /\ nth_error (ProductManifold.manifolds cube_2_broken_3) 1 = Some (broken 3 boom)
  /\ factor_call "belongs" sp (1, broken 3 boom) = Raise boom
  /\ (forall j m', j < 1 ->
                   nth_error (ProductManifold.manifolds cube_2_broken_3) j = Some m' ->
                   is_ok (factor_call "belongs" sp (j, m')) = true)
  /\ is_ok (outcome (ProductManifold._iterate_over_manifolds cube_2_broken_3
                       "belongs" args true)) = false
  /\ outcome (ProductManifold._iterate_over_manifolds cube_2_broken_3
                "belongs" args true) = Raise boom
  /\ outcome (ProductManifold.belongs cube_2_broken_3 point5 atol_default) = Raise boom.
Proof.
  intros args sp.
  assert (Hok : forall j, j < length (ProductManifold.manifolds cube_2_broken_3) ->
                          is_ok (ProductManifold.args_of_factor (fst sp) j) = true).
  { intros j Hj. destruct j as [|[|j]]; [reflexivity | reflexivity |].
    cbn in Hj. lia. }
  assert (Hbefore : forall j m', j < 1 ->
                      nth_error (ProductManifold.manifolds cube_2_broken_3) j = Some m' ->
                      is_ok (factor_call "belongs" sp (j, m')) = true).
  { intros j m' Hj Hm. destruct j as [|j]; [|lia].
    cbn in Hm. injection Hm as <-. reflexivity. }
  pose proof (factor_error_propagates_unchanged cube_2_broken_3 "belongs" args true sp
                1 (broken 3 boom) boom eq_refl Hok eq_refl eq_refl) as [Hnone Hfirst].
  destruct (Hfirst Hbefore) as [Hraise Hbelongs].
  split; [reflexivity|]. split; [exact Hok|]. split; [reflexivity|].
  split; [reflexivity|]. split; [exact Hbefore|]. split; [exact Hnone|].
  split; [exact Hraise|].
  exact (Hbelongs point5 atol_default eq_refl eq_refl eq_refl eq_refl).
Defined.

Lemma init_rejects_only_unknown_tag_witness :
  "tensor" <> "vector"
  /\ "tensor" <> "matrix"
  /\ ProductManifold.__init__ [unit_cube 2; unit_cube 3] (width_metric [2; 3])
       "tensor" 1 = Raise (ConfigError "default_point_type").
Proof.
  assert (Hv : "tensor" <> "vector") by discriminate.
  assert (Hm : "tensor" <> "matrix") by discriminate.
  split; [exact Hv|]. split; [exact Hm|].
  exact (proj1 init_rejects_only_unknown_tag
           [unit_cube 2; unit_cube 3] (width_metric [2; 3]) "tensor" 1 Hv Hm).
Defined.


Lemma nfold_random_point_shape_witness :
  let bound := VFloat 1 in
  let sample5 := gs.mk_array [20; 3] (repeat (1 # 2)%Q 60) in
  let sample1 := gs.mk_array [4; 3] (repeat (1 # 2)%Q 12) in
  (1 <= 5
   /\ Manifold.random_point (NFoldManifold.base_manifold (cube_power 3 4))
        (Z.of_nat (5 * NFoldManifold.n_copies (cube_power 3 4))) bound = Ok sample5
   /\ gs.size sample5
      = 5 * NFoldManifold.n_copies (cube_power 3 4)
        * gs.nelems (NFoldManifold.base_shape (cube_power 3 4))
   /\ exists r,
       NFoldManifold.random_point (cube_power 3 4) 5 bound
       = ([Call 0 "random_point" [("n_samples", VInt 20); ("bound", bound)]], Ok r)
       /\ gs.data r = gs.data sample5
       /\ gs.shape r = [5; 4; 3])
  /\ (Manifold.shape (unit_cube 3) = [3]
      /\ NFoldManifold.__init__ (unit_cube 3) 4 = Ok (cube_power 3 4)
      /\ Manifold.random_point (unit_cube 3) 4 bound = Ok sample1
      /\ gs.size sample1 = 12
      /\ Manifold.random_point (unit_cube 3) 20 bound = Ok sample5
      /\ gs.size sample5 = 60
      /\ exists r1 r5,
          outcome (NFoldManifold.random_point (cube_power 3 4) 1 bound) = Ok r1
          /\ gs.shape r1 = [4; 3]
          /\ outcome (NFoldManifold.random_point (cube_power 3 4) 5 bound) = Ok r5
          /\ gs.shape r5 = [5; 4; 3]).
Proof.
  intros bound sample5 sample1.
  assert (H15 : 1 <= 5) by (repeat constructor).
  split.
  - split; [exact H15|]. split; [reflexivity|]. split; [reflexivity|].
    exact (proj1 nfold_random_point_shape (cube_power 3 4) 5 bound sample5
             H15 eq_refl eq_refl).
  - split; [reflexivity|]. split; [reflexivity|]. split; [reflexivity|].
    split; [reflexivity|]. split; [reflexivity|]. split; [reflexivity|].
    exact (proj2 nfold_random_point_shape (unit_cube 3) (cube_power 3 4) bound
             sample1 sample5 eq_refl eq_refl eq_refl eq_refl eq_refl eq_refl).
Defined.


Lemma nfold_is_tangent_ignores_atol_witness :
  let v := gs.mk_array [2; 3] [0; 1; 0; 1; 0; 3]%Q in
  let p := gs.mk_array [2; 3] [0; 1; 0; 1; 0; 1]%Q in
  gs.broadcast_arrays v p = Ok (v, p)
  /\ gs.reshape_batch p (NFoldManifold.base_shape (cube_power 3 2)) = Ok p
  /\ gs.reshape_batch v (NFoldManifold.base_shape (cube_power 3 2)) = Ok v
  /\ NFoldManifold.is_tangent (cube_power 3 2) v p (VFloat 1)
     = NFoldManifold.is_tangent (cube_power 3 2) v p (VInt 0)
  /\ outcome (NFoldManifold.is_tangent (cube_power 3 2) v p (VFloat 1))
     = (each_tangent <- Manifold.is_tangent (unit_cube 3) v p None ;;
        reshaped <- gs.reshape_batch each_tangent [2] ;;
        gs.all reshaped 1)%result.
Proof.
  intros v p.
  destruct (nfold_is_tangent_ignores_atol (cube_power 3 2) v p (VFloat 1) (VInt 0))
    as (Hsame & _ & Hbase).
  split; [reflexivity|]. split; [reflexivity|]. split; [reflexivity|].
  split; [exact Hsame|].
  exact (Hbase (v, p) p v eq_refl eq_refl eq_refl).
Defined.

(** * Further properties

    ** Slices have the factors' own widths *)

Lemma sections_cumsum_widths (acc : nat) (dims : list nat) :
  map (fun se => Nat.min (snd se) (acc + list_sum dims) - fst se)
      (gs.sections acc (gs.cumsum_from acc dims)) = dims.
Proof.
  revert acc. induction dims as [|x t IH]; intros acc; [reflexivity|].
  cbn [gs.cumsum_from gs.sections map fst snd]. f_equal.
  - cbn [list_sum fold_right]. unfold list_sum. cbn [fold_right].
    rewrite Nat.min_l by lia. lia.
  - rewrite <- (IH (acc + x)) at 2. apply map_ext. intros [st en]. cbn [fst snd].
    cbn [list_sum fold_right]. unfold list_sum. cbn [fold_right].
    now rewrite Nat.add_assoc.
Qed.

Lemma last_cons_default {A} (l : list A) (y d : A) :
  last (y :: l) d = last l y.
Proof.
  revert y d. induction l as [|z t IH]; intros y d; [reflexivity|].
  change (last (y :: z :: t) d) with (last (z :: t) d). now rewrite !IH.
Qed.

Lemma sections_app (st : nat) (l : list nat) (x : nat) :
  gs.sections st (l ++ [x]) = gs.sections st l ++ [(last l st, x)].
Proof.
  revert st. induction l as [|y t IH]; intros st; [reflexivity|].
  cbn [app gs.sections]. now rewrite IH, last_cons_default.
Qed.

Lemma cumsum_from_last (acc : nat) (dims : list nat) :
  last (gs.cumsum_from acc dims) acc = acc + list_sum dims.
Proof.
  revert acc. induction dims as [|x t IH]; intros acc.
  - cbn. lia.
  - cbn [gs.cumsum_from]. rewrite last_cons_default, IH.
    unfold list_sum. cbn [fold_right]. lia.
Qed.

Lemma split_shapes {A} (point : gs.ndarray A) (batch : list nat) (w : nat) indices :
  gs.shape point = batch ++ [w] ->
  exists pieces,
    gs.split point indices = Ok pieces
    /\ map gs.shape pieces
       = map (fun se => batch ++ [Nat.min (snd se) w - fst se])
             (gs.sections 0 (indices ++ [w])).
Proof.
  intros Hshape. unfold gs.split. rewrite Hshape, rev_app_distr. cbn [rev app].
  rewrite rev_involutive. eexists. split; [reflexivity|].
  rewrite map_map. apply map_ext. now intros [st en].
Qed.

(** X1. Cutting a point at the dispatcher's boundaries gives every factor a
    slice of its own width: [dims[i]] entries of an intrinsic point of width
    [sum(dims)], and [dims[i] + 1] entries of an extrinsic point of width
    [sum(dims[i] + 1)], where one more, empty, piece is left over. *)
Theorem split_gives_each_factor_its_width :
  forall (A : Type) (point : gs.ndarray A) (batch dims : list nat),
    dims <> [] ->
    (gs.shape point = batch ++ [list_sum dims] ->
     exists pieces,
       gs.split point (ProductManifold.cum_index dims true) = Ok pieces
       /\ map gs.shape pieces = map (fun d => batch ++ [d]) dims)
    /\ (gs.shape point = batch ++ [list_sum (map (fun k => k + 1) dims)] ->
        exists pieces,
          gs.split point (ProductManifold.cum_index dims false) = Ok pieces
          /\ map gs.shape pieces
             = map (fun d => batch ++ [d + 1]) dims ++ [batch ++ [0]]).
Proof.
  intros A point batch dims Hne. unfold ProductManifold.cum_index. split.
  - intros Hshape.
    destruct (split_shapes point batch (list_sum dims)
                (removelast (gs.cumsum dims)) Hshape) as (pieces & Hsplit & Hshapes).
    exists pieces. split; [exact Hsplit|]. rewrite Hshapes.
    assert (Hcs : gs.cumsum dims <> []) by (destruct dims; [contradiction | discriminate]).
    replace (list_sum dims) with (last (gs.cumsum dims) 0) at 1
      by (unfold gs.cumsum; now rewrite cumsum_from_last).
    rewrite <- (app_removelast_last 0 Hcs).
    rewrite <- (sections_cumsum_widths 0 dims) at 2.
    rewrite map_map. reflexivity.
  - intros Hshape. set (dims' := map (fun k => k + 1) dims) in *.
    destruct (split_shapes point batch (list_sum dims') (gs.cumsum dims') Hshape)
      as (pieces & Hsplit & Hshapes).
    exists pieces. split; [exact Hsplit|]. rewrite Hshapes.
    rewrite sections_app, map_app. f_equal.
    + replace (map (fun d => batch ++ [d + 1]) dims)
        with (map (fun d => batch ++ [d]) dims')
        by (unfold dims'; now rewrite map_map).
      rewrite <- (sections_cumsum_widths 0 dims') at 2.
      rewrite map_map. reflexivity.
    + cbn [map fst snd]. unfold gs.cumsum. rewrite cumsum_from_last.
      cbn [Nat.add]. now rewrite Nat.min_id, Nat.sub_diag.
Qed.

Lemma split_gives_each_factor_its_width_witness :
  [2; 3] <> []
  /\ gs.shape point5 = [] ++ [list_sum [2; 3]]
  /\ gs.shape point7 = [] ++ [list_sum (map (fun k => k + 1) [2; 3])]
  /\ (exists pieces,
         gs.split point5 (ProductManifold.cum_index [2; 3] true) = Ok pieces
         /\ map gs.shape pieces = [[2]; [3]])
  /\ (exists pieces,
         gs.split point7 (ProductManifold.cum_index [2; 3] false) = Ok pieces
         /\ map gs.shape pieces = [[3]; [4]; [0]]).
Proof.
  assert (Hne : [2; 3] <> []) by discriminate.
  destruct (split_gives_each_factor_its_width Q point5 [] [2; 3] Hne) as [Hin _].
  destruct (split_gives_each_factor_its_width Q point7 [] [2; 3] Hne) as [_ Hex].
  split; [exact Hne|]. split; [reflexivity|]. split; [reflexivity|].
  split; [exact (Hin eq_refl) | exact (Hex eq_refl)].
Defined.

(** ** Results in factor order *)

(** X3. The sequence the dispatcher returns holds, at position [i], what the
    call into factor [i] returned. *)
Theorem dispatch_results_in_factor_order :
  forall self func args intrinsic sp results,
    ProductManifold.split_args args
      (ProductManifold.cum_index (ProductManifold.dims self) intrinsic) [] [] = Ok sp ->
    outcome (ProductManifold._iterate_over_manifolds self func args intrinsic)
    = Ok results ->
    length results = length (ProductManifold.manifolds self)
    /\ forall i m,
        nth_error (ProductManifold.manifolds self) i = Some m ->
        exists r, nth_error results i = Some r /\ factor_call func sp (i, m) = Ok r.
Proof.
  intros self func args intrinsic sp results Hsp Hout.
  assert (Hok : forall j, j < length (ProductManifold.manifolds self) ->
                          is_ok (ProductManifold.args_of_factor (fst sp) j) = true).
  { intros j Hj. rewrite dispatch_cases, Hsp in Hout.
    destruct (rmapM _ (seq 0 _)) as [args_list|e] eqn:E; [|discriminate].
    assert (Hnth : nth_error (seq 0 (length (ProductManifold.manifolds self))) j = Some j).
    { rewrite nth_error_nth' with (d := 0) by (rewrite length_seq; lia).
      now rewrite seq_nth by lia. }
    destruct (rmapM_nth_error _ _ _ _ _ E Hnth) as (y & _ & Hy). now rewrite Hy. }
  rewrite (dispatch_outcome self func args intrinsic sp Hsp Hok) in Hout.
  split.
  - rewrite (rmapM_length _ _ _ Hout). apply length_enumerate.
  - intros i m Hm.
    assert (Hen : nth_error (enumerate (ProductManifold.manifolds self)) i = Some (i, m))
      by (now rewrite nth_error_enumerate, Hm).
    exact (rmapM_nth_error _ _ _ _ _ Hout Hen).
Qed.

Lemma dispatch_results_in_factor_order_witness :
  let args := [("point", VArray point5); ("atol", atol_default)] in
  let sp := ([("point", [VArray (gs.mk_array [2] [0; 1]%Q);
                         VArray (gs.mk_array [3] [0; 1; 0]%Q)])],
             [("atol", atol_default)]) in
  let results := [VBools (gs.mk_array [] [true]); VBools (gs.mk_array [] [true])] in
  ProductManifold.split_args args
    (ProductManifold.cum_index (ProductManifold.dims cube_2_3_vector) true) [] [] = Ok sp
  /\ outcome (ProductManifold._iterate_over_manifolds cube_2_3_vector "belongs" args true)
     = Ok results
  /\ length results = 2
  /\ forall i m,
      nth_error (ProductManifold.manifolds cube_2_3_vector) i = Some m ->
      exists r, nth_error results i = Some r
                /\ factor_call "belongs" sp (i, m) = Ok r.
Proof.
  intros args sp results.
  split; [reflexivity|]. split; [reflexivity|].
  exact (dispatch_results_in_factor_order cube_2_3_vector "belongs" args true sp results
           eq_refl eq_refl).
Defined.

(** ** [belongs] on the homogeneous power *)

Lemma nth_chunk {A} (l : list A) (o w j : nat) (d : A) :
  j < w -> nth j (gs.chunk o w l) d = nth (o * w + j) l d.
Proof.
  intros Hj. unfold gs.chunk. rewrite nth_firstn, nth_skipn.
  now replace (j <? w) with true by (symmetry; apply Nat.ltb_lt; exact Hj).
Qed.

Lemma all_axis_1_of_2 (k n : nat) (d : list bool) :
  gs.all (gs.mk_array [k; n] d) 1
  = Ok (gs.mk_array [k]
          (map (fun b => forallb (fun j => nth (b * n + j) d true) (seq 0 n))
               (seq 0 k))).
Proof.
  change (gs.all (gs.mk_array [k; n] d) 1)
    with (gs.all (gs.mk_array ([k] ++ [n]) d) (-1)).
  rewrite all_m1. cbn [gs.nelems fold_right]. rewrite Nat.mul_1_r.
  f_equal. f_equal. apply map_ext. intros b.
  apply forallb_pointwise. intros j Hj. apply in_seq in Hj.
  apply nth_chunk. lia.
Qed.

(** X4. [NFoldManifold.belongs] hands a batch of [k] composite points to the
    base space in one call, as [k * n] base points and with the tolerance it
    was given; a composite point belongs when each of its [n] copies does. *)
Theorem nfold_belongs_all_copies :
  forall self point atol k each,
    0 < NFoldManifold.n_copies self ->
    0 < gs.nelems (NFoldManifold.base_shape self) ->
    gs.size point
    = k * NFoldManifold.n_copies self * gs.nelems (NFoldManifold.base_shape self) ->
    Manifold.belongs (NFoldManifold.base_manifold self)
      (gs.mk_array ([k * NFoldManifold.n_copies self] ++ NFoldManifold.base_shape self)
                   (gs.data point))
      (Some atol) = Ok each ->
    gs.shape each = [k * NFoldManifold.n_copies self] ->
    NFoldManifold.belongs self point atol
    = ([Call 0 "belongs"
          [("point",
            VArray (gs.mk_array ([k * NFoldManifold.n_copies self]
                                   ++ NFoldManifold.base_shape self)
                                (gs.data point)));
           ("atol", atol)]],
       Ok (gs.squeeze
             (gs.mk_array [k]
                (map (fun b =>
                        forallb (fun j =>
                                   nth (b * NFoldManifold.n_copies self + j)
                                       (gs.data each) true)
                                (seq 0 (NFoldManifold.n_copies self)))
                     (seq 0 k))))).
Proof.
  intros self point atol k each Hn Hp Hsize Hcall Hshape.
  unfold NFoldManifold.belongs.
  set (n := NFoldManifold.n_copies self) in *.
  set (p := gs.nelems (NFoldManifold.base_shape self)) in *.
  assert (Hflat : gs.reshape_batch point (NFoldManifold.base_shape self)
                  = Ok (gs.mk_array ([k * n] ++ NFoldManifold.base_shape self)
                                    (gs.data point))).
  { unfold gs.reshape_batch. fold p. rewrite Hsize.
    replace (p =? 0) with false by (symmetry; apply Nat.eqb_neq; lia).
    rewrite Nat.Div0.mod_mul, Nat.div_mul by lia. reflexivity. }
  rewrite Hflat, mbind_lift_ok. unfold invoke.
  rewrite call_belongs, Hcall. cbn [rbind mbind as_bools lift app].
  assert (Hback : gs.reshape_batch each [n] = Ok (gs.mk_array [k; n] (gs.data each))).
  { unfold gs.reshape_batch, gs.size. rewrite Hshape. cbn [gs.nelems fold_right].
    rewrite !Nat.mul_1_r.
    replace (n =? 0) with false by (symmetry; apply Nat.eqb_neq; lia).
    rewrite Nat.Div0.mod_mul, Nat.div_mul by lia. reflexivity. }
  rewrite Hback, all_axis_1_of_2. reflexivity.
Qed.

Lemma nfold_belongs_all_copies_witness :
  let each := gs.mk_array [4] [true; false; true; true] in
  0 < NFoldManifold.n_copies (cube_power 3 2)
  /\ 0 < gs.nelems (NFoldManifold.base_shape (cube_power 3 2))
  /\ gs.size batch_2x2x3
     = 2 * NFoldManifold.n_copies (cube_power 3 2)
       * gs.nelems (NFoldManifold.base_shape (cube_power 3 2))
  /\ Manifold.belongs (unit_cube 3) (gs.mk_array [4; 3] (gs.data batch_2x2x3))
       (Some atol_default) = Ok each
  /\ gs.shape each = [4]
  /\ NFoldManifold.belongs (cube_power 3 2) batch_2x2x3 atol_default
     = ([Call 0 "belongs"
           [("point", VArray (gs.mk_array [4; 3] (gs.data batch_2x2x3)));
            ("atol", atol_default)]],
        Ok (gs.mk_array [2] [false; true])).
Proof.
  intros each.
  assert (Hn : 0 < NFoldManifold.n_copies (cube_power 3 2)) by (repeat constructor).
  assert (Hp : 0 < gs.nelems (NFoldManifold.base_shape (cube_power 3 2)))
    by (repeat constructor).
  split; [exact Hn|]. split; [exact Hp|]. split; [reflexivity|].
  split; [reflexivity|]. split; [reflexivity|].
  exact (nfold_belongs_all_copies (cube_power 3 2) batch_2x2x3 atol_default 2 each
           Hn Hp eq_refl eq_refl eq_refl).
Defined.

(** ** Cutting and gluing back *)

Lemma firstn_plus {A} (n m : nat) (l : list A) :
  firstn (n + m) l = firstn n l ++ firstn m (skipn n l).
Proof.
  revert l. induction n as [|n IH]; intros l; [reflexivity|].
  destruct l as [|x t]; [cbn; now rewrite firstn_nil|].
  cbn [Nat.add firstn skipn app]. now rewrite IH.
Qed.

Lemma slice_app {A} (a b c : nat) (l : list A) :
  a <= b -> b <= c -> gs.slice a b l ++ gs.slice b c l = gs.slice a c l.
Proof.
  intros Hab Hbc. unfold gs.slice.
  replace (c - a) with ((b - a) + (c - b)) by lia.
  rewrite firstn_plus, skipn_skipn.
  now replace (b - a + a) with b by lia.
Qed.

Lemma slices_cumsum {A} (row : list A) (acc : nat) (dims : list nat) :
  flat_map (fun se => gs.slice (fst se) (snd se) row)
           (gs.sections acc (gs.cumsum_from acc dims))
  = gs.slice acc (acc + list_sum dims) row.
Proof.
  revert acc. induction dims as [|x t IH]; intros acc.
  - cbn. unfold gs.slice. now replace (acc + 0 - acc) with 0 by lia.
  - cbn [gs.cumsum_from gs.sections flat_map fst snd]. rewrite IH.
    unfold list_sum. cbn [fold_right]. fold (list_sum t).
    rewrite slice_app by lia. now rewrite Nat.add_assoc.
Qed.

Lemma length_chunk {A} (l : list A) (o w rows : nat) :
  length l = rows * w -> o < rows -> length (gs.chunk o w l) = w.
Proof.
  intros Hlen Ho. unfold gs.chunk. rewrite length_firstn, length_skipn, Hlen. nia.
Qed.

Lemma flat_map_chunk {A} (l : list A) (w rows : nat) :
  length l = rows * w ->
  flat_map (fun r => gs.chunk r w l) (seq 0 rows) = l.
Proof.
  revert l. induction rows as [|rows IH]; intros l Hlen.
  - destruct l; [reflexivity | discriminate].
  - rewrite seq_S, flat_map_app. cbn [flat_map Nat.add]. rewrite app_nil_r.
    transitivity (firstn (rows * w) l ++ skipn (rows * w) l);
      [|apply firstn_skipn].
    f_equal.
    + transitivity (flat_map (fun r => gs.chunk r w (firstn (rows * w) l)) (seq 0 rows));
        [|apply IH; rewrite length_firstn, Hlen; nia].
      rewrite !flat_map_concat_map. f_equal. apply map_ext_in.
      intros r Hr. apply in_seq in Hr. unfold gs.chunk.
      rewrite skipn_firstn_comm, firstn_firstn. f_equal. nia.
    + unfold gs.chunk. cbn [Nat.add]. apply firstn_all2.
      rewrite length_skipn, Hlen. nia.
Qed.

Lemma last_app_singleton {A} (l : list A) (x d : A) : last (l ++ [x]) d = x.
Proof.
  induction l as [|y t IH]; [reflexivity|].
  cbn [app]. destruct (t ++ [x]) eqn:E; [destruct t; discriminate|].
  cbn [last]. exact IH.
Qed.

Lemma flat_map_map_compose {A B C} (g : A -> B) (f : B -> list C) (l : list A) :
  flat_map f (map g l) = flat_map (fun x => f (g x)) l.
Proof. induction l as [|x t IH]; cbn; [reflexivity | now rewrite IH]. Qed.

Lemma flat_map_pointwise {A B} (f g : A -> list B) (l : list A) :
  (forall x, In x l -> f x = g x) -> flat_map f l = flat_map g l.
Proof.
  induction l as [|x t IH]; intros H; cbn; [reflexivity|].
  rewrite (H x) by now left. f_equal. apply IH. intros y Hy. apply H. now right.
Qed.

Lemma concatenate_uniform {A} (arrs : list (gs.ndarray A)) (batch : list nat) :
  arrs <> [] ->
  Forall (fun a => exists x, gs.shape a = batch ++ [x]) arrs ->
  gs.concatenate arrs
  = Ok (gs.mk_array (batch ++ [list_sum (map (fun a => last (gs.shape a) 0) arrs)])
          (flat_map (fun r =>
                       flat_map (fun a => gs.chunk r (last (gs.shape a) 0) (gs.data a))
                                arrs)
                    (seq 0 (gs.nelems batch)))).
Proof.
  intros Hne Hall. destruct arrs as [|a0 rest]; [contradiction|].
  unfold gs.concatenate.
  assert (H0 : exists x, gs.shape a0 = batch ++ [x]) by (inversion Hall; assumption).
  destruct H0 as [x0 H0]. rewrite H0 at 1. rewrite rev_app_distr. cbn [rev app].
  rewrite rev_involutive.
  match goal with
  | |- (if ?c then _ else _) = _ => replace c with true; [reflexivity|]
  end.
  symmetry. apply forallb_forall. intros a Ha.
  rewrite Forall_forall in Hall. destruct (Hall a Ha) as [x Hx].
  rewrite Hx, rev_app_distr. cbn [rev app].
  now destruct (list_eq_dec Nat.eq_dec (rev batch) (rev batch)).
Qed.

(** Gluing the pieces of a cut back together, for cut points given as
    sections [secs] that tile the width [w] of the rows. *)
Lemma concatenate_sections {A} (point : gs.ndarray A) (batch : list nat) (w : nat)
  (secs : list (nat * nat)) :
  gs.shape point = batch ++ [w] -> gs.wf point -> secs <> [] ->
  list_sum (map (fun se => Nat.min (snd se) w - fst se) secs) = w ->
  (forall row : list A,
      length row = w ->
      flat_map (fun se => gs.slice (fst se) (snd se) row) secs = row) ->
  gs.concatenate
    (map (fun se =>
            gs.mk_array (batch ++ [Nat.min (snd se) w - fst se])
              (flat_map (fun r => gs.slice (fst se) (snd se) (gs.chunk r w (gs.data point)))
                        (seq 0 (gs.nelems batch))))
         secs)
  = Ok point.
Proof.
  intros Hshape Hwf Hne Hsum Htile.
  assert (Hlen : length (gs.data point) = gs.nelems batch * w).
  { unfold gs.wf, gs.size in Hwf. rewrite Hwf, Hshape. unfold gs.nelems.
    rewrite fold_right_app. cbn [fold_right]. rewrite Nat.mul_1_r.
    generalize batch. clear. intros batch.
    induction batch as [|x t IH]; cbn [fold_right]; [lia|]. rewrite IH. lia. }
  rewrite (concatenate_uniform _ batch).
  - rewrite map_map. cbn [gs.shape].
    rewrite (map_ext _ (fun se => Nat.min (snd se) w - fst se))
      by (intros se; apply last_app_singleton).
    rewrite Hsum. destruct point as [shp dat]. cbn [gs.shape gs.data] in *.
    rewrite <- Hshape. f_equal. f_equal.
    transitivity (flat_map (fun r => gs.chunk r w dat) (seq 0 (gs.nelems batch)));
      [|now apply flat_map_chunk].
    apply flat_map_pointwise. intros r Hr. apply in_seq in Hr.
    assert (Hrow : length (gs.chunk r w dat) = w)
      by (apply length_chunk with (rows := gs.nelems batch); [exact Hlen | lia]).
    rewrite flat_map_map_compose. cbn [gs.shape gs.data].
    transitivity (flat_map (fun se => gs.slice (fst se) (snd se) (gs.chunk r w dat)) secs);
      [|now apply Htile].
    apply flat_map_pointwise. intros se _. rewrite last_app_singleton.
    rewrite chunk_flat_map.
    + rewrite nth_error_nth' with (d := 0) by (rewrite length_seq; lia).
      now rewrite seq_nth by lia.
    + intros r' Hr'. apply in_seq in Hr'. unfold gs.slice.
      rewrite length_firstn, length_skipn.
      rewrite (length_chunk dat r' w (gs.nelems batch) Hlen) by lia. lia.
  - intros Hnil. apply map_eq_nil in Hnil. contradiction.
  - apply Forall_forall. intros a Ha. apply in_map_iff in Ha as (se & <- & _).
    eexists. reflexivity.
Qed.

Lemma split_sections {A} (point : gs.ndarray A) (batch : list nat) (w : nat) indices :
  gs.shape point = batch ++ [w] ->
  gs.split point indices
  = Ok (map (fun se =>
               gs.mk_array (batch ++ [Nat.min (snd se) w - fst se])
                 (flat_map (fun r => gs.slice (fst se) (snd se)
                                       (gs.chunk r w (gs.data point)))
                           (seq 0 (gs.nelems batch))))
            (gs.sections 0 (indices ++ [w]))).
Proof.
  intros Hshape. unfold gs.split. rewrite Hshape, rev_app_distr. cbn [rev app].
  rewrite rev_involutive. f_equal. apply map_ext. now intros [st en].
Qed.

Lemma slice_whole {A} (row : list A) (w : nat) :
  length row = w -> gs.slice 0 w row = row.
Proof.
  intros H. unfold gs.slice. rewrite Nat.sub_0_r. cbn [skipn].
  apply firstn_all2. lia.
Qed.

(** X2. The pieces the dispatcher cuts a point into, glued back along the
    last axis, are the point again: no entry is lost and none is used
    twice. *)
Theorem split_then_concatenate_is_identity :
  forall (A : Type) (point : gs.ndarray A) (batch dims : list nat),
    dims <> [] -> gs.wf point ->
    (gs.shape point = batch ++ [list_sum dims] ->
     rbind (gs.split point (ProductManifold.cum_index dims true)) gs.concatenate
     = Ok point)
    /\ (gs.shape point = batch ++ [list_sum (map (fun k => k + 1) dims)] ->
        rbind (gs.split point (ProductManifold.cum_index dims false)) gs.concatenate
        = Ok point).
Proof.
  intros A point batch dims Hne Hwf. unfold ProductManifold.cum_index. split.
  - intros Hshape. rewrite (split_sections point batch _ _ Hshape). cbn [rbind].
    assert (Hcs : gs.cumsum dims <> []) by (destruct dims; [contradiction | discriminate]).
    assert (Hsecs : removelast (gs.cumsum dims) ++ [list_sum dims] = gs.cumsum dims).
    { replace (list_sum dims) with (last (gs.cumsum dims) 0)
        by (unfold gs.cumsum; now rewrite cumsum_from_last).
      symmetry. now apply app_removelast_last. }
    rewrite Hsecs. unfold gs.cumsum.
    apply concatenate_sections; try assumption.
    + destruct dims; [contradiction | discriminate].
    + pose proof (sections_cumsum_widths 0 dims) as Hw. cbn [Nat.add] in Hw.
      now rewrite Hw.
    + intros row Hrow. rewrite slices_cumsum. now apply slice_whole.
  - intros Hshape. set (dims' := map (fun k => k + 1) dims) in *.
    rewrite (split_sections point batch _ _ Hshape). cbn [rbind].
    rewrite sections_app. unfold gs.cumsum. rewrite cumsum_from_last. cbn [Nat.add].
    apply concatenate_sections; try assumption.
    + intros Hnil. apply app_eq_nil in Hnil as [_ Hnil]. discriminate.
    + pose proof (sections_cumsum_widths 0 dims') as Hw. cbn [Nat.add] in Hw.
      rewrite map_app, list_sum_app, Hw.
      cbn [map fst snd list_sum fold_right]. rewrite Nat.min_id. lia.
    + intros row Hrow. rewrite flat_map_app, slices_cumsum.
      cbn [Nat.add flat_map fst snd].
      rewrite (slice_whole row _ Hrow). unfold gs.slice.
      now rewrite Nat.sub_diag, !app_nil_r.
Qed.

Lemma split_then_concatenate_is_identity_witness :
  [2; 3] <> []
  /\ gs.wf batch_2x5
  /\ gs.shape batch_2x5 = [2] ++ [list_sum [2; 3]]
  /\ gs.split batch_2x5 (ProductManifold.cum_index [2; 3] true)
     = Ok [gs.mk_array [2; 2] [0; 1; 0; 0]%Q; gs.mk_array [2; 3] [0; 1; 0; 2; 0; 0]%Q]
  /\ rbind (gs.split batch_2x5 (ProductManifold.cum_index [2; 3] true)) gs.concatenate
     = Ok batch_2x5.
Proof.
  assert (Hne : [2; 3] <> []) by discriminate.
  assert (Hwf : gs.wf batch_2x5) by reflexivity.
  split; [exact Hne|]. split; [exact Hwf|]. split; [reflexivity|].
  split; [reflexivity|].
  exact (proj1 (split_then_concatenate_is_identity Q batch_2x5 [2] [2; 3] Hne Hwf)
           eq_refl).
Defined.


(** ** Recombination in vector layout *)

Lemma split_pieces_cover self (A : Type) (x : gs.ndarray A) intrinsic pieces :
  length (ProductManifold.dims self) = length (ProductManifold.manifolds self) ->
  gs.split x (ProductManifold.cum_index (ProductManifold.dims self) intrinsic)
  = Ok pieces ->
  length (ProductManifold.manifolds self) <= length pieces.
Proof.
  intros Hlen Hsplit. rewrite (split_length _ _ _ Hsplit), cum_index_length, Hlen.
  destruct intrinsic; lia.
Qed.

Lemma nth_error_nth_lt {A} (l : list A) (i : nat) (d : A) :
  i < length l -> nth_error l i = Some (nth i l d).
Proof. intros H. now apply nth_error_nth'. Qed.

(** A dispatch with the one array argument [point]. *)
Lemma dispatch_one_array self func point intrinsic pieces :
  gs.split point (ProductManifold.cum_index (ProductManifold.dims self) intrinsic)
  = Ok pieces ->
  length (ProductManifold.manifolds self) <= length pieces ->
  outcome (ProductManifold._iterate_over_manifolds self func
             [("point", VArray point)] intrinsic)
  = rmapM (fun im =>
             Manifold.call_method (snd im) func
               [("point", VArray (nth (fst im) pieces point))])
          (enumerate (ProductManifold.manifolds self)).
Proof.
  intros Hsplit Hcover.
  assert (Hsp : ProductManifold.split_args [("point", VArray point)]
                  (ProductManifold.cum_index (ProductManifold.dims self) intrinsic) [] []
                = Ok ([("point", map VArray pieces)], [])).
  { cbn. rewrite Hsplit. reflexivity. }
  assert (Hargs : forall i, i < length (ProductManifold.manifolds self) ->
            ProductManifold.args_of_factor [("point", map VArray pieces)] i
            = Ok [("point", VArray (nth i pieces point))]).
  { intros i Hi. unfold ProductManifold.args_of_factor. cbn.
    rewrite nth_error_map, (nth_error_nth_lt pieces i point) by lia. reflexivity. }
  rewrite (dispatch_outcome self func _ intrinsic _ Hsp).
  - apply rmapM_ext_in. intros [i m] Hin. cbn [fst snd].
    apply In_enumerate in Hin.
    assert (Hi : i < length (ProductManifold.manifolds self))
      by (apply nth_error_Some; now rewrite Hin).
    now rewrite (Hargs i Hi).
  - intros i Hi. cbn [fst]. now rewrite (Hargs i Hi).
Qed.

(** A dispatch with the two array arguments of [to_tangent]. *)
Lemma dispatch_two_arrays self func vector base_point intrinsic pieces_v pieces_b :
  gs.split vector (ProductManifold.cum_index (ProductManifold.dims self) intrinsic)
  = Ok pieces_v ->
  gs.split base_point (ProductManifold.cum_index (ProductManifold.dims self) intrinsic)
  = Ok pieces_b ->
  length (ProductManifold.manifolds self) <= length pieces_v ->
  length (ProductManifold.manifolds self) <= length pieces_b ->
  outcome (ProductManifold._iterate_over_manifolds self func
             [("base_point", VArray base_point); ("vector", VArray vector)] intrinsic)
  = rmapM (fun im =>
             Manifold.call_method (snd im) func
               [("base_point", VArray (nth (fst im) pieces_b base_point));
                ("vector", VArray (nth (fst im) pieces_v vector))])
          (enumerate (ProductManifold.manifolds self)).
Proof.
  intros Hv Hb Hcv Hcb.
  assert (Hsp : ProductManifold.split_args
                  [("base_point", VArray base_point); ("vector", VArray vector)]
                  (ProductManifold.cum_index (ProductManifold.dims self) intrinsic) [] []
                = Ok ([("base_point", map VArray pieces_b);
                       ("vector", map VArray pieces_v)], [])).
  { cbn. rewrite Hb. cbn. rewrite Hv. reflexivity. }
  assert (Hargs : forall i, i < length (ProductManifold.manifolds self) ->
            ProductManifold.args_of_factor
              [("base_point", map VArray pieces_b); ("vector", map VArray pieces_v)] i
            = Ok [("base_point", VArray (nth i pieces_b base_point));
                  ("vector", VArray (nth i pieces_v vector))]).
  { intros i Hi. unfold ProductManifold.args_of_factor. cbn.
    rewrite !nth_error_map, (nth_error_nth_lt pieces_b i base_point) by lia.
    cbn. rewrite (nth_error_nth_lt pieces_v i vector) by lia. reflexivity. }
  rewrite (dispatch_outcome self func _ intrinsic _ Hsp).
  - apply rmapM_ext_in. intros [i m] Hin. cbn [fst snd].
    apply In_enumerate in Hin.
    assert (Hi : i < length (ProductManifold.manifolds self))
      by (apply nth_error_Some; now rewrite Hin).
    now rewrite (Hargs i Hi).
  - intros i Hi. cbn [fst]. now rewrite (Hargs i Hi).
Qed.

Lemma call_to_tangent_kw (m : Manifold.t) (v p : gs.ndarray Q) :
  Manifold.call_method m "to_tangent" [("base_point", VArray p); ("vector", VArray v)]
  = rbind (Manifold.to_tangent m v p) (fun r => Ok (VArray r)).
Proof. reflexivity. Qed.

Lemma call_to_tangent_pos (m : Manifold.t) (v p : gs.ndarray Q) :
  Manifold.call_method m "to_tangent" [("vector", VArray v); ("base_point", VArray p)]
  = rbind (Manifold.to_tangent m v p) (fun r => Ok (VArray r)).
Proof. reflexivity. Qed.

Lemma call_projection_any (m : Manifold.t) (x : gs.ndarray Q) :
  Manifold.call_method m "projection" [("point", VArray x)]
  = rbind (match Manifold.projection m with
           | Some proj => proj x
           | None => Raise (AttributeError "object has no attribute 'projection'")
           end)
          (fun r => Ok (VArray r)).
Proof.
  unfold Manifold.call_method. cbn. now destruct (Manifold.projection m).
Qed.

Lemma vector_op_outcome self func point intrinsic pieces
  (op : Manifold.t -> gs.ndarray Q -> result (gs.ndarray Q)) :
  (forall m x, Manifold.call_method m func [("point", VArray x)]
               = rbind (op m x) (fun r => Ok (VArray r))) ->
  length (ProductManifold.dims self) = length (ProductManifold.manifolds self) ->
  gs.split point (ProductManifold.cum_index (ProductManifold.dims self) intrinsic)
  = Ok pieces ->
  (outs <- outcome (ProductManifold._iterate_over_manifolds self func
                      [("point", VArray point)] intrinsic) ;;
   ProductManifold.concatenate_arrays outs)%result
  = (outs <- rmapM (fun im => op (snd im) (nth (fst im) pieces point))
                   (enumerate (ProductManifold.manifolds self)) ;;
     gs.concatenate outs)%result.
Proof.
  intros Hcall Hlen Hsplit.
  rewrite (dispatch_one_array self func point intrinsic pieces Hsplit
             (split_pieces_cover self Q point intrinsic pieces Hlen Hsplit)).
  rewrite (rmapM_ext_in _
             (fun im => rbind (op (snd im) (nth (fst im) pieces point))
                              (fun r => Ok (VArray r))))
    by (intros im _; apply Hcall).
  rewrite rmapM_post.
  destruct (rmapM _ (enumerate (ProductManifold.manifolds self))) as [outs|e];
    [|reflexivity].
  cbn [rbind]. unfold ProductManifold.concatenate_arrays.
  now rewrite rmapM_as_array.
Qed.

(** X7. In vector layout [regularize], [projection] and [to_tangent] return
    the concatenation along the last axis of what the factors' own methods
    return on the pieces of the arguments, in factor order; the pieces of the
    vector and of the base point are cut at the same boundaries, those of the
    base point's coordinate type.  A factor without a projection makes
    [projection] fail with an AttributeError. *)
Theorem vector_layout_concatenates_factor_results :
  forall self,
    ProductManifold.default_point_type self = "vector" ->
    length (ProductManifold.dims self) = length (ProductManifold.manifolds self) ->
    (forall point intrinsic pieces,
        is_intrinsic (ProductManifold.metric self) point = Ok intrinsic ->
        gs.split point (ProductManifold.cum_index (ProductManifold.dims self) intrinsic)
        = Ok pieces ->
        outcome (ProductManifold.regularize self point)
        = (outs <- rmapM (fun im =>
                            Manifold.regularize (snd im) (nth (fst im) pieces point))
                         (enumerate (ProductManifold.manifolds self)) ;;
           gs.concatenate outs)%result
        /\ outcome (ProductManifold.projection self point)
           = (outs <- rmapM (fun im =>
                               factor_projection (snd im) (nth (fst im) pieces point))
                            (enumerate (ProductManifold.manifolds self)) ;;
              gs.concatenate outs)%result)
    /\ (forall vector base_point intrinsic pieces_v pieces_b,
           is_intrinsic (ProductManifold.metric self) base_point = Ok intrinsic ->
           gs.split vector
             (ProductManifold.cum_index (ProductManifold.dims self) intrinsic)
           = Ok pieces_v ->
           gs.split base_point
             (ProductManifold.cum_index (ProductManifold.dims self) intrinsic)
           = Ok pieces_b ->
           outcome (ProductManifold.to_tangent self vector base_point)
           = (outs <- rmapM (fun im =>
                               Manifold.to_tangent (snd im)
                                 (nth (fst im) pieces_v vector)
                                 (nth (fst im) pieces_b base_point))
                            (enumerate (ProductManifold.manifolds self)) ;;
              gs.concatenate outs)%result).
Proof.
  intros self Htag Hlen. split.
  - intros point intrinsic pieces Hintr Hsplit. split.
    + unfold ProductManifold.regularize. rewrite Htag.
      change (String.eqb "vector" "vector") with true. cbv iota.
      rewrite Hintr, mbind_lift_ok, outcome_mbind. cbn [lift outcome snd].
      apply (vector_op_outcome self "regularize" point intrinsic pieces
               Manifold.regularize call_regularize Hlen Hsplit).
    + unfold ProductManifold.projection. rewrite Htag.
      change (String.eqb "vector" "vector") with true. cbv iota.
      rewrite Hintr, mbind_lift_ok, outcome_mbind. cbn [lift outcome snd].
      apply (vector_op_outcome self "projection" point intrinsic pieces
               factor_projection call_projection_any Hlen Hsplit).
  - intros vector base_point intrinsic pieces_v pieces_b Hintr Hv Hb.
    unfold ProductManifold.to_tangent. rewrite Htag.
    change (String.eqb "vector" "vector") with true. cbv iota.
    rewrite Hintr, mbind_lift_ok, outcome_mbind. cbn [lift outcome snd].
    rewrite (dispatch_two_arrays self "to_tangent" vector base_point intrinsic
               pieces_v pieces_b Hv Hb
               (split_pieces_cover self Q vector intrinsic pieces_v Hlen Hv)
               (split_pieces_cover self Q base_point intrinsic pieces_b Hlen Hb)).
    rewrite (rmapM_ext_in _
               (fun im => rbind (Manifold.to_tangent (snd im)
                                   (nth (fst im) pieces_v vector)
                                   (nth (fst im) pieces_b base_point))
                                (fun r => Ok (VArray r))))
      by (intros im _; apply call_to_tangent_kw).
    rewrite rmapM_post.
    destruct (rmapM _ (enumerate (ProductManifold.manifolds self))) as [outs|e];
      [|reflexivity].
    cbn [rbind]. unfold ProductManifold.concatenate_arrays.
    now rewrite rmapM_as_array.
Qed.

Lemma vector_layout_concatenates_factor_results_witness :
  let pieces := [gs.mk_array [2; 2] [0; 1; 0; 0]%Q;
                 gs.mk_array [2; 3] [0; 1; 0; 2; 0; 0]%Q] in
  ProductManifold.default_point_type cube_2_3_vector = "vector"
  /\ length (ProductManifold.dims cube_2_3_vector)
     = length (ProductManifold.manifolds cube_2_3_vector)
  /\ is_intrinsic (ProductManifold.metric cube_2_3_vector) batch_2x5 = Ok true
  /\ gs.split batch_2x5
       (ProductManifold.cum_index (ProductManifold.dims cube_2_3_vector) true)
     = Ok pieces
  /\ outcome (ProductManifold.regularize cube_2_3_vector batch_2x5)
     = (outs <- rmapM (fun im =>
                         Manifold.regularize (snd im) (nth (fst im) pieces batch_2x5))
                      (enumerate (ProductManifold.manifolds cube_2_3_vector)) ;;
        gs.concatenate outs)%result
  /\ outcome (ProductManifold.to_tangent cube_2_3_vector batch_2x5 batch_2x5)
     = Ok batch_2x5.
Proof.
  intros pieces.
  destruct (vector_layout_concatenates_factor_results cube_2_3_vector eq_refl eq_refl)
    as [Hpoint Htangent].
  split; [reflexivity|]. split; [reflexivity|]. split; [reflexivity|].
  split; [reflexivity|].
  split; [exact (proj1 (Hpoint batch_2x5 true pieces eq_refl eq_refl))|].
  rewrite (Htangent batch_2x5 batch_2x5 true pieces pieces eq_refl eq_refl eq_refl).
  reflexivity.
Defined.

(** ** Points the factors leave alone *)

Lemma map_nth_combine_seq {A B} (ms : list B) (pieces : list A) (d : A) (a : nat) :
  a + length ms <= length pieces ->
  map (fun im => nth (fst im) pieces d) (combine (seq a (length ms)) ms)
  = firstn (length ms) (skipn a pieces).
Proof.
  revert a. induction ms as [|m t IH]; intros a Hlen; [reflexivity|].
  cbn [length seq combine map fst] in *.
  rewrite IH by lia.
  assert (Hsk : skipn a pieces = nth a pieces d :: skipn (S a) pieces).
  { clear IH. revert a Hlen. induction pieces as [|p ps IHp]; intros a Hlen.
    - cbn in Hlen. lia.
    - destruct a as [|a]; [reflexivity|].
      cbn [skipn nth]. apply IHp. cbn in Hlen. lia. }
  rewrite Hsk. reflexivity.
Qed.

Lemma map_nth_enumerate {A B} (ms : list B) (pieces : list A) (d : A) :
  length ms <= length pieces ->
  map (fun im => nth (fst im) pieces d) (enumerate ms) = firstn (length ms) pieces.
Proof.
  intros Hlen. unfold enumerate. now rewrite map_nth_combine_seq by lia.
Qed.

(** The pieces handed to the factors tile the point: in extrinsic
    coordinates the piece the split leaves over is empty. *)
Lemma factor_pieces_concatenate {A} (point : gs.ndarray A) (batch dims : list nat)
  (intrinsic : bool) (pieces : list (gs.ndarray A)) :
  dims <> [] -> gs.wf point ->
  gs.shape point
  = batch ++ [list_sum (if intrinsic then dims else map (fun k => k + 1) dims)] ->
  gs.split point (ProductManifold.cum_index dims intrinsic) = Ok pieces ->
  gs.concatenate (firstn (length dims) pieces) = Ok point.
Proof.
  intros Hne Hwf Hshape Hsplit.
  rewrite (split_sections point batch _ _ Hshape) in Hsplit.
  injection Hsplit as <-. unfold ProductManifold.cum_index.
  destruct intrinsic.
  - assert (Hcs : gs.cumsum dims <> []) by (destruct dims; [contradiction | discriminate]).
    assert (Hsecs : removelast (gs.cumsum dims) ++ [list_sum dims] = gs.cumsum dims).
    { replace (list_sum dims) with (last (gs.cumsum dims) 0)
        by (unfold gs.cumsum; now rewrite cumsum_from_last).
      symmetry. now apply app_removelast_last. }
    rewrite Hsecs. rewrite firstn_all2
      by (rewrite length_map, sections_length, cumsum_length; lia).
    unfold gs.cumsum. apply concatenate_sections; try assumption.
    + destruct dims; [contradiction | discriminate].
    + pose proof (sections_cumsum_widths 0 dims) as Hw. cbn [Nat.add] in Hw.
      now rewrite Hw.
    + intros row Hrow. rewrite slices_cumsum. now apply slice_whole.
  - set (dims' := map (fun k => k + 1) dims) in *.
    rewrite sections_app, map_app.
    replace (length dims)
      with (length (map (fun se : nat * nat =>
                           gs.mk_array (batch ++ [Nat.min (snd se) (list_sum dims') - fst se])
                             (flat_map (fun r => gs.slice (fst se) (snd se)
                                                   (gs.chunk r (list_sum dims') (gs.data point)))
                                       (seq 0 (gs.nelems batch))))
                        (gs.sections 0 (gs.cumsum dims'))) + 0)
      by (rewrite length_map, sections_length, cumsum_length; unfold dims';
          rewrite length_map; lia).
    rewrite firstn_app_2. cbn [firstn]. rewrite app_nil_r.
    unfold gs.cumsum. apply concatenate_sections; try assumption.
    + unfold dims'. destruct dims; [contradiction | discriminate].
    + pose proof (sections_cumsum_widths 0 dims') as Hw. cbn [Nat.add] in Hw.
      now rewrite Hw.
    + intros row Hrow. rewrite slices_cumsum. now apply slice_whole.
Qed.

Lemma rmapM_all_ok {A B} (f : A -> result B) (g : A -> B) (l : list A) :
  (forall x, In x l -> f x = Ok (g x)) -> rmapM f l = Ok (map g l).
Proof.
  induction l as [|x t IH]; intros H; [reflexivity|].
  cbn [rmapM map]. rewrite (H x) by now left. cbn [rbind].
  rewrite IH by (intros y Hy; apply H; now right). reflexivity.
Qed.

Lemma fixed_pieces_concatenate self (point : gs.ndarray Q) batch (intrinsic : bool) pieces
  (op : Manifold.t -> gs.ndarray Q -> result (gs.ndarray Q)) :
  ProductManifold.manifolds self <> [] ->
  length (ProductManifold.dims self) = length (ProductManifold.manifolds self) ->
  gs.wf point ->
  gs.shape point
  = batch ++ [list_sum (if intrinsic then ProductManifold.dims self
                        else map (fun k => k + 1) (ProductManifold.dims self))] ->
  gs.split point (ProductManifold.cum_index (ProductManifold.dims self) intrinsic)
  = Ok pieces ->
  (forall i m, nth_error (ProductManifold.manifolds self) i = Some m ->
               op m (nth i pieces point) = Ok (nth i pieces point)) ->
  (outs <- rmapM (fun im => op (snd im) (nth (fst im) pieces point))
                 (enumerate (ProductManifold.manifolds self)) ;;
   gs.concatenate outs)%result
  = Ok point.
Proof.
  intros Hne Hlen Hwf Hshape Hsplit Hfix.
  rewrite (rmapM_all_ok _ (fun im : nat * Manifold.t => nth (fst im) pieces point)).
  - cbn [rbind].
    rewrite map_nth_enumerate
      by (apply (split_pieces_cover self Q point intrinsic pieces Hlen Hsplit)).
    rewrite <- Hlen.
    apply (factor_pieces_concatenate point batch _ intrinsic pieces); try assumption.
    intros Hnil. rewrite Hnil in Hlen. destruct (ProductManifold.manifolds self);
      [contradiction | discriminate].
  - intros [i m] Hin. apply In_enumerate in Hin. cbn [fst snd]. now apply Hfix.
Qed.

(** X8. Vector layout: a point whose pieces the factors leave unchanged is
    returned unchanged by [regularize] and by [projection], in intrinsic as
    in extrinsic coordinates; a vector whose pieces the factors' [to_tangent]
    leave unchanged is returned unchanged by [to_tangent]. *)
Theorem vector_layout_fixed_points :
  forall self (point : gs.ndarray Q) batch (intrinsic : bool) pieces,
    ProductManifold.default_point_type self = "vector" ->
    ProductManifold.manifolds self <> [] ->
    length (ProductManifold.dims self) = length (ProductManifold.manifolds self) ->
    gs.wf point ->
    gs.shape point
    = batch ++ [list_sum (if intrinsic then ProductManifold.dims self
                          else map (fun k => k + 1) (ProductManifold.dims self))] ->
    gs.split point (ProductManifold.cum_index (ProductManifold.dims self) intrinsic)
    = Ok pieces ->
    ((forall i m, nth_error (ProductManifold.manifolds self) i = Some m ->
                  Manifold.regularize m (nth i pieces point) = Ok (nth i pieces point)) ->
     is_intrinsic (ProductManifold.metric self) point = Ok intrinsic ->
     outcome (ProductManifold.regularize self point) = Ok point)
    /\ ((forall i m, nth_error (ProductManifold.manifolds self) i = Some m ->
                     factor_projection m (nth i pieces point) = Ok (nth i pieces point)) ->
        is_intrinsic (ProductManifold.metric self) point = Ok intrinsic ->
        outcome (ProductManifold.projection self point) = Ok point)
    /\ (forall base_point pieces_b,
           gs.split base_point
             (ProductManifold.cum_index (ProductManifold.dims self) intrinsic)
           = Ok pieces_b ->
           (forall i m, nth_error (ProductManifold.manifolds self) i = Some m ->
                        Manifold.to_tangent m (nth i pieces point)
                          (nth i pieces_b base_point)
                        = Ok (nth i pieces point)) ->
           is_intrinsic (ProductManifold.metric self) base_point = Ok intrinsic ->
           outcome (ProductManifold.to_tangent self point base_point) = Ok point).
Proof.
  intros self point batch intrinsic pieces Htag Hne Hlen Hwf Hshape Hsplit.
  split; [|split].
  - intros Hfix Hintr.
    unfold ProductManifold.regularize. rewrite Htag.
    change (String.eqb "vector" "vector") with true. cbv iota.
    rewrite Hintr, mbind_lift_ok, outcome_mbind. cbn [lift outcome snd].
    rewrite (vector_op_outcome self "regularize" point intrinsic pieces
               Manifold.regularize call_regularize Hlen Hsplit).
    now apply (fixed_pieces_concatenate self point batch intrinsic pieces).
  - intros Hfix Hintr.
    unfold ProductManifold.projection. rewrite Htag.
    change (String.eqb "vector" "vector") with true. cbv iota.
    rewrite Hintr, mbind_lift_ok, outcome_mbind. cbn [lift outcome snd].
    rewrite (vector_op_outcome self "projection" point intrinsic pieces
               factor_projection call_projection_any Hlen Hsplit).
    now apply (fixed_pieces_concatenate self point batch intrinsic pieces).
  - intros base_point pieces_b Hb Hfix Hintr.
    unfold ProductManifold.to_tangent. rewrite Htag.
    change (String.eqb "vector" "vector") with true. cbv iota.
    rewrite Hintr, mbind_lift_ok, outcome_mbind. cbn [lift outcome snd].
    rewrite (dispatch_two_arrays self "to_tangent" point base_point intrinsic
               pieces pieces_b Hsplit Hb
               (split_pieces_cover self Q point intrinsic pieces Hlen Hsplit)
               (split_pieces_cover self Q base_point intrinsic pieces_b Hlen Hb)).
    rewrite (rmapM_ext_in _
               (fun im => rbind (Manifold.to_tangent (snd im)
                                   (nth (fst im) pieces point)
                                   (nth (fst im) pieces_b base_point))
                                (fun r => Ok (VArray r))))
      by (intros im _; apply call_to_tangent_kw).
    rewrite rmapM_post.
    rewrite (rmapM_all_ok _ (fun im : nat * Manifold.t => nth (fst im) pieces point)).
    + cbn [rbind]. unfold ProductManifold.concatenate_arrays.
      rewrite rmapM_as_array.
      rewrite map_nth_enumerate
        by (apply (split_pieces_cover self Q point intrinsic pieces Hlen Hsplit)).
      rewrite <- Hlen.
      apply (factor_pieces_concatenate point batch _ intrinsic pieces); try assumption.
      intros Hnil. rewrite Hnil in Hlen. destruct (ProductManifold.manifolds self);
        [contradiction | discriminate].
    + intros [i m] Hin. apply In_enumerate in Hin. cbn [fst snd]. now apply Hfix.
Qed.

Lemma vector_layout_fixed_points_witness :
  let pieces := [gs.mk_array [3] [0; 1; 0]%Q; gs.mk_array [4] [1; 0; 1; 1]%Q;
                 gs.mk_array [0] []] in
  ProductManifold.manifolds cube_2_3_vector <> []
  /\ gs.wf point7
  /\ gs.shape point7
     = [] ++ [list_sum (map (fun k => k + 1) (ProductManifold.dims cube_2_3_vector))]
  /\ gs.split point7
       (ProductManifold.cum_index (ProductManifold.dims cube_2_3_vector) false)
     = Ok pieces
  /\ is_intrinsic (ProductManifold.metric cube_2_3_vector) point7 = Ok false
  /\ outcome (ProductManifold.regularize cube_2_3_vector point7) = Ok point7
  /\ outcome (ProductManifold.projection cube_2_3_vector point7) = Ok point7
  /\ outcome (ProductManifold.to_tangent cube_2_3_vector point7 point7) = Ok point7.
Proof.
  intros pieces.
  assert (Hne : ProductManifold.manifolds cube_2_3_vector <> []) by discriminate.
  assert (Hwf : gs.wf point7) by reflexivity.
  destruct (vector_layout_fixed_points cube_2_3_vector point7 [] false pieces
              eq_refl Hne eq_refl Hwf eq_refl eq_refl) as (Hreg & Hproj & Htan).
  split; [exact Hne|]. split; [exact Hwf|]. split; [reflexivity|].
  split; [reflexivity|]. split; [reflexivity|].
  split; [|split].
  - apply Hreg; [|reflexivity].
    intros [|[|[|i]]] m Hm; cbn in Hm; try discriminate;
      injection Hm as <-; reflexivity.
  - apply Hproj; [|reflexivity].
    intros [|[|[|i]]] m Hm; cbn in Hm; try discriminate;
      injection Hm as <-; reflexivity.
  - apply (Htan point7 pieces eq_refl); [|reflexivity].
    intros [|[|[|i]]] m Hm; cbn in Hm; try discriminate;
      injection Hm as <-; reflexivity.
Defined.

(** ** Matrix layout: one row per factor *)

Lemma nelems_app (s t : list nat) : gs.nelems (s ++ t) = gs.nelems s * gs.nelems t.
Proof.
  unfold gs.nelems. induction s as [|x s IH]; cbn [app fold_right]; [lia|].
  rewrite IH. lia.
Qed.

Lemma index_row_rows {A} (a : gs.ndarray A) (batch : list nat) (r d i : nat) :
  gs.shape a = batch ++ [r; d] -> i < r ->
  gs.index_row a i
  = Ok (gs.mk_array (batch ++ [d])
          (flat_map (fun o => gs.chunk (o * r + i) d (gs.data a))
                    (seq 0 (gs.nelems batch)))).
Proof.
  intros Hshape Hi. unfold gs.index_row.
  rewrite Hshape, rev_app_distr. cbn [rev app].
  apply Nat.ltb_lt in Hi. rewrite Hi. now rewrite rev_involutive.
Qed.

Lemma index_row_short {A} (a : gs.ndarray A) (batch : list nat) (r d i : nat) :
  gs.shape a = batch ++ [r; d] -> r <= i ->
  gs.index_row a i = Raise (IndexError "index is out of bounds for axis").
Proof.
  intros Hshape Hi. unfold gs.index_row.
  rewrite Hshape, rev_app_distr. cbn [rev app].
  apply Nat.ltb_ge in Hi. now rewrite Hi.
Qed.

Lemma normalize_axis_m2 (k : nat) : gs.normalize_axis (-2) (S (S k)) = Ok k.
Proof.
  unfold gs.normalize_axis.
  replace ((- Z.of_nat (S (S k)) <=? -2) && (-2 <? Z.of_nat (S (S k))))%Z with true
    by (symmetry; apply andb_true_iff; split;
        [apply Z.leb_le | apply Z.ltb_lt]; lia).
  f_equal.
  assert (H : ((-2) mod Z.of_nat (S (S k)) = Z.of_nat k)%Z).
  { symmetry. apply Z.mod_unique with (q := (-1)%Z); lia. }
  rewrite H. apply Nat2Z.id.
Qed.

Lemma stack_m2 {A} (arrs : list (gs.ndarray A)) (batch : list nat) (d : nat) :
  arrs <> [] -> Forall (fun a => gs.shape a = batch ++ [d]) arrs ->
  gs.stack arrs (-2)
  = Ok (gs.mk_array (batch ++ [length arrs; d])
          (flat_map (fun o => flat_map (fun a => gs.chunk o d (gs.data a)) arrs)
                    (seq 0 (gs.nelems batch)))).
Proof.
  intros Hne Hs. destruct arrs as [|a0 rest]; [contradiction|].
  assert (H0 : gs.shape a0 = batch ++ [d]) by (inversion Hs; assumption).
  unfold gs.stack. rewrite H0, (same_shapes_true (batch ++ [d])) by assumption.
  rewrite length_app. cbn [length]. rewrite Nat.add_1_r, normalize_axis_m2.
  cbn [rbind].
  rewrite firstn_app, firstn_all, Nat.sub_diag, firstn_O, app_nil_r.
  rewrite skipn_app, skipn_all, Nat.sub_diag. cbn [skipn app].
  replace (gs.nelems [d]) with d by (unfold gs.nelems; cbn [fold_right]; lia).
  reflexivity.
Qed.

Lemma chunk_of_chunk {A} (l : list A) (o r d i : nat) :
  i < r -> gs.chunk (o * r + i) d l = gs.chunk i d (gs.chunk o (r * d) l).
Proof.
  intros Hi. unfold gs.chunk.
  rewrite skipn_firstn_comm, firstn_firstn, skipn_skipn.
  replace (Nat.min d (r * d - i * d)) with d by nia.
  f_equal. f_equal. nia.
Qed.

Lemma flat_map_chunks_firstn {A} (l : list A) (d n : nat) :
  flat_map (fun i => gs.chunk i d l) (seq 0 n) = firstn (n * d) l.
Proof.
  induction n as [|n IH]; [reflexivity|].
  rewrite seq_S, flat_map_app, IH. cbn [flat_map Nat.add]. rewrite app_nil_r.
  replace (S n * d) with (n * d + d) by lia.
  now rewrite firstn_plus.
Qed.

Lemma rows_ok {A} (a : gs.ndarray A) (batch : list nat) (r d n : nat) :
  gs.shape a = batch ++ [r; d] -> n <= r ->
  rmapM (gs.index_row a) (seq 0 n)
  = Ok (map (fun i => gs.mk_array (batch ++ [d])
                        (flat_map (fun o => gs.chunk (o * r + i) d (gs.data a))
                                  (seq 0 (gs.nelems batch))))
            (seq 0 n)).
Proof.
  intros Hshape Hn. apply rmapM_all_ok. intros i Hi. apply in_seq in Hi.
  apply (index_row_rows a batch r d i Hshape). lia.
Qed.

(** Stacking the first [n] rows on the last axis but one gives the leading
    rows back. *)
Lemma stack_rows {A} (a : gs.ndarray A) (batch : list nat) (r d n : nat) :
  gs.shape a = batch ++ [r; d] -> gs.wf a -> 0 < n -> n <= r ->
  gs.stack (map (fun i => gs.mk_array (batch ++ [d])
                            (flat_map (fun o => gs.chunk (o * r + i) d (gs.data a))
                                      (seq 0 (gs.nelems batch))))
                (seq 0 n)) (-2)
  = Ok (leading_rows n a).
Proof.
  intros Hshape Hwf Hpos Hn.
  assert (Hlen : length (gs.data a) = gs.nelems batch * r * d).
  { unfold gs.wf, gs.size in Hwf. rewrite Hwf, Hshape, nelems_app.
    unfold gs.nelems at 2. cbn [fold_right]. lia. }
  rewrite (stack_m2 _ batch d).
  - unfold leading_rows. rewrite Hshape, rev_app_distr. cbn [rev app].
    rewrite rev_involutive, length_map, length_seq, Nat.min_l by exact Hn.
    f_equal. f_equal. apply flat_map_pointwise. intros o Ho. apply in_seq in Ho.
    rewrite flat_map_map_compose. cbn [gs.data].
    rewrite <- flat_map_chunks_firstn.
    apply flat_map_pointwise. intros i Hi. apply in_seq in Hi.
    rewrite chunk_flat_map.
    + rewrite nth_error_nth' with (d := 0) by (rewrite length_seq; lia).
      rewrite seq_nth by lia. cbn [Nat.add]. apply chunk_of_chunk. lia.
    + intros o' Ho'. apply in_seq in Ho'.
      apply length_chunk with (rows := gs.nelems batch * r); [exact Hlen | nia].
  - destruct n; [lia | discriminate].
  - apply Forall_forall. intros x Hx. apply in_map_iff in Hx as (i & <- & _).
    reflexivity.
Qed.

Lemma leading_rows_all {A} (a : gs.ndarray A) (batch : list nat) (r d : nat) :
  gs.shape a = batch ++ [r; d] -> gs.wf a -> leading_rows r a = a.
Proof.
  intros Hshape Hwf.
  assert (Hlen : length (gs.data a) = gs.nelems batch * (r * d)).
  { unfold gs.wf, gs.size in Hwf. rewrite Hwf, Hshape, nelems_app.
    unfold gs.nelems at 2. cbn [fold_right]. lia. }
  unfold leading_rows. rewrite Hshape, rev_app_distr. cbn [rev app].
  rewrite rev_involutive, Nat.min_id. destruct a as [shp dat].
  cbn [gs.shape gs.data] in *. rewrite <- Hshape. f_equal.
  transitivity (flat_map (fun o => gs.chunk o (r * d) dat) (seq 0 (gs.nelems batch)));
    [|now apply flat_map_chunk].
  apply flat_map_pointwise. intros o _. unfold gs.chunk. now rewrite firstn_firstn, Nat.min_id.
Qed.

Lemma map_fst_combine_seq {B} (ms : list B) (a : nat) :
  map fst (combine (seq a (length ms)) ms) = seq a (length ms).
Proof.
  revert a. induction ms as [|m t IH]; intros a; [reflexivity|].
  cbn [length seq combine map fst]. now rewrite IH.
Qed.

Lemma map_fst_enumerate {B} (ms : list B) :
  map fst (enumerate ms) = seq 0 (length ms).
Proof. apply map_fst_combine_seq. Qed.

Lemma matrix_rows_outcome (ms : list Manifold.t) (point : gs.ndarray Q)
  (batch : list nat) (r d : nat) (f : nat * Manifold.t -> M value) :
  gs.shape point = batch ++ [r; d] -> gs.wf point ->
  ms <> [] -> length ms <= r ->
  (forall i m row, nth_error ms i = Some m -> gs.index_row point i = Ok row ->
                   outcome (f (i, m)) = Ok (VArray row)) ->
  (vs <- outcome (mmapM f (enumerate ms)) ;;
   ProductManifold.stack_arrays vs (-2))%result
  = Ok (leading_rows (length ms) point).
Proof.
  intros Hshape Hwf Hne Hn Hf.
  set (row := fun i => gs.mk_array (batch ++ [d])
                         (flat_map (fun o => gs.chunk (o * r + i) d (gs.data point))
                                   (seq 0 (gs.nelems batch)))).
  rewrite outcome_mmapM.
  rewrite (rmapM_all_ok _ (fun im : nat * Manifold.t => VArray (row (fst im)))).
  - cbn [rbind]. unfold ProductManifold.stack_arrays.
    rewrite <- (map_map (fun im : nat * Manifold.t => row (fst im)) VArray).
    rewrite rmapM_as_array. cbn [rbind].
    rewrite <- (map_map fst row), map_fst_enumerate.
    apply (stack_rows point batch r d (length ms) Hshape Hwf); [|exact Hn].
    destruct ms; [contradiction | cbn; lia].
  - intros [i m] Hin. apply In_enumerate in Hin. cbn [fst].
    apply (Hf i m (row i) Hin).
    apply (index_row_rows point batch r d i Hshape).
    assert (Hlt : i < length ms) by (apply nth_error_Some; congruence). lia.
Qed.

(** X9. Matrix layout: when the factors' [projection] (or [to_tangent])
    leave the rows they are handed unchanged, the composite returns rows
    [0 .. n-1] of the point, [n] the number of factors: rows beyond the
    factors are dropped without an error, and a point with exactly one row
    per factor comes back unchanged. *)
Theorem matrix_layout_keeps_leading_rows :
  forall self (point : gs.ndarray Q) (batch : list nat) (r d : nat),
    ProductManifold.default_point_type self = "matrix" ->
    ProductManifold.manifolds self <> [] ->
    gs.wf point ->
    gs.shape point = batch ++ [r; d] ->
    length (ProductManifold.manifolds self) <= r ->
    ((forall i m row,
         nth_error (ProductManifold.manifolds self) i = Some m ->
         gs.index_row point i = Ok row ->
         factor_projection m row = Ok row) ->
     outcome (ProductManifold.projection self point)
     = Ok (leading_rows (length (ProductManifold.manifolds self)) point))
    /\ (forall base_point,
           (forall i m row,
               nth_error (ProductManifold.manifolds self) i = Some m ->
               gs.index_row point i = Ok row ->
               exists p, gs.index_row base_point i = Ok p
                         /\ Manifold.to_tangent m row p = Ok row) ->
           outcome (ProductManifold.to_tangent self point base_point)
           = Ok (leading_rows (length (ProductManifold.manifolds self)) point))
    /\ (length (ProductManifold.manifolds self) = r ->
        leading_rows (length (ProductManifold.manifolds self)) point = point).
Proof.
  intros self point batch r d Htag Hne Hwf Hshape Hn. split; [|split].
  - intros Hfix. unfold ProductManifold.projection. rewrite Htag.
    change (String.eqb "matrix" "vector") with false.
    change (String.eqb "matrix" "matrix") with true. cbv iota.
    rewrite outcome_mbind. cbn [lift outcome snd].
    apply (matrix_rows_outcome _ point batch r d _ Hshape Hwf Hne Hn).
    intros i m row Hm Hrow. cbn [fst snd]. rewrite Hrow, mbind_lift_ok.
    unfold invoke. cbn [outcome snd].
    rewrite call_projection_any. fold (factor_projection m row).
    rewrite (Hfix i m row Hm Hrow). reflexivity.
  - intros base_point Hfix. unfold ProductManifold.to_tangent. rewrite Htag.
    change (String.eqb "matrix" "vector") with false.
    change (String.eqb "matrix" "matrix") with true. cbv iota.
    rewrite outcome_mbind. cbn [lift outcome snd].
    apply (matrix_rows_outcome _ point batch r d _ Hshape Hwf Hne Hn).
    intros i m row Hm Hrow. cbn [fst snd]. rewrite Hrow, mbind_lift_ok.
    destruct (Hfix i m row Hm Hrow) as (p & Hp & Hto).
    rewrite Hp, mbind_lift_ok. unfold invoke. cbn [outcome snd].
    rewrite call_to_tangent_pos, Hto. reflexivity.
  - intros <-. now apply (leading_rows_all point batch _ d).
Qed.

Lemma matrix_layout_keeps_leading_rows_witness :
  ProductManifold.manifolds cube_3_3_matrix <> []
  /\ gs.wf rows_3x3
  /\ gs.shape rows_3x3 = [] ++ [3; 3]
  /\ length (ProductManifold.manifolds cube_3_3_matrix) <= 3
  /\ outcome (ProductManifold.projection cube_3_3_matrix rows_3x3)
     = Ok (gs.mk_array [2; 3] [0; 1; 0; 1; 0; 1]%Q)
  /\ outcome (ProductManifold.to_tangent cube_3_3_matrix rows_3x3 rows_3x3)
     = Ok (gs.mk_array [2; 3] [0; 1; 0; 1; 0; 1]%Q).
Proof.
  assert (Hne : ProductManifold.manifolds cube_3_3_matrix <> []) by discriminate.
  assert (Hwf : gs.wf rows_3x3) by reflexivity.
  assert (Hn : length (ProductManifold.manifolds cube_3_3_matrix) <= 3) by (cbn; lia).
  destruct (matrix_layout_keeps_leading_rows cube_3_3_matrix rows_3x3 [] 3 3
              eq_refl Hne Hwf eq_refl Hn) as (Hproj & Htan & _).
  split; [exact Hne|]. split; [exact Hwf|]. split; [reflexivity|].
  split; [exact Hn|]. split.
  - apply Hproj.
    intros [|[|[|i]]] m row Hm Hrow; cbn in Hm; try discriminate;
      injection Hm as <-; vm_compute in Hrow; injection Hrow as <-; reflexivity.
  - apply Htan.
    intros [|[|[|i]]] m row Hm Hrow; cbn in Hm; try discriminate;
      injection Hm as <-; vm_compute in Hrow; injection Hrow as <-;
      eexists; split; reflexivity.
Defined.

(** ** Matrix layout: fewer rows than factors *)

Lemma log_short_rows {B C} (f : nat * B -> M C) (ms : list B) (a r : nat) :
  (forall i m, r <= i -> f (i, m) = ([], Raise (IndexError "index is out of bounds for axis"))) ->
  (forall i m c, In c (calls (f (i, m))) -> callee c = i) ->
  Forall (fun c => callee c < r) (log_until_raise f (combine (seq a (length ms)) ms)).
Proof.
  intros Hshort Hcallee. revert a. induction ms as [|m t IH]; intros a; [constructor|].
  cbn [length seq combine log_until_raise].
  destruct (Nat.le_gt_cases r a) as [Hra|Hra].
  - rewrite (Hshort a m Hra). constructor.
  - apply Forall_app. split.
    + apply Forall_forall. intros c Hc. now rewrite (Hcallee a m c Hc).
    + destruct (is_ok (outcome (f (a, m)))); [apply IH | constructor].
Qed.

Lemma mbind_after_raise {A B} (m : M A) (k : A -> M B) :
  is_ok (outcome m) = false ->
  is_ok (outcome (mbind m k)) = false /\ calls (mbind m k) = calls m.
Proof.
  destruct m as [log [a|e]]; [discriminate|]. intros _. split; reflexivity.
Qed.

Lemma short_rows_loop {C} (ms : list Manifold.t) (x : gs.ndarray Q)
  (batch : list nat) (r d : nat) (g : nat * Manifold.t -> gs.ndarray Q -> M C) :
  gs.shape x = batch ++ [r; d] -> r < length ms ->
  (forall im s c, In c (calls (g im s)) -> callee c = fst im) ->
  let loop := mmapM (fun im => slice <- lift (gs.index_row x (fst im)) ;; g im slice)%M
                    (enumerate ms) in
  is_ok (outcome loop) = false /\ Forall (fun c => callee c < r) (calls loop).
Proof.
  intros Hshape Hr Hcallee loop. subst loop. split.
  - rewrite outcome_mmapM.
    destruct (nth_error ms r) as [m|] eqn:Hm;
      [|apply nth_error_None in Hm; lia].
    apply (rmapM_some_raise _ _ (r, m)); [now apply In_enumerate|].
    cbn [fst]. now rewrite (index_row_short x batch r d r Hshape) by lia.
  - rewrite calls_mmapM. unfold enumerate. apply log_short_rows.
    + intros i m Hi. cbn [fst].
      now rewrite (index_row_short x batch r d i Hshape) by exact Hi.
    + intros i m c Hc. cbn [fst] in Hc.
      destruct (gs.index_row x i) as [s|e]; [|contradiction].
      rewrite mbind_lift_ok in Hc. exact (Hcallee (i, m) s c Hc).
Qed.

Lemma invoke_callee i m name kw c :
  In c (calls (invoke i m name kw)) -> callee c = i.
Proof.
  unfold invoke. cbn [calls fst].
  destruct (Manifold.hasattr m name); [|intros []].
  intros [<-|[]]. reflexivity.
Qed.

Lemma lift_invoke_callee i m name (r : result (gs.ndarray Q))
  (kw : gs.ndarray Q -> dict value) c :
  In c (calls (p <- lift r ;; invoke i m name (kw p))%M) -> callee c = i.
Proof.
  destruct r as [p|e]; [|intros []].
  rewrite mbind_lift_ok. apply invoke_callee.
Qed.

(** X10. Matrix layout: a point (or vector) with fewer rows than the product
    has factors is never accepted: [belongs], [regularize], [projection],
    [is_tangent] and [to_tangent] all end in an exception, and only factors
    that have a row are called before it. *)
Theorem matrix_layout_rejects_missing_rows :
  forall self (x : gs.ndarray Q) (batch : list nat) (r d : nat),
    ProductManifold.default_point_type self = "matrix" ->
    gs.shape x = batch ++ [r; d] ->
    r < length (ProductManifold.manifolds self) ->
    (forall atol,
        is_ok (outcome (ProductManifold.belongs self x atol)) = false
        /\ Forall (fun c => callee c < r) (calls (ProductManifold.belongs self x atol)))
    /\ (is_ok (outcome (ProductManifold.regularize self x)) = false
        /\ Forall (fun c => callee c < r) (calls (ProductManifold.regularize self x)))
    /\ (is_ok (outcome (ProductManifold.projection self x)) = false
        /\ Forall (fun c => callee c < r) (calls (ProductManifold.projection self x)))
    /\ (forall base_point atol,
           is_ok (outcome (ProductManifold.is_tangent self x base_point atol)) = false
           /\ Forall (fun c => callee c < r)
                     (calls (ProductManifold.is_tangent self x base_point atol)))
    /\ (forall base_point,
           is_ok (outcome (ProductManifold.to_tangent self x base_point)) = false
           /\ Forall (fun c => callee c < r)
                     (calls (ProductManifold.to_tangent self x base_point))).
Proof.
  intros self x batch r d Htag Hshape Hr.
  assert (Hloop : forall C (g : nat * Manifold.t -> gs.ndarray Q -> M C),
             (forall im s c, In c (calls (g im s)) -> callee c = fst im) ->
             is_ok (outcome (mmapM (fun im => slice <- lift (gs.index_row x (fst im)) ;;
                                              g im slice)%M
                                   (enumerate (ProductManifold.manifolds self)))) = false
             /\ Forall (fun c => callee c < r)
                  (calls (mmapM (fun im => slice <- lift (gs.index_row x (fst im)) ;;
                                           g im slice)%M
                                (enumerate (ProductManifold.manifolds self)))))
    by (intros C g Hg; exact (short_rows_loop _ x batch r d g Hshape Hr Hg)).
  split; [|split; [|split; [|split]]].
  - intros atol. unfold ProductManifold.belongs. rewrite Htag.
    change (String.eqb "matrix" "vector") with false. cbv iota.
    destruct (Hloop _ (fun im slice => invoke (fst im) (snd im) "belongs"
                                         [("point", VArray slice); ("atol", atol)]))
      as [Hout Hcalls]; [intros im s c; apply invoke_callee|].
    destruct (mbind_after_raise _ (fun belongs => lift (ProductManifold.stack_bools belongs (-1)))
                Hout) as [Hout' Hcalls'].
    destruct (mbind_after_raise _ (fun stacked => lift (gs.all stacked (-1))) Hout')
      as [Hout'' Hcalls''].
    split; [exact Hout''|]. rewrite Hcalls'', Hcalls'. exact Hcalls.
  - unfold ProductManifold.regularize. rewrite Htag.
    change (String.eqb "matrix" "vector") with false.
    change (String.eqb "matrix" "matrix") with true. cbv iota.
    destruct (Hloop _ (fun im slice => invoke (fst im) (snd im) "regularize"
                                         [("point", VArray slice)]))
      as [Hout Hcalls]; [intros im s c; apply invoke_callee|].
    destruct (mbind_after_raise _ (fun vs => lift (ProductManifold.stack_arrays vs 1)) Hout)
      as [Hout' Hcalls'].
    split; [exact Hout'|]. rewrite Hcalls'. exact Hcalls.
  - unfold ProductManifold.projection. rewrite Htag.
    change (String.eqb "matrix" "vector") with false.
    change (String.eqb "matrix" "matrix") with true. cbv iota.
    destruct (Hloop _ (fun im slice => invoke (fst im) (snd im) "projection"
                                         [("point", VArray slice)]))
      as [Hout Hcalls]; [intros im s c; apply invoke_callee|].
    destruct (mbind_after_raise _ (fun vs => lift (ProductManifold.stack_arrays vs (-2))) Hout)
      as [Hout' Hcalls'].
    split; [exact Hout'|]. rewrite Hcalls'. exact Hcalls.
  - intros base_point atol. unfold ProductManifold.is_tangent. rewrite Htag.
    change (String.eqb "matrix" "vector") with false. cbv iota.
    destruct (Hloop _ (fun im v =>
                         p <- lift (gs.index_row base_point (fst im)) ;;
                         invoke (fst im) (snd im) "is_tangent"
                                [("vector", VArray v); ("base_point", VArray p);
                                 ("atol", atol)])%M)
      as [Hout Hcalls].
    { intros im s c.
      apply (lift_invoke_callee (fst im) (snd im) "is_tangent"
               (gs.index_row base_point (fst im))
               (fun p => [("vector", VArray s); ("base_point", VArray p); ("atol", atol)])). }
    destruct (mbind_after_raise _ (fun vs => lift (ProductManifold.stack_bools vs (-1))) Hout)
      as [Hout' Hcalls'].
    destruct (mbind_after_raise _ (fun stacked => lift (gs.all stacked (-1))) Hout')
      as [Hout'' Hcalls''].
    split; [exact Hout''|]. rewrite Hcalls'', Hcalls'. exact Hcalls.
  - intros base_point. unfold ProductManifold.to_tangent. rewrite Htag.
    change (String.eqb "matrix" "vector") with false.
    change (String.eqb "matrix" "matrix") with true. cbv iota.
    destruct (Hloop _ (fun im v =>
                         p <- lift (gs.index_row base_point (fst im)) ;;
                         invoke (fst im) (snd im) "to_tangent"
                                [("vector", VArray v); ("base_point", VArray p)])%M)
      as [Hout Hcalls].
    { intros im s c.
      apply (lift_invoke_callee (fst im) (snd im) "to_tangent"
               (gs.index_row base_point (fst im))
               (fun p => [("vector", VArray s); ("base_point", VArray p)])). }
    destruct (mbind_after_raise _ (fun vs => lift (ProductManifold.stack_arrays vs (-2))) Hout)
      as [Hout' Hcalls'].
    split; [exact Hout'|]. rewrite Hcalls'. exact Hcalls.
Qed.

Lemma matrix_layout_rejects_missing_rows_witness :
  gs.shape (gs.mk_array [1; 3] [0; 1; 0]%Q) = [] ++ [1; 3]
  /\ 1 < length (ProductManifold.manifolds cube_3_3_matrix)
  /\ is_ok (outcome (ProductManifold.projection cube_3_3_matrix
                       (gs.mk_array [1; 3] [0; 1; 0]%Q))) = false
  /\ map callee (calls (ProductManifold.projection cube_3_3_matrix
                          (gs.mk_array [1; 3] [0; 1; 0]%Q))) = [0].
Proof.
  assert (Hr : 1 < length (ProductManifold.manifolds cube_3_3_matrix)) by (cbn; lia).
  destruct (matrix_layout_rejects_missing_rows cube_3_3_matrix
              (gs.mk_array [1; 3] [0; 1; 0]%Q) [] 1 3 eq_refl eq_refl Hr)
    as (_ & _ & [Hout _] & _).
  split; [reflexivity|]. split; [exact Hr|]. split; [exact Hout | reflexivity].
Defined.

(** ** Sampling in a product *)

Lemma wf_rows {A} (a : gs.ndarray A) (batch : list nat) (w : nat) :
  gs.wf a -> gs.shape a = batch ++ [w] ->
  length (gs.data a) = gs.nelems batch * w.
Proof.
  intros Hwf Hshape. unfold gs.wf, gs.size in Hwf.
  rewrite Hwf, Hshape, nelems_app. unfold gs.nelems at 2. cbn [fold_right]. lia.
Qed.

Lemma length_row_of_arrays {A} (arrs : list (gs.ndarray A)) (batch : list nat) (r : nat) :
  Forall (fun a => gs.wf a /\ exists w, gs.shape a = batch ++ [w]) arrs ->
  r < gs.nelems batch ->
  length (flat_map (fun a => gs.chunk r (last (gs.shape a) 0) (gs.data a)) arrs)
  = list_sum (map (fun a => last (gs.shape a) 0) arrs).
Proof.
  intros Hall Hr. induction Hall as [|a t [Hwf [w Hshape]] _ IH]; [reflexivity|].
  cbn [flat_map map list_sum fold_right]. rewrite length_app, IH.
  f_equal. rewrite Hshape, last_app_singleton.
  apply length_chunk with (rows := gs.nelems batch); [|exact Hr].
  now apply wf_rows.
Qed.

Lemma shapes_of_wf_shapes {A} (arrs : list (gs.ndarray A)) (batch : list nat) :
  Forall (fun a => gs.wf a /\ exists w, gs.shape a = batch ++ [w]) arrs ->
  Forall (fun a => exists w, gs.shape a = batch ++ [w]) arrs.
Proof. intros H. eapply Forall_impl; [|exact H]. now intros a [_ Hs]. Qed.

(** Gluing one more array to a concatenation is the concatenation of them
    all. *)
Lemma concatenate_snoc {A} (prefix : list (gs.ndarray A)) (acc s : gs.ndarray A)
  (batch : list nat) :
  prefix <> [] ->
  Forall (fun a => gs.wf a /\ exists w, gs.shape a = batch ++ [w]) prefix ->
  (exists w, gs.shape s = batch ++ [w]) ->
  gs.concatenate prefix = Ok acc ->
  gs.concatenate [acc; s] = gs.concatenate (prefix ++ [s]).
Proof.
  intros Hne Hall Hs Hacc.
  rewrite (concatenate_uniform prefix batch Hne (shapes_of_wf_shapes _ _ Hall)) in Hacc.
  injection Hacc as <-.
  rewrite (concatenate_uniform _ batch).
  2: discriminate.
  2: { constructor; [eexists; reflexivity|]. constructor; [exact Hs | constructor]. }
  rewrite (concatenate_uniform (prefix ++ [s]) batch).
  2: { intros Hnil. apply app_eq_nil in Hnil as [_ Hnil]. discriminate. }
  2: { apply Forall_app. split; [now apply shapes_of_wf_shapes|].
       constructor; [exact Hs | constructor]. }
  cbn [map gs.shape gs.data flat_map]. rewrite last_app_singleton.
  rewrite map_app, list_sum_app. cbn [map]. f_equal. f_equal.
  apply flat_map_pointwise. intros r Hr. apply in_seq in Hr.
  rewrite flat_map_app. cbn [flat_map]. f_equal.
  rewrite chunk_flat_map.
  - rewrite nth_error_nth' with (d := 0) by (rewrite length_seq; lia).
    now rewrite seq_nth by lia.
  - intros r' Hr'. apply in_seq in Hr'.
    apply (length_row_of_arrays prefix batch r' Hall). lia.
Qed.

Lemma concatenate_single {A} (a : gs.ndarray A) (batch : list nat) (w : nat) :
  gs.wf a -> gs.shape a = batch ++ [w] -> gs.concatenate [a] = Ok a.
Proof.
  intros Hwf Hshape.
  rewrite (concatenate_uniform [a] batch).
  2: discriminate.
  2: { constructor; [now exists w | constructor]. }
  cbn [map list_sum fold_right flat_map]. rewrite Hshape, last_app_singleton.
  rewrite Nat.add_0_r. destruct a as [shp dat]. cbn [gs.shape gs.data] in *.
  rewrite <- Hshape. f_equal. f_equal.
  transitivity (flat_map (fun r => gs.chunk r w dat) (seq 0 (gs.nelems batch))).
  - apply flat_map_pointwise. intros r _. apply app_nil_r.
  - apply flat_map_chunk.
    exact (wf_rows (gs.mk_array shp dat) batch w Hwf Hshape).
Qed.

Lemma sample_factor_ok i m n_samples bound s :
  Manifold.random_point m n_samples bound = Ok s ->
  ProductManifold.sample_factor i m n_samples bound
  = ([Call i "random_point" [("n_samples", VInt n_samples); ("bound", bound)]], Ok s).
Proof.
  intros H. unfold ProductManifold.sample_factor, invoke.
  rewrite call_random_point, H. reflexivity.
Qed.

Lemma mbind_logged_lift {A B} (log : list call) (a : A) (r : A -> result B) :
  mbind (log, Ok a) (fun x => lift (r x)) = (log, r a).
Proof. unfold mbind, lift. now rewrite app_nil_r. Qed.

Lemma fold_samples (n_samples : Z) (bound : value) (batch : list nat)
  (rest : list Manifold.t) :
  forall (srest prefix : list (gs.ndarray Q)) (a : nat) (acc : gs.ndarray Q),
    Forall2 (fun m s => Manifold.random_point m n_samples bound = Ok s) rest srest ->
    Forall (fun s => gs.wf s /\ exists w, gs.shape s = batch ++ [w]) srest ->
    prefix <> [] ->
    Forall (fun s => gs.wf s /\ exists w, gs.shape s = batch ++ [w]) prefix ->
    gs.concatenate prefix = Ok acc ->
    let loop :=
      mfoldM (fun data ispace =>
                samples <- ProductManifold.sample_factor (fst ispace) (snd ispace)
                             n_samples bound ;;
                lift (gs.concatenate [data; samples]))%M
             (combine (seq a (length rest)) rest) acc in
    outcome loop = gs.concatenate (prefix ++ srest)
    /\ calls loop
       = map (fun i => Call i "random_point"
                            [("n_samples", VInt n_samples); ("bound", bound)])
             (seq a (length rest)).
Proof.
  induction rest as [|m t IH]; intros srest prefix a acc Hsamples Hwf Hne Hpre Hacc.
  - inversion Hsamples; subst. cbn. rewrite app_nil_r. split; [now symmetry | reflexivity].
  - inversion Hsamples as [|m' s t' srest' Hs Hrest]; subst.
    inversion Hwf as [|s' l' [Hswf Hsshape] Hwf']; subst.
    cbn [length seq combine mfoldM fst snd].
    rewrite (sample_factor_ok a m n_samples bound s Hs).
    assert (Hcat : gs.concatenate [acc; s] = gs.concatenate (prefix ++ [s]))
      by (apply (concatenate_snoc prefix acc s batch); assumption).
    assert (Hok : exists acc', gs.concatenate (prefix ++ [s]) = Ok acc').
    { rewrite (concatenate_uniform (prefix ++ [s]) batch); [eexists; reflexivity | |].
      - intros Hnil. apply app_eq_nil in Hnil as [_ Hnil]. discriminate.
      - apply Forall_app. split; [now apply shapes_of_wf_shapes|].
        constructor; [exact Hsshape | constructor]. }
    destruct Hok as [acc' Hacc'].
    specialize (IH srest' (prefix ++ [s]) (S a) acc' Hrest Hwf').
    destruct IH as [IHout IHcalls].
    + intros Hnil. apply app_eq_nil in Hnil as [_ Hnil]. discriminate.
    + apply Forall_app. split; [exact Hpre|]. constructor; [now split | constructor].
    + exact Hacc'.
    + rewrite mbind_logged_lift, Hcat, Hacc'. split.
      * rewrite outcome_mbind. cbn [outcome snd rbind].
        rewrite IHout. now rewrite <- app_assoc.
      * rewrite calls_mbind. cbn [outcome snd calls fst app map].
        now rewrite IHcalls.
Qed.

Lemma Forall2_nth_error_both {A B} (P : A -> B -> Prop) (l : list A) (l' : list B)
  (i : nat) (x : A) (y : B) :
  Forall2 P l l' -> nth_error l i = Some x -> nth_error l' i = Some y -> P x y.
Proof.
  intros H. revert i. induction H as [|a b t t' Hab _ IH]; intros i Hx Hy.
  - destruct i; discriminate.
  - destruct i as [|i]; cbn in Hx, Hy.
    + injection Hx as <-. injection Hy as <-. exact Hab.
    + now apply (IH i).
Qed.

(** X11. [random_point] asks every factor once, in factor order, for the
    same number of samples with the same bound.  In vector layout the
    step-by-step gluing of the factors' samples is the concatenation of all
    of them along the last axis; in matrix layout they are stacked on the
    last axis but one. *)
Theorem random_point_joins_factor_samples :
  forall self (n_samples : Z) (bound : value) (samples : list (gs.ndarray Q))
         (batch : list nat),
    Forall2 (fun m s => Manifold.random_point m n_samples bound = Ok s)
            (ProductManifold.manifolds self) samples ->
    (ProductManifold.default_point_type self = "vector" ->
     ProductManifold.manifolds self <> [] ->
     Forall (fun s => gs.wf s /\ exists w, gs.shape s = batch ++ [w]) samples ->
     outcome (ProductManifold.random_point self n_samples bound)
     = gs.concatenate samples
     /\ calls (ProductManifold.random_point self n_samples bound)
        = map (fun i => Call i "random_point"
                             [("n_samples", VInt n_samples); ("bound", bound)])
              (seq 0 (length (ProductManifold.manifolds self))))
    /\ (ProductManifold.default_point_type self = "matrix" ->
        outcome (ProductManifold.random_point self n_samples bound)
        = gs.stack samples (-2)
        /\ calls (ProductManifold.random_point self n_samples bound)
           = map (fun i => Call i "random_point"
                                [("n_samples", VInt n_samples); ("bound", bound)])
                 (seq 0 (length (ProductManifold.manifolds self)))).
Proof.
  intros self n_samples bound samples batch Hsamples. split.
  - intros Htag Hne Hwf. unfold ProductManifold.random_point. rewrite Htag.
    change (String.eqb "vector" "vector") with true. cbv iota.
    destruct (ProductManifold.manifolds self) as [|m0 rest]; [contradiction|].
    inversion Hsamples as [|m' s0 t' srest Hs0 Hrest]; subst.
    inversion Hwf as [|s' l' [Hwf0 [w0 Hshape0]] Hwf']; subst.
    rewrite (sample_factor_ok 0 m0 n_samples bound s0 Hs0).
    assert (Hcat0 : gs.concatenate [s0] = Ok s0)
      by (apply (concatenate_single s0 batch w0); assumption).
    destruct (fold_samples n_samples bound batch rest srest [s0] 1 s0 Hrest Hwf')
      as [Hout Hcalls]; [discriminate | | exact Hcat0 |].
    { constructor; [split; [exact Hwf0 | now exists w0] | constructor]. }
    destruct rest as [|m1 rest'].
    + inversion Hrest; subst. cbn [length Nat.ltb Nat.leb].
      split; [now rewrite Hcat0 | reflexivity].
    + replace (1 <? length (m0 :: m1 :: rest')) with true by reflexivity.
      split.
      * rewrite outcome_mbind. cbn [outcome snd rbind]. exact Hout.
      * rewrite calls_mbind. cbn [outcome snd calls fst].
        rewrite Hcalls. reflexivity.
  - intros Htag. unfold ProductManifold.random_point. rewrite Htag.
    change (String.eqb "matrix" "vector") with false. cbv iota.
    assert (Hloop :
              rmapM (fun ispace : nat * Manifold.t =>
                       outcome (invoke (fst ispace) (snd ispace) "random_point"
                                  [("n_samples", VInt n_samples); ("bound", bound)]))
                    (enumerate (ProductManifold.manifolds self))
              = Ok (map VArray samples)).
    { rewrite <- (rmapM_all_ok (fun s => Ok (VArray s)) VArray samples)
        by reflexivity.
      apply rmapM_pointwise2.
      - rewrite length_enumerate. now apply Forall2_length in Hsamples.
      - intros i [j m] s Hi Hs. rewrite nth_error_enumerate in Hi.
        destruct (nth_error (ProductManifold.manifolds self) i) as [m'|] eqn:Hm;
          [|discriminate].
        injection Hi as <- <-. unfold invoke. cbn [outcome snd fst].
        rewrite call_random_point.
        now rewrite (Forall2_nth_error_both _ _ _ i m' s Hsamples Hm Hs). }
    split.
    + rewrite outcome_mbind, outcome_mmapM, Hloop. cbn [rbind lift outcome snd].
      unfold ProductManifold.stack_arrays. now rewrite rmapM_as_array.
    + rewrite calls_mbind, calls_mmapM, outcome_mmapM, Hloop.
      cbn [lift calls fst]. rewrite app_nil_r.
      rewrite (log_until_raise_all_ok _ _ _ Hloop).
      unfold invoke.
      cbn [calls fst Manifold.hasattr String.eqb Ascii.eqb Bool.eqb existsb orb].
      rewrite flat_map_singleton, <- map_fst_enumerate, map_map. reflexivity.
Qed.

Lemma random_point_joins_factor_samples_witness :
  let samples := [gs.mk_array [2; 2] (repeat (1 # 2)%Q 4);
                  gs.mk_array [2; 3] (repeat (1 # 2)%Q 6)] in
  Forall2 (fun m s => Manifold.random_point m 2 (VFloat 1) = Ok s)
          (ProductManifold.manifolds cube_2_3_vector) samples
  /\ Forall (fun s => gs.wf s /\ exists w, gs.shape s = [2] ++ [w]) samples
  /\ outcome (ProductManifold.random_point cube_2_3_vector 2 (VFloat 1))
     = Ok (gs.mk_array [2; 5] (repeat (1 # 2)%Q 10))
  /\ calls (ProductManifold.random_point cube_2_3_vector 2 (VFloat 1))
     = [Call 0 "random_point" [("n_samples", VInt 2); ("bound", VFloat 1)];
        Call 1 "random_point" [("n_samples", VInt 2); ("bound", VFloat 1)]].
Proof.
  intros samples.
  assert (Hsamples : Forall2 (fun m s => Manifold.random_point m 2 (VFloat 1) = Ok s)
                             (ProductManifold.manifolds cube_2_3_vector) samples)
    by (repeat constructor).
  assert (Hwf : Forall (fun s => gs.wf s /\ exists w, gs.shape s = [2] ++ [w]) samples).
  { constructor; [split; [reflexivity | now exists 2]|].
    constructor; [split; [reflexivity | now exists 3]|]. constructor. }
  assert (Hne : ProductManifold.manifolds cube_2_3_vector <> []) by discriminate.
  destruct (random_point_joins_factor_samples cube_2_3_vector 2 (VFloat 1) samples [2]
              Hsamples) as [Hvector _].
  destruct (Hvector eq_refl Hne Hwf) as [Hout Hcalls].
  split; [exact Hsamples|]. split; [exact Hwf|].
  split; [rewrite Hout; reflexivity | exact Hcalls].
Defined.

(** ** Tangent vectors on the homogeneous power *)

Lemma broadcast_data_same {A} (s : list nat) (d : list A) :
  length d = gs.nelems s -> gs.broadcast_data s s d = d.
Proof.
  revert d. induction s as [|x s IH]; intros d Hlen; [reflexivity|].
  cbn [gs.broadcast_data]. rewrite Nat.eqb_refl.
  change (gs.nelems (x :: s)) with (x * gs.nelems s) in Hlen.
  rewrite (map_ext_in _ (fun o => gs.chunk o (gs.nelems s) d)).
  - rewrite <- flat_map_concat_map. now apply flat_map_chunk.
  - intros o Ho. apply in_seq in Ho. apply IH.
    apply length_chunk with (rows := x); [exact Hlen | lia].
Qed.

Lemma broadcast_shape_rev_prefix (l t : list nat) :
  gs.broadcast_shape_rev (l ++ t) l = Ok (l ++ t).
Proof.
  induction l as [|x l IH]; cbn [app gs.broadcast_shape_rev].
  - now destruct t.
  - rewrite IH. cbn [rbind]. now rewrite Nat.eqb_refl.
Qed.

Lemma broadcast_same_shape {A B} (a : gs.ndarray A) (b : gs.ndarray B) :
  gs.shape a = gs.shape b -> gs.wf a -> gs.wf b ->
  gs.broadcast_arrays a b = Ok (a, b).
Proof.
  intros Hshape Hwa Hwb. unfold gs.broadcast_arrays, gs.broadcast_shape.
  rewrite <- Hshape.
  pose proof (broadcast_shape_rev_prefix (rev (gs.shape a)) []) as Hrev.
  rewrite app_nil_r in Hrev. rewrite Hrev. cbn [rbind]. rewrite rev_involutive.
  unfold gs.broadcast_to, gs.ndim. rewrite <- Hshape, Nat.sub_diag. cbn [repeat app].
  rewrite broadcast_data_same by exact Hwa.
  rewrite Hshape, broadcast_data_same by exact Hwb.
  destruct a, b. cbn [gs.shape gs.data] in *. now subst.
Qed.

(** One array against a batch of [k]: the single array is repeated. *)
Lemma broadcast_single {A B} (a : gs.ndarray A) (b : gs.ndarray B) (k : nat)
  (s : list nat) :
  gs.shape a = k :: s -> gs.shape b = s -> gs.wf a -> gs.wf b ->
  gs.broadcast_arrays a b
  = Ok (a, gs.mk_array (k :: s) (concat (repeat (gs.data b) k))).
Proof.
  intros Ha Hb Hwa Hwb. unfold gs.broadcast_arrays, gs.broadcast_shape.
  rewrite Ha, Hb. cbn [rev].
  rewrite broadcast_shape_rev_prefix. cbn [rbind].
  rewrite rev_app_distr, rev_involutive. cbn [rev app].
  unfold gs.broadcast_to, gs.ndim. rewrite Ha, Hb. cbn [length].
  rewrite Nat.sub_diag.
  replace (S (length s) - length s) with 1 by lia.
  cbn [repeat app]. f_equal. f_equal.
  - rewrite broadcast_data_same by (rewrite <- Ha; exact Hwa).
    destruct a. cbn [gs.shape gs.data] in *. now subst.
  - f_equal. cbn [gs.broadcast_data seq map hd concat].
    assert (Hlen : length (gs.data b) = gs.nelems s)
      by (unfold gs.wf, gs.size in Hwb; now rewrite Hwb, Hb).
    assert (Hchunk : gs.chunk 0 (gs.nelems s) (gs.data b) = gs.data b).
    { unfold gs.chunk. cbn [Nat.mul skipn]. apply firstn_all2. lia. }
    rewrite Hchunk, broadcast_data_same by exact Hlen.
    destruct (1 =? k) eqn:Ek; [|reflexivity].
    apply Nat.eqb_eq in Ek. subst k. reflexivity.
Qed.

Lemma reshape_batch_flat {A} (a : gs.ndarray A) (m : nat) (tail : list nat) :
  0 < gs.nelems tail -> gs.size a = m * gs.nelems tail ->
  gs.reshape_batch a tail = Ok (gs.mk_array (m :: tail) (gs.data a)).
Proof.
  intros Hp Hsize. unfold gs.reshape_batch. rewrite Hsize.
  replace (gs.nelems tail =? 0) with false by (symmetry; apply Nat.eqb_neq; lia).
  rewrite Nat.Div0.mod_mul, Nat.div_mul by lia. reflexivity.
Qed.

Lemma length_concat_repeat {A} (d : list A) (k : nat) :
  length (concat (repeat d k)) = k * length d.
Proof.
  induction k as [|k IH]; [reflexivity|].
  cbn [repeat concat]. rewrite length_app, IH. lia.
Qed.

(** The body of [NFoldManifold.to_tangent] once the two arguments are
    broadcast to a common shape [[k; n] ++ base_shape]. *)
Lemma nfold_to_tangent_flat self (vector base_point v b each : gs.ndarray Q) (k : nat) :
  0 < NFoldManifold.n_copies self ->
  0 < gs.nelems (NFoldManifold.base_shape self) ->
  gs.broadcast_arrays vector base_point = Ok (v, b) ->
  gs.size v
  = k * NFoldManifold.n_copies self * gs.nelems (NFoldManifold.base_shape self) ->
  gs.size b = gs.size v ->
  Manifold.to_tangent (NFoldManifold.base_manifold self)
    (gs.mk_array ([k * NFoldManifold.n_copies self] ++ NFoldManifold.base_shape self)
                 (gs.data v))
    (gs.mk_array ([k * NFoldManifold.n_copies self] ++ NFoldManifold.base_shape self)
                 (gs.data b))
  = Ok each ->
  gs.size each = gs.size v ->
  NFoldManifold.to_tangent self vector base_point
  = ([Call 0 "to_tangent"
        [("vector",
          VArray (gs.mk_array ([k * NFoldManifold.n_copies self]
                                 ++ NFoldManifold.base_shape self) (gs.data v)));
         ("base_point",
          VArray (gs.mk_array ([k * NFoldManifold.n_copies self]
                                 ++ NFoldManifold.base_shape self) (gs.data b)))]],
     Ok (gs.squeeze
           (gs.mk_array ([k; NFoldManifold.n_copies self] ++ NFoldManifold.base_shape self)
                        (gs.data each)))).
Proof.
  intros Hn Hp Hbroad Hv Hb Hcall Heach.
  unfold NFoldManifold.to_tangent.
  set (n := NFoldManifold.n_copies self) in *.
  set (bs := NFoldManifold.base_shape self) in *.
  rewrite Hbroad, mbind_lift_ok. cbn [fst snd].
  rewrite (reshape_batch_flat b (k * n) bs Hp) by (rewrite Hb, Hv; reflexivity).
  rewrite mbind_lift_ok.
  rewrite (reshape_batch_flat v (k * n) bs Hp) by (rewrite Hv; reflexivity).
  rewrite mbind_lift_ok. unfold invoke.
  rewrite call_to_tangent_pos. cbn [app] in Hcall. rewrite Hcall.
  cbn [rbind mbind as_array lift app].
  assert (Hnp : gs.nelems (n :: bs) = n * gs.nelems bs) by reflexivity.
  rewrite (reshape_batch_flat each k (n :: bs)).
  - reflexivity.
  - rewrite Hnp. nia.
  - rewrite Heach, Hv, Hnp. lia.
Qed.

(** X12. [NFoldManifold.to_tangent] makes one call into the base space,
    with a batch of [k] composite vectors flattened to [k * n] base vectors.
    Base points given one per vector are flattened the same way; a single
    composite base point is repeated [k] times, once per vector.  The result
    is the base result cut back into [k] composites of [n] copies, with axes
    of length one removed. *)
Theorem nfold_to_tangent_flattens_and_repeats :
  forall self (vector base_point each : gs.ndarray Q) (k : nat),
    0 < NFoldManifold.n_copies self ->
    0 < gs.nelems (NFoldManifold.base_shape self) ->
    gs.wf vector -> gs.wf base_point ->
    gs.shape vector
    = [k; NFoldManifold.n_copies self] ++ NFoldManifold.base_shape self ->
    gs.size each = gs.size vector ->
    let flat := fun d : list Q =>
      gs.mk_array ([k * NFoldManifold.n_copies self] ++ NFoldManifold.base_shape self) d in
    let answer :=
      Ok (gs.squeeze
            (gs.mk_array ([k; NFoldManifold.n_copies self] ++ NFoldManifold.base_shape self)
                         (gs.data each))) in
    (gs.shape base_point = gs.shape vector ->
     Manifold.to_tangent (NFoldManifold.base_manifold self)
       (flat (gs.data vector)) (flat (gs.data base_point)) = Ok each ->
     NFoldManifold.to_tangent self vector base_point
     = ([Call 0 "to_tangent"
           [("vector", VArray (flat (gs.data vector)));
            ("base_point", VArray (flat (gs.data base_point)))]],
        answer))
    /\ (gs.shape base_point
        = [NFoldManifold.n_copies self] ++ NFoldManifold.base_shape self ->
        Manifold.to_tangent (NFoldManifold.base_manifold self)
          (flat (gs.data vector)) (flat (concat (repeat (gs.data base_point) k)))
        = Ok each ->
        NFoldManifold.to_tangent self vector base_point
        = ([Call 0 "to_tangent"
              [("vector", VArray (flat (gs.data vector)));
               ("base_point",
                VArray (flat (concat (repeat (gs.data base_point) k))))]],
           answer)).
Proof.
  intros self vector base_point each k Hn Hp Hwv Hwb Hshape Heach flat answer.
  assert (Hsize : gs.size vector
                  = k * NFoldManifold.n_copies self
                    * gs.nelems (NFoldManifold.base_shape self)).
  { unfold gs.size. rewrite Hshape. cbn [app].
    change (gs.nelems (k :: NFoldManifold.n_copies self :: NFoldManifold.base_shape self))
      with (k * (NFoldManifold.n_copies self
                 * gs.nelems (NFoldManifold.base_shape self))).
    lia. }
  split.
  - intros Hsame Hcall.
    apply (nfold_to_tangent_flat self vector base_point vector base_point each k
             Hn Hp); try assumption.
    + apply broadcast_same_shape; [now symmetry | exact Hwv | exact Hwb].
    + unfold gs.size. now rewrite Hsame.
  - intros Hsingle Hcall.
    apply (nfold_to_tangent_flat self vector base_point vector
             (gs.mk_array (k :: NFoldManifold.n_copies self :: NFoldManifold.base_shape self)
                          (concat (repeat (gs.data base_point) k)))
             each k Hn Hp); try assumption.
    + apply broadcast_single; assumption.
    + unfold gs.size. cbn [gs.shape]. now rewrite Hshape.
Qed.

Lemma nfold_to_tangent_flattens_and_repeats_witness :
  let base_point := gs.mk_array [2; 3] [0; 1; 0; 1; 0; 1]%Q in
  0 < NFoldManifold.n_copies (cube_power 3 2)
  /\ 0 < gs.nelems (NFoldManifold.base_shape (cube_power 3 2))
  /\ gs.wf batch_2x2x3 /\ gs.wf base_point
  /\ gs.shape batch_2x2x3
     = [2; NFoldManifold.n_copies (cube_power 3 2)]
       ++ NFoldManifold.base_shape (cube_power 3 2)
  /\ gs.shape base_point
     = [NFoldManifold.n_copies (cube_power 3 2)]
       ++ NFoldManifold.base_shape (cube_power 3 2)
  /\ NFoldManifold.to_tangent (cube_power 3 2) batch_2x2x3 base_point
     = ([Call 0 "to_tangent"
           [("vector", VArray (gs.mk_array [4; 3] (gs.data batch_2x2x3)));
            ("base_point",
             VArray (gs.mk_array [4; 3] [0; 1; 0; 1; 0; 1; 0; 1; 0; 1; 0; 1]%Q))]],
        Ok batch_2x2x3).
Proof.
  intros base_point.
  assert (Hn : 0 < NFoldManifold.n_copies (cube_power 3 2)) by (repeat constructor).
  assert (Hp : 0 < gs.nelems (NFoldManifold.base_shape (cube_power 3 2)))
    by (repeat constructor).
  assert (Hwv : gs.wf batch_2x2x3) by reflexivity.
  assert (Hwb : gs.wf base_point) by reflexivity.
  split; [exact Hn|]. split; [exact Hp|]. split; [exact Hwv|]. split; [exact Hwb|].
  split; [reflexivity|]. split; [reflexivity|].
  exact (proj2 (nfold_to_tangent_flattens_and_repeats (cube_power 3 2) batch_2x2x3
                  base_point (gs.mk_array [4; 3] (gs.data batch_2x2x3)) 2
                  Hn Hp Hwv Hwb eq_refl eq_refl)
           eq_refl eq_refl).
Defined.

(** ** Axes of length one *)

Lemma mbind_outcome_inv {A B} (m : M A) (f : A -> M B) (r : B) :
  outcome (mbind m f) = Ok r -> exists a, outcome m = Ok a /\ outcome (f a) = Ok r.
Proof.
  rewrite outcome_mbind. destruct (outcome m) as [a|e]; [|discriminate].
  intros H. now exists a.
Qed.

Lemma squeeze_no_unit_axis {A} (a : gs.ndarray A) : ~ In 1 (gs.shape (gs.squeeze a)).
Proof.
  unfold gs.squeeze. cbn [gs.shape]. intros H.
  apply filter_In in H as [_ H]. discriminate.
Qed.

(** X13. What [NFoldManifold.projection], [to_tangent] and [belongs] return
    never has an axis of length one: a batch of one point, a power with a
    single copy and a base shape with a unit axis all lose that axis, so the
    result then does not have the shape of the argument. *)
Theorem nfold_results_have_no_unit_axis :
  forall self,
    (forall point r,
        outcome (NFoldManifold.projection self point) = Ok r -> ~ In 1 (gs.shape r))
    /\ (forall vector base_point r,
           outcome (NFoldManifold.to_tangent self vector base_point) = Ok r ->
           ~ In 1 (gs.shape r))
    /\ (forall point atol r,
           outcome (NFoldManifold.belongs self point atol) = Ok r ->
           ~ In 1 (gs.shape r)).
Proof.
  intros self. split; [|split].
  - intros point r H. unfold NFoldManifold.projection in H.
    destruct (Manifold.has_projection (NFoldManifold.base_manifold self));
      [|discriminate].
    repeat (apply mbind_outcome_inv in H as (? & _ & H)).
    injection H as <-. apply squeeze_no_unit_axis.
  - intros vector base_point r H. unfold NFoldManifold.to_tangent in H.
    repeat (apply mbind_outcome_inv in H as (? & _ & H)).
    injection H as <-. apply squeeze_no_unit_axis.
  - intros point atol r H. unfold NFoldManifold.belongs in H.
    repeat (apply mbind_outcome_inv in H as (? & _ & H)).
    injection H as <-. apply squeeze_no_unit_axis.
Qed.

Lemma nfold_results_have_no_unit_axis_witness :
  outcome (NFoldManifold.projection (cube_power 3 1)
             (gs.mk_array [1; 3] [0; 2; 1]%Q))
  = Ok (gs.mk_array [3] [0; 1; 1]%Q)
  /\ ~ In 1 (gs.shape (gs.mk_array [3] [0; 1; 1]%Q)).
Proof.
  split; [reflexivity|].
  exact (proj1 (nfold_results_have_no_unit_axis (cube_power 3 1))
           (gs.mk_array [1; 3] [0; 2; 1]%Q) (gs.mk_array [3] [0; 1; 1]%Q) eq_refl).
Defined.

(** ** [is_tangent] on the homogeneous power *)

(** X14. [NFoldManifold.is_tangent] on [k] composite vectors with one base
    point each makes one call into the base space, on [k * n] base vectors
    and base points and without a tolerance; composite vector [b] is tangent
    when each of its [n] copies is.  The answer always has one axis of
    length [k]: it is not squeezed, so for a single composite vector it has
    shape [[1]]. *)
Theorem nfold_is_tangent_all_copies :
  forall self (vector base_point : gs.ndarray Q) atol (k : nat) each,
    0 < NFoldManifold.n_copies self ->
    0 < gs.nelems (NFoldManifold.base_shape self) ->
    gs.wf vector -> gs.wf base_point ->
    gs.shape base_point = gs.shape vector ->
    gs.size vector
    = k * NFoldManifold.n_copies self * gs.nelems (NFoldManifold.base_shape self) ->
    Manifold.is_tangent (NFoldManifold.base_manifold self)
      (gs.mk_array ([k * NFoldManifold.n_copies self] ++ NFoldManifold.base_shape self)
                   (gs.data vector))
      (gs.mk_array ([k * NFoldManifold.n_copies self] ++ NFoldManifold.base_shape self)
                   (gs.data base_point))
      None = Ok each ->
    gs.shape each = [k * NFoldManifold.n_copies self] ->
    NFoldManifold.is_tangent self vector base_point atol
    = ([Call 0 "is_tangent"
          [("vector",
            VArray (gs.mk_array ([k * NFoldManifold.n_copies self]
                                   ++ NFoldManifold.base_shape self) (gs.data vector)));
           ("base_point",
            VArray (gs.mk_array ([k * NFoldManifold.n_copies self]
                                   ++ NFoldManifold.base_shape self)
                                (gs.data base_point)))]],
       Ok (gs.mk_array [k]
             (map (fun b =>
                     forallb (fun j =>
                                nth (b * NFoldManifold.n_copies self + j)
                                    (gs.data each) true)
                             (seq 0 (NFoldManifold.n_copies self)))
                  (seq 0 k)))).
Proof.
  intros self vector base_point atol k each Hn Hp Hwv Hwb Hsame Hsize Hcall Hshape.
  unfold NFoldManifold.is_tangent.
  set (n := NFoldManifold.n_copies self) in *.
  set (bs := NFoldManifold.base_shape self) in *.
  rewrite (broadcast_same_shape vector base_point) by (auto; now symmetry).
  rewrite mbind_lift_ok. cbn [fst snd].
  rewrite (reshape_batch_flat base_point (k * n) bs Hp)
    by (unfold gs.size; rewrite Hsame; exact Hsize).
  rewrite mbind_lift_ok.
  rewrite (reshape_batch_flat vector (k * n) bs Hp) by exact Hsize.
  rewrite mbind_lift_ok. unfold invoke.
  rewrite call_is_tangent_no_atol. cbn [app] in Hcall. rewrite Hcall.
  cbn [rbind mbind as_bools lift app].
  rewrite (reshape_batch_flat each k [n]).
  - rewrite all_axis_1_of_2. reflexivity.
  - cbn [gs.nelems fold_right]. lia.
  - unfold gs.size. rewrite Hshape. cbn [gs.nelems fold_right]. lia.
Qed.

Lemma nfold_is_tangent_all_copies_witness :
  let each := gs.mk_array [2] [true; true] in
  0 < NFoldManifold.n_copies (cube_power 3 2)
  /\ 0 < gs.nelems (NFoldManifold.base_shape (cube_power 3 2))
  /\ gs.wf point_2x3
  /\ gs.size point_2x3
     = 1 * NFoldManifold.n_copies (cube_power 3 2)
       * gs.nelems (NFoldManifold.base_shape (cube_power 3 2))
  /\ Manifold.is_tangent (unit_cube 3) (gs.mk_array [2; 3] (gs.data point_2x3))
       (gs.mk_array [2; 3] (gs.data point_2x3)) None = Ok each
  /\ outcome (NFoldManifold.is_tangent (cube_power 3 2) point_2x3 point_2x3 atol_default)
     = Ok (gs.mk_array [1] [true]).
Proof.
  intros each.
  assert (Hn : 0 < NFoldManifold.n_copies (cube_power 3 2)) by (repeat constructor).
  assert (Hp : 0 < gs.nelems (NFoldManifold.base_shape (cube_power 3 2)))
    by (repeat constructor).
  assert (Hwf : gs.wf point_2x3) by reflexivity.
  split; [exact Hn|]. split; [exact Hp|]. split; [exact Hwf|].
  split; [reflexivity|]. split; [reflexivity|].
  rewrite (nfold_is_tangent_all_copies (cube_power 3 2) point_2x3 point_2x3
             atol_default 1 each Hn Hp Hwf Hwf eq_refl eq_refl eq_refl eq_refl).
  reflexivity.
Defined.

(** ** What is glued is cut back at the same places *)

Lemma flat_map_nil {A B} (l : list A) : flat_map (fun _ => @nil B) l = [].
Proof. induction l as [|x t IH]; [reflexivity | exact IH]. Qed.

Lemma slice_middle {A} (pre blk rest : list A) :
  gs.slice (length pre) (length pre + length blk) (pre ++ blk ++ rest) = blk.
Proof.
  unfold gs.slice.
  replace (length pre + length blk - length pre) with (length blk) by lia.
  rewrite skipn_app, skipn_all, Nat.sub_diag. cbn [app skipn].
  rewrite firstn_app, firstn_all, Nat.sub_diag. cbn [firstn]. apply app_nil_r.
Qed.

Lemma wf_last_axis {A} (a : gs.ndarray A) (batch : list nat) :
  gs.wf a /\ (exists w, gs.shape a = batch ++ [w]) ->
  gs.shape a = batch ++ [last (gs.shape a) 0]
  /\ length (gs.data a) = gs.nelems batch * last (gs.shape a) 0.
Proof.
  intros [Hwf [w Hshape]]. rewrite Hshape, last_app_singleton.
  split; [reflexivity | now apply wf_rows].
Qed.

(** Cutting rows that start with [pre r] and go on with the rows of [outs]
    at the running sums of the widths of [outs] gives [outs] back. *)
Lemma sections_of_glued {A} (batch : list nat) (W : nat) :
  forall (outs : list (gs.ndarray A)) (pre : nat -> list A) (acc : nat),
    Forall (fun a => gs.wf a /\ exists w, gs.shape a = batch ++ [w]) outs ->
    (forall r, r < gs.nelems batch -> length (pre r) = acc) ->
    W = acc + list_sum (map (fun a => last (gs.shape a) 0) outs) ->
    map (fun se =>
           gs.mk_array (batch ++ [Nat.min (snd se) W - fst se])
             (flat_map (fun r =>
                          gs.slice (fst se) (snd se)
                            (pre r ++ flat_map (fun a => gs.chunk r (last (gs.shape a) 0)
                                                           (gs.data a)) outs))
                       (seq 0 (gs.nelems batch))))
        (gs.sections acc (gs.cumsum_from acc (map (fun a => last (gs.shape a) 0) outs)))
    = outs.
Proof.
  induction outs as [|a t IH]; intros pre acc Hall Hpre HW; [reflexivity|].
  inversion Hall as [|a' t' Ha Ht]; subst a' t'.
  destruct (wf_last_axis a batch Ha) as [Hshape Hlen].
  set (w := last (gs.shape a) 0) in *.
  cbn [map gs.cumsum_from gs.sections fst snd]. fold w.
  cbn [map list_sum fold_right] in HW. fold w in HW.
  f_equal.
  - rewrite Nat.min_l by (unfold list_sum in HW; lia).
    replace (acc + w - acc) with w by lia.
    destruct a as [shp dat]. cbn [gs.shape gs.data] in *.
    rewrite <- Hshape. f_equal.
    transitivity (flat_map (fun r => gs.chunk r w dat) (seq 0 (gs.nelems batch)));
      [|now apply flat_map_chunk].
    apply flat_map_pointwise. intros r Hr. apply in_seq in Hr.
    cbn [flat_map gs.shape gs.data]. fold w.
    assert (Hblk : length (gs.chunk r w dat) = w)
      by (apply length_chunk with (rows := gs.nelems batch); [exact Hlen | lia]).
    rewrite <- (Hpre r) by lia.
    pose proof (slice_middle (pre r) (gs.chunk r w dat)
                  (flat_map (fun a => gs.chunk r (last (gs.shape a) 0) (gs.data a)) t))
      as Hs.
    rewrite Hblk in Hs. exact Hs.
  - rewrite <- (IH (fun r => pre r ++ gs.chunk r w (gs.data a)) (acc + w) Ht) at 2.
    + apply map_ext. intros se. f_equal.
      apply flat_map_pointwise. intros r _. cbn [flat_map]. fold w.
      now rewrite app_assoc.
    + intros r Hr. rewrite length_app, (Hpre r Hr). f_equal.
      apply length_chunk with (rows := gs.nelems batch); [exact Hlen | exact Hr].
    + unfold list_sum in *. lia.
Qed.

Lemma split_of_glued {A} (outs : list (gs.ndarray A)) (batch dims : list nat)
  (intrinsic : bool) (c : gs.ndarray A) :
  outs <> [] ->
  Forall (fun a => gs.wf a /\ exists w, gs.shape a = batch ++ [w]) outs ->
  map (fun a => last (gs.shape a) 0) outs
  = (if intrinsic then dims else map (fun k => k + 1) dims) ->
  gs.concatenate outs = Ok c ->
  gs.split c (ProductManifold.cum_index dims intrinsic)
  = Ok (if intrinsic then outs else outs ++ [gs.mk_array (batch ++ [0]) []]).
Proof.
  intros Hne Hall Hws Hcat.
  rewrite (concatenate_uniform outs batch Hne (shapes_of_wf_shapes _ _ Hall)) in Hcat.
  injection Hcat as <-.
  set (ws := map (fun a => last (gs.shape a) 0) outs) in *.
  set (W := list_sum ws).
  set (D := flat_map (fun r => flat_map (fun a => gs.chunk r (last (gs.shape a) 0)
                                                    (gs.data a)) outs)
                     (seq 0 (gs.nelems batch))).
  rewrite (split_sections (gs.mk_array (batch ++ [W]) D) batch W _ eq_refl).
  cbn [gs.data].
  assert (Hrows : forall se : nat * nat,
             gs.mk_array (batch ++ [Nat.min (snd se) W - fst se])
               (flat_map (fun r => gs.slice (fst se) (snd se) (gs.chunk r W D))
                         (seq 0 (gs.nelems batch)))
             = gs.mk_array (batch ++ [Nat.min (snd se) W - fst se])
                 (flat_map (fun r =>
                              gs.slice (fst se) (snd se)
                                ([] ++ flat_map (fun a => gs.chunk r (last (gs.shape a) 0)
                                                            (gs.data a)) outs))
                           (seq 0 (gs.nelems batch)))).
  { intros se. f_equal. apply flat_map_pointwise. intros r Hr. apply in_seq in Hr.
    cbn [app]. f_equal. unfold D. rewrite chunk_flat_map.
    - rewrite nth_error_nth' with (d := 0) by (rewrite length_seq; lia).
      now rewrite seq_nth by lia.
    - intros r' Hr'. apply in_seq in Hr'.
      apply (length_row_of_arrays outs batch r' Hall). lia. }
  rewrite (map_ext _ _ Hrows).
  assert (Hglued := sections_of_glued batch W outs (fun _ => []) 0 Hall
                      (fun _ _ => eq_refl) eq_refl).
  fold ws in Hglued. fold (gs.cumsum ws) in Hglued.
  assert (Hwsne : ws <> [])
    by (unfold ws; destruct outs; [contradiction | discriminate]).
  unfold ProductManifold.cum_index.
  destruct intrinsic; rewrite <- Hws; f_equal.
  - assert (Hsecs : removelast (gs.cumsum ws) ++ [W] = gs.cumsum ws).
    { replace W with (last (gs.cumsum ws) 0)
        by (unfold gs.cumsum; now rewrite cumsum_from_last).
      symmetry. apply app_removelast_last.
      destruct ws; [contradiction | discriminate]. }
    rewrite Hsecs. exact Hglued.
  - rewrite sections_app, map_app, Hglued. f_equal.
    cbn [map fst snd]. unfold gs.cumsum. rewrite cumsum_from_last. cbn [Nat.add].
    fold W. rewrite Nat.min_id, Nat.sub_diag. f_equal. f_equal.
    rewrite <- (flat_map_nil (seq 0 (gs.nelems batch))).
    apply flat_map_pointwise. intros r _. unfold gs.slice.
    now rewrite Nat.sub_diag.
Qed.

Lemma glued_piece {A} (outs : list (gs.ndarray A)) (e d : gs.ndarray A)
  (intrinsic : bool) (i : nat) :
  i < length outs ->
  nth_error (if intrinsic then outs else outs ++ [e]) i = Some (nth i outs d).
Proof.
  intros Hi. destruct intrinsic.
  - now apply nth_error_nth_lt.
  - rewrite nth_error_app1 by exact Hi. now apply nth_error_nth_lt.
Qed.

(** The slice a factor is handed out of a glued result is what that factor
    contributed to it. *)
Lemma factor_slice_of_glued self (outs : list (gs.ndarray Q)) (batch : list nat)
  (intrinsic : bool) (glued d : gs.ndarray Q) (i : nat) :
  ProductManifold.default_point_type self = "vector" ->
  outs <> [] ->
  Forall (fun a => gs.wf a /\ exists w, gs.shape a = batch ++ [w]) outs ->
  map (fun a => last (gs.shape a) 0) outs
  = (if intrinsic then ProductManifold.dims self
     else map (fun k => k + 1) (ProductManifold.dims self)) ->
  gs.concatenate outs = Ok glued ->
  is_intrinsic (ProductManifold.metric self) glued = Ok intrinsic ->
  i < length outs ->
  factor_slice self glued glued i = Ok (nth i outs d).
Proof.
  intros Htag Hne Hall Hws Hcat Hintr Hi. unfold factor_slice. rewrite Htag.
  change (String.eqb "vector" "vector") with true. cbv iota.
  rewrite Hintr. cbn [rbind].
  rewrite (split_of_glued outs batch _ intrinsic glued Hne Hall Hws Hcat).
  cbn [rbind]. now rewrite (glued_piece outs _ d intrinsic i Hi).
Qed.

(** X15. Vector layout: what [projection] returns is accepted by [belongs]
    as soon as every factor accepts its own projected piece.  The projected
    pieces, glued by [projection], are cut by [belongs] at the same places,
    in intrinsic as in extrinsic coordinates, so each factor checks what it
    produced itself. *)
Theorem projected_point_belongs :
  forall self (point : gs.ndarray Q) (tol : Q) (batch : list nat) (intrinsic : bool)
         (pieces outs : list (gs.ndarray Q)) (answers : list (gs.ndarray bool)),
    ProductManifold.default_point_type self = "vector" ->
    ProductManifold.manifolds self <> [] ->
    length (ProductManifold.dims self) = length (ProductManifold.manifolds self) ->
    is_intrinsic (ProductManifold.metric self) point = Ok intrinsic ->
    gs.split point (ProductManifold.cum_index (ProductManifold.dims self) intrinsic)
    = Ok pieces ->
    rmapM (fun im => factor_projection (snd im) (nth (fst im) pieces point))
          (enumerate (ProductManifold.manifolds self)) = Ok outs ->
    Forall (fun a => gs.wf a /\ exists w, gs.shape a = batch ++ [w]) outs ->
    map (fun a => last (gs.shape a) 0) outs
    = (if intrinsic then ProductManifold.dims self
       else map (fun k => k + 1) (ProductManifold.dims self)) ->
    (forall projected,
        gs.concatenate outs = Ok projected ->
        is_intrinsic (ProductManifold.metric self) projected = Ok intrinsic) ->
    rmapM (fun im => Manifold.belongs (snd im) (nth (fst im) outs point)
                       (Some (VFloat tol)))
          (enumerate (ProductManifold.manifolds self)) = Ok answers ->
    Forall (fun ans => gs.shape ans = batch /\ gs.wf ans
                       /\ forall b, b < gs.nelems batch ->
                                    nth b (gs.data ans) false = true) answers ->
    exists projected r,
      outcome (ProductManifold.projection self point) = Ok projected
      /\ gs.concatenate outs = Ok projected
      /\ outcome (ProductManifold.belongs self projected (VFloat tol)) = Ok r
      /\ gs.shape r = batch
      /\ forall b, b < gs.nelems batch -> nth b (gs.data r) false = true.
Proof.
  intros self point tol batch intrinsic pieces outs answers
         Htag Hne Hlen Hintr Hsplit Houts Hall Hws Hstable Hans Htrue.
  assert (Hn : length outs = length (ProductManifold.manifolds self))
    by (rewrite (rmapM_length _ _ _ Houts); apply length_enumerate).
  assert (Houtsne : outs <> []).
  { intros Hnil. rewrite Hnil in Hn. destruct (ProductManifold.manifolds self);
      [contradiction | discriminate]. }
  destruct (gs.concatenate outs) as [projected|e] eqn:Hcat.
  2: { rewrite (concatenate_uniform outs batch Houtsne (shapes_of_wf_shapes _ _ Hall))
         in Hcat. discriminate. }
  specialize (Hstable projected eq_refl).
  assert (Hproj : outcome (ProductManifold.projection self point) = Ok projected).
  { unfold ProductManifold.projection. rewrite Htag.
    change (String.eqb "vector" "vector") with true. cbv iota.
    rewrite Hintr, mbind_lift_ok, outcome_mbind. cbn [lift outcome snd].
    rewrite (vector_op_outcome self "projection" point intrinsic pieces
               factor_projection call_projection_any Hlen Hsplit).
    rewrite Houts. cbn [rbind]. exact Hcat. }
  assert (Hfb : factor_belongs self projected (VFloat tol) = Ok answers).
  { unfold factor_belongs. rewrite <- Hans. apply rmapM_ext_in.
    intros [i m] Hin. apply In_enumerate in Hin. cbn [fst snd].
    rewrite (factor_slice_of_glued self outs batch intrinsic projected point i
               Htag Houtsne Hall Hws Hcat Hstable); [reflexivity|].
    rewrite Hn. apply nth_error_Some. congruence. }
  assert (Hansne : answers <> []).
  { intros Hnil. apply rmapM_length in Hans. rewrite Hnil, length_enumerate in Hans.
    destruct (ProductManifold.manifolds self); [contradiction | discriminate]. }
  destruct (all_stack_m1_spec answers batch Hansne) as (r & Hr & Hshape & Hall_r).
  { eapply Forall_impl; [|exact Htrue]. intros a (Hs & Hw & _). now split. }
  exists projected, r. split; [exact Hproj|]. split; [reflexivity|].
  split; [|split; [exact Hshape|]].
  - rewrite (belongs_factor_results self tol projected answers Hfb Hansne). exact Hr.
  - intros b Hb. apply Hall_r; [exact Hb|].
    eapply Forall_impl; [|exact Htrue]. intros a (_ & _ & Ha). now apply Ha.
Qed.

Lemma projected_point_belongs_witness :
  let pieces := [gs.mk_array [2; 2] [0; 1; 0; 0]%Q;
                 gs.mk_array [2; 3] [0; 1; 0; 2; 0; 0]%Q] in
  let outs := [gs.mk_array [2; 2] [0; 1; 0; 0]%Q;
               gs.mk_array [2; 3] [0; 1; 0; 1; 0; 0]%Q] in
  let answers := [gs.mk_array [2] [true; true]; gs.mk_array [2] [true; true]] in
  is_intrinsic (ProductManifold.metric cube_2_3_vector) batch_2x5 = Ok true
  /\ gs.split batch_2x5
       (ProductManifold.cum_index (ProductManifold.dims cube_2_3_vector) true)
     = Ok pieces
  /\ rmapM (fun im => factor_projection (snd im) (nth (fst im) pieces batch_2x5))
           (enumerate (ProductManifold.manifolds cube_2_3_vector)) = Ok outs
  /\ rmapM (fun im => Manifold.belongs (snd im) (nth (fst im) outs batch_2x5)
                        (Some (VFloat (1 # 1000000000000))))
           (enumerate (ProductManifold.manifolds cube_2_3_vector)) = Ok answers
  /\ exists projected r,
      outcome (ProductManifold.projection cube_2_3_vector batch_2x5) = Ok projected
      /\ gs.concatenate outs = Ok projected
      /\ outcome (ProductManifold.belongs cube_2_3_vector projected
                    (VFloat (1 # 1000000000000))) = Ok r
      /\ gs.shape r = [2]
      /\ forall b, b < gs.nelems [2] -> nth b (gs.data r) false = true.
Proof.
  intros pieces outs answers.
  split; [reflexivity|]. split; [reflexivity|]. split; [reflexivity|].
  split; [reflexivity|].
  apply (projected_point_belongs cube_2_3_vector batch_2x5 (1 # 1000000000000) [2] true
           pieces outs answers).
  - reflexivity.
  - discriminate.
  - reflexivity.
  - reflexivity.
  - reflexivity.
  - reflexivity.
  - constructor; [split; [reflexivity | now exists 2]|].
    constructor; [split; [reflexivity | now exists 3]|]. constructor.
  - reflexivity.
  - intros projected H. vm_compute in H. injection H as <-. reflexivity.
  - reflexivity.
  - assert (Hans : forall ans, ans = gs.mk_array [2] [true; true] ->
                      gs.shape ans = [2] /\ gs.wf ans
                      /\ forall b, b < gs.nelems [2] -> nth b (gs.data ans) false = true).
    { intros ans ->. split; [reflexivity|]. split; [reflexivity|].
      intros [|[|b]] Hb; [reflexivity | reflexivity | cbn in Hb; lia]. }
    constructor; [now apply Hans|]. constructor; [now apply Hans | constructor].
Defined.

Lemma nth_glued {A} (outs : list (gs.ndarray A)) (e d d' : gs.ndarray A)
  (intrinsic : bool) (i : nat) :
  i < length outs ->
  nth i (if intrinsic then outs else outs ++ [e]) d = nth i outs d'.
Proof.
  intros Hi. destruct intrinsic.
  - now apply nth_indep.
  - rewrite app_nth1 by exact Hi. now apply nth_indep.
Qed.

Lemma vector_op_twice self func (point : gs.ndarray Q) (batch : list nat)
  (intrinsic : bool) (pieces outs : list (gs.ndarray Q))
  (op : Manifold.t -> gs.ndarray Q -> result (gs.ndarray Q)) :
  (forall m x, Manifold.call_method m func [("point", VArray x)]
               = rbind (op m x) (fun r => Ok (VArray r))) ->
  ProductManifold.manifolds self <> [] ->
  length (ProductManifold.dims self) = length (ProductManifold.manifolds self) ->
  gs.split point (ProductManifold.cum_index (ProductManifold.dims self) intrinsic)
  = Ok pieces ->
  rmapM (fun im => op (snd im) (nth (fst im) pieces point))
        (enumerate (ProductManifold.manifolds self)) = Ok outs ->
  Forall (fun a => gs.wf a /\ exists w, gs.shape a = batch ++ [w]) outs ->
  map (fun a => last (gs.shape a) 0) outs
  = (if intrinsic then ProductManifold.dims self
     else map (fun k => k + 1) (ProductManifold.dims self)) ->
  (forall i m, nth_error (ProductManifold.manifolds self) i = Some m ->
               op m (nth i outs point) = Ok (nth i outs point)) ->
  exists once,
    gs.concatenate outs = Ok once
    /\ (outs1 <- outcome (ProductManifold._iterate_over_manifolds self func
                            [("point", VArray point)] intrinsic) ;;
        ProductManifold.concatenate_arrays outs1)%result = Ok once
    /\ (outs2 <- outcome (ProductManifold._iterate_over_manifolds self func
                            [("point", VArray once)] intrinsic) ;;
        ProductManifold.concatenate_arrays outs2)%result = Ok once.
Proof.
  intros Hcall Hne Hlen Hsplit Houts Hall Hws Hfix.
  assert (Hn : length outs = length (ProductManifold.manifolds self))
    by (rewrite (rmapM_length _ _ _ Houts); apply length_enumerate).
  assert (Houtsne : outs <> []).
  { intros Hnil. rewrite Hnil in Hn. destruct (ProductManifold.manifolds self);
      [contradiction | discriminate]. }
  destruct (gs.concatenate outs) as [once|e] eqn:Hcat.
  2: { rewrite (concatenate_uniform outs batch Houtsne (shapes_of_wf_shapes _ _ Hall))
         in Hcat. discriminate. }
  exists once. split; [reflexivity|]. split.
  - rewrite (vector_op_outcome self func point intrinsic pieces op Hcall Hlen Hsplit).
    rewrite Houts. exact Hcat.
  - pose proof (split_of_glued outs batch _ intrinsic once Houtsne Hall Hws Hcat)
      as Hsplit'.
    rewrite (vector_op_outcome self func once intrinsic _ op Hcall Hlen Hsplit').
    rewrite (rmapM_all_ok _ (fun im : nat * Manifold.t => nth (fst im) outs point)).
    + cbn [rbind]. rewrite map_nth_enumerate by lia.
      rewrite <- Hn, firstn_all. exact Hcat.
    + intros [i m] Hin. apply In_enumerate in Hin. cbn [fst snd].
      assert (Hi : i < length outs)
        by (rewrite Hn; apply nth_error_Some; congruence).
      rewrite (nth_glued outs _ once point intrinsic i Hi).
      now apply Hfix.
Qed.

(** X16. Vector layout: [regularize] and [projection] are idempotent as
    soon as every factor's own method, applied to the piece it returned,
    returns it unchanged: applying the composite a second time gives the
    result of the first application. *)
Theorem vector_layout_idempotent :
  forall self (point : gs.ndarray Q) (batch : list nat) (intrinsic : bool)
         (pieces outs : list (gs.ndarray Q)),
    ProductManifold.default_point_type self = "vector" ->
    ProductManifold.manifolds self <> [] ->
    length (ProductManifold.dims self) = length (ProductManifold.manifolds self) ->
    is_intrinsic (ProductManifold.metric self) point = Ok intrinsic ->
    gs.split point (ProductManifold.cum_index (ProductManifold.dims self) intrinsic)
    = Ok pieces ->
    Forall (fun a => gs.wf a /\ exists w, gs.shape a = batch ++ [w]) outs ->
    map (fun a => last (gs.shape a) 0) outs
    = (if intrinsic then ProductManifold.dims self
       else map (fun k => k + 1) (ProductManifold.dims self)) ->
    (forall once,
        gs.concatenate outs = Ok once ->
        is_intrinsic (ProductManifold.metric self) once = Ok intrinsic) ->
    (rmapM (fun im => Manifold.regularize (snd im) (nth (fst im) pieces point))
           (enumerate (ProductManifold.manifolds self)) = Ok outs ->
     (forall i m, nth_error (ProductManifold.manifolds self) i = Some m ->
                  Manifold.regularize m (nth i outs point) = Ok (nth i outs point)) ->
     exists once,
       outcome (ProductManifold.regularize self point) = Ok once
       /\ outcome (ProductManifold.regularize self once) = Ok once)
    /\ (rmapM (fun im => factor_projection (snd im) (nth (fst im) pieces point))
              (enumerate (ProductManifold.manifolds self)) = Ok outs ->
        (forall i m, nth_error (ProductManifold.manifolds self) i = Some m ->
                     factor_projection m (nth i outs point) = Ok (nth i outs point)) ->
        exists once,
          outcome (ProductManifold.projection self point) = Ok once
          /\ outcome (ProductManifold.projection self once) = Ok once).
Proof.
  intros self point batch intrinsic pieces outs
         Htag Hne Hlen Hintr Hsplit Hall Hws Hstable.
  split.
  - intros Houts Hfix.
    destruct (vector_op_twice self "regularize" point batch intrinsic pieces outs
                Manifold.regularize call_regularize Hne Hlen Hsplit Houts Hall Hws Hfix)
      as (once & Hcat & H1 & H2).
    exists once. unfold ProductManifold.regularize. rewrite Htag.
    change (String.eqb "vector" "vector") with true. cbv iota.
    rewrite Hintr, (Hstable once Hcat), !mbind_lift_ok, !outcome_mbind.
    cbn [lift outcome snd]. now split.
  - intros Houts Hfix.
    destruct (vector_op_twice self "projection" point batch intrinsic pieces outs
                factor_projection call_projection_any Hne Hlen Hsplit Houts Hall Hws Hfix)
      as (once & Hcat & H1 & H2).
    exists once. unfold ProductManifold.projection. rewrite Htag.
    change (String.eqb "vector" "vector") with true. cbv iota.
    rewrite Hintr, (Hstable once Hcat), !mbind_lift_ok, !outcome_mbind.
    cbn [lift outcome snd]. now split.
Qed.

Lemma vector_layout_idempotent_witness :
  let pieces := [gs.mk_array [2; 2] [0; 1; 0; 0]%Q;
                 gs.mk_array [2; 3] [0; 1; 0; 2; 0; 0]%Q] in
  let outs := [gs.mk_array [2; 2] [0; 1; 0; 0]%Q;
               gs.mk_array [2; 3] [0; 1; 0; 1; 0; 0]%Q] in
  is_intrinsic (ProductManifold.metric cube_2_3_vector) batch_2x5 = Ok true
  /\ gs.split batch_2x5
       (ProductManifold.cum_index (ProductManifold.dims cube_2_3_vector) true)
     = Ok pieces
  /\ rmapM (fun im => factor_projection (snd im) (nth (fst im) pieces batch_2x5))
           (enumerate (ProductManifold.manifolds cube_2_3_vector)) = Ok outs
  /\ exists once,
      outcome (ProductManifold.projection cube_2_3_vector batch_2x5) = Ok once
      /\ outcome (ProductManifold.projection cube_2_3_vector once) = Ok once.
Proof.
  intros pieces outs.
  split; [reflexivity|]. split; [reflexivity|]. split; [reflexivity|].
  assert (Hall : Forall (fun a => gs.wf a /\ exists w, gs.shape a = [2] ++ [w]) outs).
  { constructor; [split; [reflexivity | now exists 2]|].
    constructor; [split; [reflexivity | now exists 3]|]. constructor. }
  assert (Hne : ProductManifold.manifolds cube_2_3_vector <> []) by discriminate.
  assert (Hstable : forall once,
             gs.concatenate outs = Ok once ->
             is_intrinsic (ProductManifold.metric cube_2_3_vector) once = Ok true).
  { intros once H. vm_compute in H. injection H as <-. reflexivity. }
  apply (proj2 (vector_layout_idempotent cube_2_3_vector batch_2x5 [2] true pieces outs
                  eq_refl Hne eq_refl eq_refl eq_refl Hall eq_refl Hstable)).
  - reflexivity.
  - intros [|[|[|i]]] m Hm; cbn in Hm; try discriminate;
      injection Hm as <-; reflexivity.
Defined.

(** ** Matrix layout: the rows of a stacked result *)

Lemma length_stacked_row {A} (outs : list (gs.ndarray A)) (batch : list nat)
  (d o : nat) :
  Forall (fun a => gs.wf a /\ gs.shape a = batch ++ [d]) outs ->
  o < gs.nelems batch ->
  length (flat_map (fun a => gs.chunk o d (gs.data a)) outs) = length outs * d.
Proof.
  intros Hall Ho. induction Hall as [|a t [Hwf Hshape] _ IH]; [reflexivity|].
  cbn [flat_map length]. rewrite length_app, IH.
  rewrite (length_chunk (gs.data a) o d (gs.nelems batch)); [lia | | exact Ho].
  now apply wf_rows.
Qed.

(** Row [i] of the arrays stacked on the last axis but one is array [i]. *)
Lemma index_row_of_stack {A} (outs : list (gs.ndarray A)) (batch : list nat)
  (d i : nat) (stacked dflt : gs.ndarray A) :
  Forall (fun a => gs.wf a /\ gs.shape a = batch ++ [d]) outs ->
  gs.stack outs (-2) = Ok stacked ->
  i < length outs ->
  gs.index_row stacked i = Ok (nth i outs dflt).
Proof.
  intros Hall Hstack Hi.
  assert (Hne : outs <> []) by (destruct outs; [cbn in Hi; lia | discriminate]).
  rewrite (stack_m2 outs batch d Hne) in Hstack
    by (eapply Forall_impl; [|exact Hall]; now intros a [_ H]).
  injection Hstack as <-.
  set (D := flat_map (fun o => flat_map (fun a => gs.chunk o d (gs.data a)) outs)
                     (seq 0 (gs.nelems batch))).
  rewrite (index_row_rows (gs.mk_array (batch ++ [length outs; d]) D) batch
             (length outs) d i eq_refl Hi).
  cbn [gs.data]. subst D.
  assert (Hin : In (nth i outs dflt) outs) by now apply nth_In.
  rewrite Forall_forall in Hall. destruct (Hall _ Hin) as [Hwf Hshape].
  destruct (nth i outs dflt) as [shp dat] eqn:Hnth. cbn [gs.shape gs.data] in *.
  rewrite <- Hshape. f_equal. f_equal.
  transitivity (flat_map (fun o => gs.chunk o d dat) (seq 0 (gs.nelems batch))).
  - apply flat_map_pointwise. intros o Ho. apply in_seq in Ho.
    rewrite chunk_of_chunk by exact Hi.
    rewrite chunk_flat_map.
    + rewrite nth_error_nth' with (d := 0) by (rewrite length_seq; lia).
      rewrite seq_nth by lia. cbn [Nat.add].
      rewrite chunk_flat_map.
      * rewrite (nth_error_nth_lt outs i dflt Hi), Hnth. reflexivity.
      * intros a Ha. destruct (Hall a Ha) as [Hwa Hsa].
        apply length_chunk with (rows := gs.nelems batch);
          [now apply wf_rows | lia].
    + intros o' Ho'. apply in_seq in Ho'.
      apply (length_stacked_row outs batch d o'); [|lia].
      apply Forall_forall. exact Hall.
  - apply flat_map_chunk.
    exact (wf_rows (gs.mk_array shp dat) batch d Hwf Hshape).
Qed.

Lemma matrix_projection_outcome self :
  ProductManifold.default_point_type self = "matrix" ->
  forall x,
    outcome (ProductManifold.projection self x)
    = (rows <- rmapM (fun im => (row <- gs.index_row x (fst im) ;;
                                 factor_projection (snd im) row)%result)
                     (enumerate (ProductManifold.manifolds self)) ;;
       gs.stack rows (-2))%result.
Proof.
  intros Htag x. unfold ProductManifold.projection. rewrite Htag.
  change (String.eqb "matrix" "vector") with false.
  change (String.eqb "matrix" "matrix") with true. cbv iota.
  rewrite outcome_mbind, outcome_mmapM. cbn [lift outcome snd].
  rewrite (rmapM_ext_in _
             (fun im => rbind (rbind (gs.index_row x (fst im))
                                     (factor_projection (snd im)))
                              (fun r => Ok (VArray r)))).
  - rewrite rmapM_post.
    destruct (rmapM _ (enumerate (ProductManifold.manifolds self))) as [rows|e];
      [|reflexivity].
    cbn [rbind]. unfold ProductManifold.stack_arrays. now rewrite rmapM_as_array.
  - intros [i m] _. cbn [fst snd].
    destruct (gs.index_row x i) as [row|e]; [|reflexivity].
    rewrite mbind_lift_ok. unfold invoke. cbn [outcome snd rbind].
    apply call_projection_any.
Qed.

(** X17. Matrix layout: when the factors' projections of the rows of a
    point succeed with well-formed results of one common shape, row [i] of
    what [projection] returns is the result of factor [i], and [projection]
    is idempotent on the point as soon as every factor's projection returns
    its own result unchanged. *)
Theorem matrix_layout_projection_idempotent :
  forall self (point : gs.ndarray Q) (batch : list nat) (d : nat)
         (outs : list (gs.ndarray Q)),
    ProductManifold.default_point_type self = "matrix" ->
    ProductManifold.manifolds self <> [] ->
    rmapM (fun im => (row <- gs.index_row point (fst im) ;;
                      factor_projection (snd im) row)%result)
          (enumerate (ProductManifold.manifolds self)) = Ok outs ->
    Forall (fun a => gs.wf a /\ gs.shape a = batch ++ [d]) outs ->
    exists once,
      outcome (ProductManifold.projection self point) = Ok once
      /\ (forall i, i < length (ProductManifold.manifolds self) ->
                    gs.index_row once i = Ok (nth i outs point))
      /\ ((forall i m, nth_error (ProductManifold.manifolds self) i = Some m ->
                       factor_projection m (nth i outs point) = Ok (nth i outs point)) ->
          outcome (ProductManifold.projection self once) = Ok once).
Proof.
  intros self point batch d outs Htag Hne Houts Hall.
  assert (Hn : length outs = length (ProductManifold.manifolds self))
    by (rewrite (rmapM_length _ _ _ Houts); apply length_enumerate).
  assert (Houtsne : outs <> []).
  { intros Hnil. rewrite Hnil in Hn. destruct (ProductManifold.manifolds self);
      [contradiction | discriminate]. }
  pose proof (matrix_projection_outcome self Htag) as Hproj.
  destruct (gs.stack outs (-2)) as [once|e] eqn:Hstack.
  2: { rewrite (stack_m2 outs batch d Houtsne) in Hstack; [discriminate|].
       eapply Forall_impl; [|exact Hall]. now intros a [_ H]. }
  assert (Hrows : forall i, i < length (ProductManifold.manifolds self) ->
                            gs.index_row once i = Ok (nth i outs point)).
  { intros i Hi. apply (index_row_of_stack outs batch d i once point Hall Hstack). lia. }
  exists once. split; [|split; [exact Hrows|]].
  - rewrite Hproj, Houts. exact Hstack.
  - intros Hfix. rewrite Hproj.
    rewrite (rmapM_all_ok _ (fun im : nat * Manifold.t => nth (fst im) outs point)).
    + cbn [rbind]. rewrite map_nth_enumerate by lia.
      rewrite <- Hn, firstn_all. exact Hstack.
    + intros [i m] Hin. apply In_enumerate in Hin. cbn [fst snd].
      rewrite Hrows by (apply nth_error_Some; congruence).
      cbn [rbind]. now apply Hfix.
Qed.

Lemma matrix_layout_projection_idempotent_witness :
  let outs := [gs.mk_array [2; 3] [0; 1; 0; 0; 0; 0]%Q;
               gs.mk_array [2; 3] [1; 0; 1; 1; 1; 1]%Q] in
  rmapM (fun im => (row <- gs.index_row batch_2x2x3 (fst im) ;;
                    factor_projection (snd im) row)%result)
        (enumerate (ProductManifold.manifolds cube_3_3_matrix)) = Ok outs
  /\ exists once,
      outcome (ProductManifold.projection cube_3_3_matrix batch_2x2x3) = Ok once
      /\ (forall i, i < length (ProductManifold.manifolds cube_3_3_matrix) ->
                    gs.index_row once i = Ok (nth i outs batch_2x2x3))
      /\ outcome (ProductManifold.projection cube_3_3_matrix once) = Ok once.
Proof.
  intros outs. split; [reflexivity|].
  assert (Hne : ProductManifold.manifolds cube_3_3_matrix <> []) by discriminate.
  assert (Hall : Forall (fun a => gs.wf a /\ gs.shape a = [2] ++ [3]) outs)
    by (repeat constructor).
  destruct (matrix_layout_projection_idempotent cube_3_3_matrix batch_2x2x3 [2] 3 outs
              eq_refl Hne eq_refl Hall) as (once & Hproj & Hrows & Hidem).
  exists once. split; [exact Hproj|]. split; [exact Hrows|].
  apply Hidem.
  intros [|[|[|i]]] m Hm; cbn in Hm; try discriminate;
    injection Hm as <-; reflexivity.
Defined.

(** * The dispatcher as a loop of factor calls *)

Lemma mmapM_pointwise2 {A A' B} (f : A -> M B) (g : A' -> M B)
  (l : list A) (l' : list A') :
  length l = length l' ->
  (forall i x y, nth_error l i = Some x -> nth_error l' i = Some y -> f x = g y) ->
  mmapM f l = mmapM g l'.
Proof.
  revert l'. induction l as [|x t IH]; intros [|y t'] Hlen H; simpl in Hlen;
    try discriminate; [reflexivity|].
  cbn [mmapM]. rewrite (H 0 x y eq_refl eq_refl).
  rewrite (IH t'); [reflexivity | lia |].
  intros i x' y' Hx Hy. exact (H (S i) x' y' Hx Hy).
Qed.

Lemma mmapM_ext_in {A B} (f g : A -> M B) (l : list A) :
  (forall x, In x l -> f x = g x) -> mmapM f l = mmapM g l.
Proof.
  intros H. apply mmapM_pointwise2; [reflexivity|].
  intros i x y Hx Hy. rewrite Hx in Hy. injection Hy as <-.
  apply H. eapply nth_error_In. exact Hx.
Qed.

Lemma rmapM_all_is_ok {A B} (f : A -> result B) (l : list A) :
  (forall x, In x l -> is_ok (f x) = true) -> exists ys, rmapM f l = Ok ys.
Proof.
  induction l as [|x t IH]; intros H; [now exists []|].
  cbn [rmapM]. pose proof (H x (or_introl eq_refl)) as Hx.
  destruct (f x) as [y|e]; [|discriminate].
  destruct IH as [ys Hys]; [intros z Hz; apply H; now right|].
  rewrite Hys. now exists (y :: ys).
Qed.

(** A factor without the method is not called, and the lookup fails. *)
Lemma hasattr_false_raises (m : Manifold.t) (name : string) (kw : dict value) :
  Manifold.hasattr m name = false ->
  exists msg, Manifold.call_method m name kw = Raise (AttributeError msg).
Proof.
  unfold Manifold.hasattr. intros H.
  destruct (String.eqb_spec name "projection") as [->|Hp].
  - unfold Manifold.has_projection in H. unfold Manifold.call_method.
    cbn [String.eqb Ascii.eqb Bool.eqb].
    destruct (Manifold.projection m); [discriminate | eexists; reflexivity].
  - cbn [existsb] in H.
    apply orb_false_iff in H as [H1 H]. apply orb_false_iff in H as [H2 H].
    apply orb_false_iff in H as [H3 H]. apply orb_false_iff in H as [H4 H].
    apply orb_false_iff in H as [H5 _].
    apply String.eqb_neq in Hp.
    unfold Manifold.call_method. rewrite H1, H2, H3, Hp, H4, H5.
    eexists. reflexivity.
Qed.

Lemma hasattr_of_ok (m : Manifold.t) (name : string) (kw : dict value) (y : value) :
  Manifold.call_method m name kw = Ok y -> Manifold.hasattr m name = true.
Proof.
  intros H. destruct (Manifold.hasattr m name) eqn:E; [reflexivity|].
  destruct (hasattr_false_raises m name kw E) as [msg Hm]. congruence.
Qed.

(** Once the arguments are split and every factor has its pieces, the
    dispatcher is the loop over the factors, in factor order, each called
    with its pieces and the floats. *)
Lemma dispatch_loop self func (args : dict value) (intrinsic : bool) sp :
  ProductManifold.split_args args
    (ProductManifold.cum_index (ProductManifold.dims self) intrinsic) [] [] = Ok sp ->
  (forall i, i < length (ProductManifold.manifolds self) ->
             is_ok (ProductManifold.args_of_factor (fst sp) i) = true) ->
  ProductManifold._iterate_over_manifolds self func args intrinsic
  = mmapM (factor_invoke func sp) (enumerate (ProductManifold.manifolds self)).
Proof.
  intros Hsp Hok. rewrite dispatch_cases, Hsp.
  destruct (rmapM_all_is_ok (ProductManifold.args_of_factor (fst sp))
              (seq 0 (length (ProductManifold.manifolds self)))) as [args_list E].
  { intros i Hi. apply Hok. apply in_seq in Hi. lia. }
  rewrite E. apply mmapM_pointwise2.
  - now rewrite length_seq, length_enumerate.
  - intros i j [k m] Hi Hj. rewrite nth_error_enumerate in Hj.
    destruct (nth_error (ProductManifold.manifolds self) i) as [m'|] eqn:Em;
      [|discriminate].
    cbn in Hj. injection Hj as <- <-.
    assert (Hlt : i < length (ProductManifold.manifolds self))
      by (apply nth_error_Some; congruence).
    assert (Hnth : nth_error (seq 0 (length (ProductManifold.manifolds self))) i
                   = Some i).
    { rewrite nth_error_nth' with (d := 0) by (rewrite length_seq; lia).
      now rewrite seq_nth by lia. }
    rewrite Hnth in Hi. injection Hi as <-.
    destruct (rmapM_nth_error _ _ _ _ _ E Hnth) as (a & Ha & Hf).
    unfold dispatch_step, factor_invoke. cbn [fst snd].
    rewrite Em, Ha, Hf. reflexivity.
Qed.

(** A dispatch with the one array argument [point]. *)
Lemma dispatch_point_loop self func (point : gs.ndarray Q) (intrinsic : bool) pieces :
  gs.split point (ProductManifold.cum_index (ProductManifold.dims self) intrinsic)
  = Ok pieces ->
  length (ProductManifold.manifolds self) <= length pieces ->
  ProductManifold._iterate_over_manifolds self func [("point", VArray point)] intrinsic
  = mmapM (fun im => invoke (fst im) (snd im) func
                       [("point", VArray (nth (fst im) pieces point))])
          (enumerate (ProductManifold.manifolds self)).
Proof.
  intros Hsplit Hcover.
  assert (Hsp : ProductManifold.split_args [("point", VArray point)]
                  (ProductManifold.cum_index (ProductManifold.dims self) intrinsic) [] []
                = Ok ([("point", map VArray pieces)], [])).
  { cbn. rewrite Hsplit. reflexivity. }
  assert (Hargs : forall i, i < length (ProductManifold.manifolds self) ->
            ProductManifold.args_of_factor [("point", map VArray pieces)] i
            = Ok [("point", VArray (nth i pieces point))]).
  { intros i Hi. unfold ProductManifold.args_of_factor. cbn.
    rewrite nth_error_map, (nth_error_nth_lt pieces i point) by lia. reflexivity. }
  rewrite (dispatch_loop self func _ intrinsic _ Hsp).
  - apply mmapM_ext_in. intros [i m] Hin. unfold factor_invoke. cbn [fst snd].
    apply In_enumerate in Hin.
    assert (Hi : i < length (ProductManifold.manifolds self))
      by (apply nth_error_Some; now rewrite Hin).
    now rewrite (Hargs i Hi).
  - intros i Hi. cbn [fst]. now rewrite (Hargs i Hi).
Qed.

(** The pieces handed to the factors have the factors' own widths. *)
Lemma factor_piece_shapes {A} (point : gs.ndarray A) (batch dims : list nat)
  (intrinsic : bool) (pieces : list (gs.ndarray A)) :
  gs.shape point
  = batch ++ [list_sum (if intrinsic then dims else map (fun k => k + 1) dims)] ->
  gs.split point (ProductManifold.cum_index dims intrinsic) = Ok pieces ->
  map gs.shape (firstn (length dims) pieces)
  = map (fun d => batch ++ [if intrinsic then d else d + 1]) dims.
Proof.
  intros Hshape Hsplit.
  destruct (split_shapes point batch _ (ProductManifold.cum_index dims intrinsic) Hshape)
    as (pieces' & Hsplit' & Hshapes).
  rewrite Hsplit in Hsplit'. injection Hsplit' as <-.
  rewrite <- firstn_map, Hshapes. unfold ProductManifold.cum_index.
  destruct intrinsic.
  - destruct dims as [|d0 dims']; [reflexivity|].
    set (dims := d0 :: dims') in *.
    assert (Hcs : gs.cumsum dims <> []) by discriminate.
    replace (list_sum dims) with (last (gs.cumsum dims) 0) at 1
      by (unfold gs.cumsum; now rewrite cumsum_from_last).
    rewrite <- (app_removelast_last 0 Hcs).
    rewrite firstn_all2 by (rewrite length_map, sections_length, cumsum_length; lia).
    rewrite <- (sections_cumsum_widths 0 dims) at 2.
    rewrite map_map. reflexivity.
  - set (dims' := map (fun k => k + 1) dims) in *.
    rewrite sections_app, map_app.
    rewrite firstn_app, firstn_all2
      by (rewrite length_map, sections_length, cumsum_length; unfold dims';
          rewrite length_map; lia).
    replace (length dims - _) with 0
      by (rewrite length_map, sections_length, cumsum_length; unfold dims';
          rewrite length_map; lia).
    cbn [firstn]. rewrite app_nil_r.
    replace (map (fun d => batch ++ [d + 1]) dims)
      with (map (fun d => batch ++ [d]) dims')
      by (unfold dims'; now rewrite map_map).
    rewrite <- (sections_cumsum_widths 0 dims') at 2.
    rewrite map_map. reflexivity.
Qed.

(** C1. For a product built in vector layout the dispatcher cuts the point
    at the running sums of the factor dimensions (the last one dropped) when
    the point is intrinsic, and at the running sums of [dims[i] + 1] when it
    is extrinsic: it is the loop that calls factor [i], in factor order,
    with piece [i] of that cut, and piece [i] has the width of factor [i].
    For two factors of dimensions 2 and 3 an intrinsic point of width 5 is
    cut at [2]: factor 0 is called with the first two entries, factor 1
    with the last three. *)
Theorem split_boundaries_and_routing :
  (forall manifolds metric self func (point : gs.ndarray Q) (batch : list nat)
          (intrinsic : bool),
      ProductManifold.__init__ manifolds metric "vector" 1 = Ok self ->
      gs.shape point
      = batch ++ [list_sum (if intrinsic then ProductManifold.dims self
                            else map (fun k => k + 1) (ProductManifold.dims self))] ->
      exists pieces,
        gs.split point (boundaries (ProductManifold.dims self) intrinsic) = Ok pieces
        /\ map gs.shape (firstn (length manifolds) pieces)
           = map (fun m => batch ++ [if intrinsic then Manifold.dim m
                                     else Manifold.dim m + 1]) manifolds
        /\ ProductManifold._iterate_over_manifolds self func
             [("point", VArray point)] intrinsic
           = mmapM (fun im => invoke (fst im) (snd im) func
                                [("point", VArray (nth (fst im) pieces point))])
                   (enumerate manifolds))
  /\ (forall m0 m1 metric self func a b c d e,
         Manifold.dim m0 = 2 -> Manifold.dim m1 = 3 ->
         ProductManifold.__init__ [m0; m1] metric "vector" 1 = Ok self ->
         boundaries (ProductManifold.dims self) true = [2]
         /\ ProductManifold._iterate_over_manifolds self func
              [("point", VArray (gs.mk_array [5] [a; b; c; d; e]))] true
            = (r0 <- invoke 0 m0 func [("point", VArray (gs.mk_array [2] [a; b]))] ;;
               r1 <- invoke 1 m1 func [("point", VArray (gs.mk_array [3] [c; d; e]))] ;;
               mret [r0; r1])%M).
Proof.
  split.
  - intros manifolds metric self func point batch intrinsic Hinit Hshape.
    destruct (init_fields _ _ _ _ _ Hinit) as (Hdims & _ & Hms & _ & _).
    assert (Hlen : length (ProductManifold.dims self)
                   = length (ProductManifold.manifolds self))
      by (now rewrite Hdims, Hms, length_map).
    destruct (split_shapes point batch _
                (ProductManifold.cum_index (ProductManifold.dims self) intrinsic) Hshape)
      as (pieces & Hsplit & _).
    exists pieces. rewrite <- cum_index_boundaries. split; [exact Hsplit|]. split.
    + pose proof (factor_piece_shapes point batch _ intrinsic pieces Hshape Hsplit)
        as Hw.
      rewrite Hdims, length_map, map_map in Hw. exact Hw.
    + rewrite <- Hms.
      apply dispatch_point_loop; [exact Hsplit|].
      apply (split_pieces_cover self Q point intrinsic pieces Hlen Hsplit).
  - intros m0 m1 metric self func a b c d e H0 H1 Hinit.
    destruct (init_fields _ _ _ _ _ Hinit) as (Hdims & _ & Hms & _ & _).
    cbn [map] in Hdims. rewrite H0, H1 in Hdims.
    rewrite Hdims. split; [reflexivity|].
    rewrite (dispatch_point_loop self func _ true
               [gs.mk_array [2] [a; b]; gs.mk_array [3] [c; d; e]]).
    + rewrite Hms. cbn [enumerate length seq combine mmapM fst snd nth].
      destruct (invoke 0 m0 func _) as [log0 [r0|e0]]; [|reflexivity].
      destruct (invoke 1 m1 func _) as [log1 [r1|e1]]; [|reflexivity].
      cbn. now rewrite app_nil_r.
    + rewrite Hdims. reflexivity.
    + rewrite Hms. cbn. lia.
Qed.

Lemma split_boundaries_and_routing_witness :
  ProductManifold.__init__ [unit_cube 2; unit_cube 3] (width_metric [2; 3])
    "vector" 1 = Ok cube_2_3_vector
  /\ gs.shape point7
     = [] ++ [list_sum (map (fun k => k + 1) (ProductManifold.dims cube_2_3_vector))]
  /\ (exists pieces,
         gs.split point7 (boundaries (ProductManifold.dims cube_2_3_vector) false)
         = Ok pieces
         /\ map gs.shape (firstn 2 pieces) = [[3]; [4]]
         /\ ProductManifold._iterate_over_manifolds cube_2_3_vector "regularize"
              [("point", VArray point7)] false
            = mmapM (fun im => invoke (fst im) (snd im) "regularize"
                                 [("point", VArray (nth (fst im) pieces point7))])
                    (enumerate [unit_cube 2; unit_cube 3]))
  /\ calls (ProductManifold._iterate_over_manifolds cube_2_3_vector "regularize"
              [("point", VArray point7)] false)
     = [Call 0 "regularize" [("point", VArray (gs.mk_array [3] [0; 1; 0]%Q))];
        Call 1 "regularize" [("point", VArray (gs.mk_array [4] [1; 0; 1; 1]%Q))]]
  /\ ProductManifold._iterate_over_manifolds cube_2_3_vector "regularize"
       [("point", VArray point5)] true
     = (r0 <- invoke 0 (unit_cube 2) "regularize"
                [("point", VArray (gs.mk_array [2] [0; 1]%Q))] ;;
        r1 <- invoke 1 (unit_cube 3) "regularize"
                [("point", VArray (gs.mk_array [3] [0; 1; 0]%Q))] ;;
        mret [r0; r1])%M.
Proof.
  split; [reflexivity|]. split; [reflexivity|].
  split; [|split; [reflexivity|]].
  - exact (proj1 split_boundaries_and_routing
             [unit_cube 2; unit_cube 3] (width_metric [2; 3]) cube_2_3_vector
             "regularize" point7 [] false eq_refl eq_refl).
  - exact (proj2 (proj2 split_boundaries_and_routing
                    (unit_cube 2) (unit_cube 3) (width_metric [2; 3]) cube_2_3_vector
                    "regularize" 0%Q 1%Q 0%Q 1%Q 0%Q eq_refl eq_refl eq_refl)).
Defined.

(** * What each factor receives *)







(** * Projection on the homogeneous power *)





(** * Derived dimension and shape *)

(** C9 (as amended). A constructed heterogeneous product has as dimension
    the sum of the factor dimensions.  In vector layout its shape is the
    one-entry tuple of the summed first entries of the factor shapes, which
    is the sum of the trailing-axis widths when every factor shape has a
    single axis; in matrix layout it is the number of factors followed by
    the shape of the first factor, the common shape when the factors share
    one.  A constructed homogeneous power has dimension [n * base.dim] and
    shape [(n,) + base.shape]. *)
Theorem derived_dim_and_shape :
  (forall manifolds metric tag n_jobs self,
      ProductManifold.__init__ manifolds metric tag n_jobs = Ok self ->
      ProductManifold.dim self = list_sum (map Manifold.dim manifolds)
      /\ ProductManifold.dim self = list_sum (ProductManifold.dims self)
      /\ (tag = "vector" ->
          ProductManifold.shape self
          = [list_sum (map (fun m => hd 0 (Manifold.shape m)) manifolds)]
          /\ (Forall (fun m => length (Manifold.shape m) = 1) manifolds ->
              ProductManifold.shape self
              = [list_sum (map (fun m => last (Manifold.shape m) 0) manifolds)]))
      /\ (tag = "matrix" ->
          (exists m0 rest,
              manifolds = m0 :: rest
              /\ ProductManifold.shape self = [length manifolds] ++ Manifold.shape m0)
          /\ forall s, Forall (fun m => Manifold.shape m = s) manifolds ->
                       ProductManifold.shape self = [length manifolds] ++ s))
  /\ (forall base n self,
         NFoldManifold.__init__ base n = Ok self ->
         NFoldManifold.dim self = n * Manifold.dim base
         /\ NFoldManifold.shape self = [n] ++ Manifold.shape base).
Proof.
  split.
  - intros manifolds metric tag n_jobs self H.
    destruct (init_fields _ _ _ _ _ H) as (Hdims & Hdim & _ & _ & _).
    split; [exact Hdim|]. split; [now rewrite Hdims|]. split.
    + intros ->. destruct (init_shape_vector _ _ _ _ H) as [Hs _].
      split; [exact Hs|]. intros H1. now rewrite Hs, sum_hd_last.
    + intros ->.
      destruct (init_shape_matrix _ _ _ _ H) as (m0 & rest & -> & Hs).
      split.
      * exists m0, rest. split; [reflexivity | exact Hs].
      * intros s Hall. rewrite Hs. inversion Hall; subst. reflexivity.
  - intros base n self H. unfold NFoldManifold.__init__, check_integer in H.
    destruct (0 <? n); [|discriminate].
    cbn in H. injection H as <-. split; reflexivity.
Qed.

Lemma derived_dim_and_shape_witness :
  (ProductManifold.__init__ [unit_cube 2; unit_cube 3] (width_metric [2; 3])
     "vector" 1 = Ok cube_2_3_vector
   /\ Forall (fun m => length (Manifold.shape m) = 1) [unit_cube 2; unit_cube 3]
   /\ ProductManifold.dim cube_2_3_vector = 2 + 3
   /\ ProductManifold.shape cube_2_3_vector = [2 + 3])
  /\ (ProductManifold.__init__ [unit_cube 3; unit_cube 3] (width_metric [3; 3])
        "matrix" 1 = Ok cube_3_3_matrix
      /\ Forall (fun m => Manifold.shape m = [3]) [unit_cube 3; unit_cube 3]
      /\ ProductManifold.dim cube_3_3_matrix = 3 + 3
      /\ ProductManifold.shape cube_3_3_matrix = [2; 3])
  /\ (NFoldManifold.__init__ (unit_cube 3) 4 = Ok (cube_power 3 4)
      /\ NFoldManifold.dim (cube_power 3 4) = 4 * 3
      /\ NFoldManifold.shape (cube_power 3 4) = [4; 3]).
Proof.
  assert (H1 : Forall (fun m => length (Manifold.shape m) = 1)
                      [unit_cube 2; unit_cube 3]) by (repeat constructor).
  assert (H3 : Forall (fun m => Manifold.shape m = [3]) [unit_cube 3; unit_cube 3])
    by (repeat constructor).
  split; [|split].
  - destruct (proj1 derived_dim_and_shape
                [unit_cube 2; unit_cube 3] (width_metric [2; 3]) "vector" 1
                cube_2_3_vector eq_refl) as (Hdim & _ & Hvec & _).
    split; [reflexivity|]. split; [exact H1|]. split; [exact Hdim|].
    exact (proj2 (Hvec eq_refl) H1).
  - destruct (proj1 derived_dim_and_shape
                [unit_cube 3; unit_cube 3] (width_metric [3; 3]) "matrix" 1
                cube_3_3_matrix eq_refl) as (Hdim & _ & _ & Hmat).
    split; [reflexivity|]. split; [exact H3|]. split; [exact Hdim|].
    exact (proj2 (Hmat eq_refl) [3] H3).
  - destruct (proj2 derived_dim_and_shape (unit_cube 3) 4 (cube_power 3 4) eq_refl)
      as (Hdim & Hshape).
    split; [reflexivity|]. split; [exact Hdim | exact Hshape].
Defined.

(** C9 as stated fails: a vector-layout product of a factor of shape (2, 3)
    and a factor of shape (3,) is constructed with shape (5,), the sum of
    the first entries of the factor shapes, while the trailing-axis widths
    of the factors sum to 6. *)
Lemma init_vector_shape_sums_first_entries :
  Manifold.shape grid_2_3 = [2; 3]
  /\ Manifold.shape (unit_cube 3) = [3]
  /\ list_sum (map (fun m => last (Manifold.shape m) 0) [grid_2_3; unit_cube 3]) = 6
  /\ exists self,
      ProductManifold.__init__ [grid_2_3; unit_cube 3] (width_metric [6; 3])
        "vector" 1 = Ok self
      /\ ProductManifold.shape self = [5]
      /\ ProductManifold.shape self
         <> [list_sum (map (fun m => last (Manifold.shape m) 0)
                           [grid_2_3; unit_cube 3])].
Proof.
  split; [reflexivity|]. split; [reflexivity|]. split; [reflexivity|].
  eexists. split; [reflexivity|]. split; [reflexivity | discriminate].
Qed.

(** * The order of the factor calls *)

Lemma dispatch_step_callee self func args_list float_args i :
  (calls (dispatch_step self func args_list float_args i) = []
   /\ is_ok (outcome (dispatch_step self func args_list float_args i)) = false)
  \/ map callee (calls (dispatch_step self func args_list float_args i)) = [i].
Proof.
  unfold dispatch_step.
  destruct (nth_error (ProductManifold.manifolds self) i) as [m|]; [|now left].
  destruct (nth_error args_list i) as [args_i|]; [|now left].
  destruct (Manifold.hasattr m func) eqn:E; [now right|].
  left. split; [reflexivity|]. cbn [outcome snd].
  unfold ProductManifold._get_method.
  destruct (hasattr_false_raises m func (dict_update args_i float_args) E) as [msg ->].
  reflexivity.
Qed.

Lemma log_prefix_seq self func args_list float_args (len a : nat) :
  exists j,
    j <= len
    /\ map callee (log_until_raise (dispatch_step self func args_list float_args)
                                   (seq a len))
       = seq a j.
Proof.
  revert a. induction len as [|len IH]; intros a.
  - exists 0. split; [lia | reflexivity].
  - cbn [seq log_until_raise].
    destruct (dispatch_step_callee self func args_list float_args a) as [[Hc Hok]|Hc].
    + exists 0. rewrite Hc, Hok. split; [lia | reflexivity].
    + rewrite map_app, Hc.
      destruct (is_ok (outcome (dispatch_step self func args_list float_args a))).
      * destruct (IH (S a)) as (j & Hj & Hlog). exists (S j).
        split; [lia|]. rewrite Hlog. reflexivity.
      * exists 1. split; [lia | reflexivity].
Qed.

Lemma log_first_raise_seq {B} (f : nat -> M B) (a len i : nat) :
  i < len ->
  is_ok (outcome (f (a + i))) = false ->
  (forall j, j < i -> is_ok (outcome (f (a + j))) = true) ->
  (forall j, j < i -> map callee (calls (f (a + j))) = [a + j]) ->
  map callee (log_until_raise f (seq a len))
  = seq a i ++ map callee (calls (f (a + i))).
Proof.
  revert a len. induction i as [|i IH]; intros a len Hlt Hraise Hbefore Hcalls.
  - destruct len as [|len]; [lia|]. cbn [seq log_until_raise app].
    rewrite Nat.add_0_r in *. now rewrite Hraise, app_nil_r.
  - destruct len as [|len]; [lia|]. cbn [seq log_until_raise].
    pose proof (Hbefore 0 (Nat.lt_0_succ i)) as H0. rewrite Nat.add_0_r in H0.
    pose proof (Hcalls 0 (Nat.lt_0_succ i)) as Hc0. rewrite Nat.add_0_r in Hc0.
    rewrite H0, map_app, Hc0.
    rewrite (IH (S a) len).
    + now rewrite Nat.add_succ_comm.
    + lia.
    + now rewrite Nat.add_succ_comm.
    + intros j Hj. rewrite Nat.add_succ_comm. apply Hbefore. lia.
    + intros j Hj. rewrite Nat.add_succ_comm. apply Hcalls. lia.
Qed.

Lemma dispatch_step_factor_call self func sp args_list i m :
  rmapM (ProductManifold.args_of_factor (fst sp))
        (seq 0 (length (ProductManifold.manifolds self))) = Ok args_list ->
  nth_error (ProductManifold.manifolds self) i = Some m ->
  outcome (dispatch_step self func args_list (snd sp) i) = factor_call func sp (i, m)
  /\ map callee (calls (dispatch_step self func args_list (snd sp) i))
     = (if Manifold.hasattr m func then [i] else [])
  /\ (is_ok (factor_call func sp (i, m)) = true -> Manifold.hasattr m func = true).
Proof.
  intros E Hm.
  assert (Hlt : i < length (ProductManifold.manifolds self))
    by (apply nth_error_Some; now rewrite Hm).
  assert (Hnth : nth_error (seq 0 (length (ProductManifold.manifolds self))) i = Some i).
  { rewrite nth_error_nth' with (d := 0) by (rewrite length_seq; lia).
    now rewrite seq_nth by lia. }
  destruct (rmapM_nth_error _ _ _ _ _ E Hnth) as (a & Ha & Hf).
  unfold dispatch_step, factor_call. rewrite Hm, Ha. cbn [outcome calls fst snd].
  rewrite Hf. cbn [rbind]. split; [reflexivity|]. split.
  - now destruct (Manifold.hasattr m func).
  - intros Hok.
    destruct (Manifold.call_method m func (dict_update a (snd sp))) as [y|e] eqn:Ec;
      [|discriminate].
    exact (hasattr_of_ok m func _ y Ec).
Qed.

(** X5. With one worker the dispatcher calls the factors in factor order,
    each at most once and without skipping one: the callees of its log are
    [0, 1, ..., j - 1] for some [j].  When the call into factor [i] is the
    first that raises, no factor behind it is called, and factor [i] itself
    is called exactly when it has the method: a lookup that fails is no
    call. *)
Theorem dispatch_calls_stop_at_first_error :
  forall self func args intrinsic,
    ProductManifold.n_jobs self = 1 ->
    (exists j,
        j <= length (ProductManifold.manifolds self)
        /\ map callee
               (calls (ProductManifold._iterate_over_manifolds self func args intrinsic))
           = seq 0 j)
    /\ forall sp i m e,
        ProductManifold.split_args args
          (ProductManifold.cum_index (ProductManifold.dims self) intrinsic) [] []
        = Ok sp ->
        (forall j, j < length (ProductManifold.manifolds self) ->
                   is_ok (ProductManifold.args_of_factor (fst sp) j) = true) ->
        nth_error (ProductManifold.manifolds self) i = Some m ->
        factor_call func sp (i, m) = Raise e ->
        (forall j m', j < i ->
                      nth_error (ProductManifold.manifolds self) j = Some m' ->
                      is_ok (factor_call func sp (j, m')) = true) ->
        map callee
            (calls (ProductManifold._iterate_over_manifolds self func args intrinsic))
        = seq 0 (if Manifold.hasattr m func then S i else i).
Proof.
  intros self func args intrinsic _. split.
  - rewrite dispatch_cases.
    destruct (ProductManifold.split_args args _ [] []) as [sp|e];
      [|exists 0; split; [lia | reflexivity]].
    destruct (rmapM _ (seq 0 _)) as [args_list|e];
      [|exists 0; split; [lia | reflexivity]].
    rewrite calls_mmapM. apply log_prefix_seq.
  - intros sp i m e Hsp Hok Hm Hraise Hbefore.
    rewrite dispatch_cases, Hsp.
    destruct (rmapM_all_is_ok (ProductManifold.args_of_factor (fst sp))
                (seq 0 (length (ProductManifold.manifolds self)))) as [args_list E].
    { intros k Hk. apply Hok. apply in_seq in Hk. lia. }
    rewrite E, calls_mmapM.
    assert (Hlt : i < length (ProductManifold.manifolds self))
      by (apply nth_error_Some; now rewrite Hm).
    rewrite (log_first_raise_seq _ 0 _ i Hlt); cbn [Nat.add].
    + destruct (dispatch_step_factor_call self func sp args_list i m E Hm)
        as (_ & Hc & _).
      rewrite Hc. destruct (Manifold.hasattr m func).
      * now rewrite seq_S.
      * apply app_nil_r.
    + rewrite (proj1 (dispatch_step_factor_call self func sp args_list i m E Hm)).
      now rewrite Hraise.
    + intros j Hj.
      destruct (nth_error (ProductManifold.manifolds self) j) as [m'|] eqn:Em;
        [|apply nth_error_None in Em; lia].
      rewrite (proj1 (dispatch_step_factor_call self func sp args_list j m' E Em)).
      now apply Hbefore.
    + intros j Hj.
      destruct (nth_error (ProductManifold.manifolds self) j) as [m'|] eqn:Em;
        [|apply nth_error_None in Em; lia].
      destruct (dispatch_step_factor_call self func sp args_list j m' E Em)
        as (_ & Hc & Hhas).
      rewrite Hc, Hhas; [reflexivity|]. now apply Hbefore.
Qed.

Lemma dispatch_calls_stop_at_first_error_witness :
  let args := [("point", VArray point5)] in
  let sp := ([("point", [VArray (gs.mk_array [2] [0; 1]%Q);
                         VArray (gs.mk_array [3] [0; 1; 0]%Q)])],
             @nil (string * value)) in
  ProductManifold.n_jobs cube_2_no_projection_3 = 1
  /\ ProductManifold.split_args args
       (ProductManifold.cum_index (ProductManifold.dims cube_2_no_projection_3) true)
       [] [] = Ok sp
  /\ nth_error (ProductManifold.manifolds cube_2_no_projection_3) 1
     = Some (unit_cube_no_projection 3)
  /\ factor_call "projection" sp (1, unit_cube_no_projection 3)
     = Raise (AttributeError "object has no attribute 'projection'")
  /\ Manifold.hasattr (unit_cube_no_projection 3) "projection" = false
  /\ map callee
         (calls (ProductManifold._iterate_over_manifolds cube_2_no_projection_3
                   "projection" args true))
     = [0]
  /\ map callee
         (calls (ProductManifold._iterate_over_manifolds cube_2_no_projection_3
                   "regularize" args true))
     = [0; 1].
Proof.
  intros args sp.
  assert (Hok : forall j, j < length (ProductManifold.manifolds cube_2_no_projection_3) ->
                          is_ok (ProductManifold.args_of_factor (fst sp) j) = true).
  { intros j Hj. destruct j as [|[|j]]; [reflexivity | reflexivity |].
    cbn in Hj. lia. }
  assert (Hbefore : forall j m', j < 1 ->
                      nth_error (ProductManifold.manifolds cube_2_no_projection_3) j
                      = Some m' ->
                      is_ok (factor_call "projection" sp (j, m')) = true).
  { intros j m' Hj Hm. destruct j as [|j]; [|lia].
    cbn in Hm. injection Hm as <-. reflexivity. }
  split; [reflexivity|]. split; [reflexivity|]. split; [reflexivity|].
  split; [reflexivity|]. split; [reflexivity|].
  split; [|reflexivity].
  exact (proj2 (dispatch_calls_stop_at_first_error cube_2_no_projection_3 "projection"
                  args true eq_refl)
           sp 1 (unit_cube_no_projection 3)
           (AttributeError "object has no attribute 'projection'")
           eq_refl Hok eq_refl eq_refl Hbefore).
Defined.
